(** * DreamFit IoT: quota-aware retrieval and heart-rate segmentation

    A shallow embedding of the parts of the Fitbit retrieval and formatting
    code (RateLimiter.py, DataRetrieval.py, DataFormatting.py, and the date
    handling of main.py) that carry the algorithmic content, with the
    properties proved about them.

    Conventions.
    - Python [int] is [Z].  The [float]s that occur as durations are
      integer-valued second counts far below 2^53, so they are [Z] too; sleep
      lengths and means are exact rationals ([Q]).
    - [str] is [string]; the parsers below read ASCII digits.
    - A raised exception is the [Raise] result; [sys.exit(1)] raises
      [SystemExit 1].
    - The payloads the normalizers read are records with one optional field
      for each key the code looks up; [None] is the absent key.
    - What the clock, the user and the server supply ([datetime.now()],
      [input()], the responses) is a parameter of the function. *)

From Stdlib Require Import ZArith QArith Qround Lia Lqa Ascii String.
From stdpp Require Import base option list strings gmap pretty.

Local Open Scope Z_scope.
Set Warnings "-register-all".

(** ** Exceptions and results *)

Inductive exn : Type :=
| ValueError
| KeyError
| TypeError
| IndexError
| OverflowError
| SystemExit (code : Z).

Inductive result (A : Type) : Type :=
| Ok (a : A)
| Raise (e : exn).
Arguments Ok {A} a.
Arguments Raise {A} e.

#[export] Instance result_ret : MRet result := fun A a => Ok a.
#[export] Instance result_bind : MBind result := fun A B f m =>
  match m with
  | Ok a => f a
  | Raise e => Raise e
  end.

#[export] Instance result_fmap : FMap result := fun A B f m =>
  match m with
  | Ok a => Ok (f a)
  | Raise e => Raise e
  end.

Definition of_option {A : Type} (e : exn) (o : option A) : result A :=
  match o with
  | Some a => Ok a
  | None => Raise e
  end.

(** ** Python list indexing, negative indices included *)

Definition py_index {A : Type} (l : list A) (i : Z) : result A :=
  let n := Z.of_nat (length l) in
  let j := if i <? 0 then i + n else i in
  if (j <? 0) || (n <=? j) then Raise IndexError
  else of_option IndexError (l !! Z.to_nat j).

(** ** Decimal fields *)

Definition is_digit (c : ascii) : bool :=
  (48 <=? Z.of_nat (nat_of_ascii c)) && (Z.of_nat (nat_of_ascii c) <=? 57).

Definition digit_val (c : ascii) : Z := Z.of_nat (nat_of_ascii c) - 48.

(** [str.split(sep)] for a one-character separator. *)
Fixpoint split_on (sep : ascii) (s : string) : list string :=
  match s with
  | EmptyString => [EmptyString]
  | String c s' =>
      if Ascii.eqb c sep then EmptyString :: split_on sep s'
      else match split_on sep s' with
           | [] => [String c EmptyString]
           | f :: fs => String c f :: fs
           end
  end.

(** A strptime numeric field of one or two digits ([%H], [%M], [%S], [%m],
    [%d]). *)
Definition field12 (s : string) : option Z :=
  match s with
  | String a EmptyString =>
      if is_digit a then Some (digit_val a) else None
  | String a (String b EmptyString) =>
      if is_digit a && is_digit b then Some (10 * digit_val a + digit_val b)
      else None
  | _ => None
  end.

(** The [%Y] field: exactly four digits. *)
Definition field4 (s : string) : option Z :=
  match s with
  | String a (String b (String c (String d EmptyString))) =>
      if is_digit a && is_digit b && is_digit c && is_digit d
      then Some (1000 * digit_val a + 100 * digit_val b
                 + 10 * digit_val c + digit_val d)
      else None
  | _ => None
  end.

(** The [%d] field also admits a space before a single digit. *)
Definition field_day (s : string) : option Z :=
  match s with
  | String " " (String b EmptyString) =>
      if is_digit b then Some (digit_val b) else None
  | _ => field12 s
  end.

(** ** datetime *)

(** A [datetime] at second resolution: proleptic Gregorian day ordinal and
    second of the day. *)
Record datetime : Type := mkdt { dt_days : Z; dt_secs : Z }.

Definition is_leap (y : Z) : bool :=
  (y mod 4 =? 0) && (negb (y mod 100 =? 0) || (y mod 400 =? 0)).

Definition days_before_year (y : Z) : Z :=
  let y1 := y - 1 in y1 * 365 + y1 / 4 - y1 / 100 + y1 / 400.

Definition days_in_month (y m : Z) : Z :=
  if m =? 2 then (if is_leap y then 29 else 28)
  else if (m =? 4) || (m =? 6) || (m =? 9) || (m =? 11) then 30
  else 31.

Definition days_before_month (y m : Z) : Z :=
  fold_right Z.add 0
    (map (days_in_month y) (map Z.of_nat (seq 1 (Z.to_nat (m - 1))))).

Definition ymd2ord (y m d : Z) : Z :=
  days_before_year y + days_before_month y m + d.

(** The inverse of [ymd2ord], by the arithmetic of CPython's [_ord2ymd]. *)
Definition ord2ymd (ordinal : Z) : Z * Z * Z :=
  let n := ordinal - 1 in
  let n400 := n / 146097 in
  let n := n mod 146097 in
  let n100 := n / 36524 in
  let n := n mod 36524 in
  let n4 := n / 1461 in
  let n := n mod 1461 in
  let n1 := n / 365 in
  let n := n mod 365 in
  let year := n400 * 400 + 1 + n100 * 100 + n4 * 4 + n1 in
  if (n1 =? 4) || (n100 =? 4) then (year - 1, 12, 31)
  else
    let month := Z.shiftr (n + 50) 5 in
    let preceding := days_before_month year month in
    if n <? preceding
    then (year, month - 1, n - days_before_month year (month - 1) + 1)
    else (year, month, n - preceding + 1).

Definition max_ordinal : Z := 3652059.

(** [a + timedelta(days=n)] on a date within the supported years. *)
Definition dt_plus_days (a : datetime) (n : Z) : result datetime :=
  let d := dt_days a + n in
  if (1 <=? d) && (d <=? max_ordinal) then Ok (mkdt d (dt_secs a))
  else Raise OverflowError.

Definition zero_pad (width : nat) (n : Z) : string :=
  let digits := pretty n in
  String.concat "" (replicate (width - String.length digits) "0") +:+ digits.

(** [d.strftime('%Y-%m-%d')], the year written with four digits. *)
Definition strftime_ymd (d : datetime) : string :=
  let '(y, m, dd) := ord2ymd (dt_days d) in
  zero_pad 4 y +:+ "-" +:+ zero_pad 2 m +:+ "-" +:+ zero_pad 2 dd.

(** [datetime.strptime(s, '%H:%M:%S')]: the date defaults to 1900-01-01. *)
Definition strptime_hms (s : string) : result datetime :=
  match split_on ":" s with
  | [h; m; sec] =>
      match field12 h, field12 m, field12 sec with
      | Some hh, Some mm, Some ss =>
          if (hh <=? 23) && (mm <=? 59) && (ss <=? 59)
          then Ok (mkdt (ymd2ord 1900 1 1) (hh * 3600 + mm * 60 + ss))
          else Raise ValueError
      | _, _, _ => Raise ValueError
      end
  | _ => Raise ValueError
  end.

(** [datetime.strptime(s, '%Y-%m-%d')]. *)
Definition strptime_ymd (s : string) : result datetime :=
  match split_on "-" s with
  | [y; m; d] =>
      match field4 y, field12 m, field_day d with
      | Some yy, Some mm, Some dd =>
          if (1 <=? yy) && (1 <=? mm) && (mm <=? 12)
             && (1 <=? dd) && (dd <=? days_in_month yy mm)
          then Ok (mkdt (ymd2ord yy mm dd) 0)
          else Raise ValueError
      | _, _, _ => Raise ValueError
      end
  | _ => Raise ValueError
  end.

(** [a < b] on datetimes. *)
Definition dt_lt (a b : datetime) : bool :=
  (dt_days a <? dt_days b)
  || ((dt_days a =? dt_days b) && (dt_secs a <? dt_secs b)).

(** [a + timedelta(days=n)] where the result cannot leave the supported
    years (a clock time parsed onto 1900-01-01). *)
Definition dt_add_days (a : datetime) (n : Z) : datetime :=
  mkdt (dt_days a + n) (dt_secs a).

(** [(a - b).total_seconds()]. *)
Definition dt_total_seconds (a b : datetime) : Z :=
  (dt_days a - dt_days b) * 86400 + (dt_secs a - dt_secs b).

(** [(a - b).days]: timedelta normalises seconds into [0, 86400). *)
Definition dt_diff_days (a b : datetime) : Z :=
  dt_total_seconds a b / 86400.

(** ** DataExtractor: durations *)

Definition calculate_duration (start_time end_time : string) : result Z :=
  if String.eqb start_time "N/A" || String.eqb end_time "N/A" then Ok 0
  else
    start ← strptime_hms start_time;
    end_ ← strptime_hms end_time;
    let end' := if dt_lt end_ start then dt_add_days end_ 1 else end_ in
    Ok (dt_total_seconds end' start).

(** The three numbers [format_duration] interpolates into
    "{hours} hours {minutes} minutes {seconds} seconds". *)
Record duration_text : Type :=
  mkdur { dur_hours : Z; dur_minutes : Z; dur_seconds : Z }.

Definition format_duration (total_seconds : Z) : duration_text :=
  mkdur (total_seconds / 3600) ((total_seconds mod 3600) / 60)
        (total_seconds mod 60).

(** The second count a formatted duration spells out. *)
Definition duration_in_seconds (d : duration_text) : Z :=
  dur_hours d * 3600 + dur_minutes d * 60 + dur_seconds d.

(** ** DataExtractor: run-length segmentation *)

Record Sample : Type := mkSample { time : string; value : Z }.

Inductive period_type : Type := active | resting.

#[export] Instance period_type_eq_dec : EqDecision period_type.
Proof. solve_decision. Defined.

Definition max_rate_on_rest : Z := 110.

Definition classify (entry : Sample) : period_type :=
  if max_rate_on_rest <? value entry then active else resting.

(** The four locals of [calculate_period_durations]. *)
Record scan_state : Type := mkScan {
  active_duration_total : Z;
  resting_duration_total : Z;
  current_period_start : option string;
  current_period_type : option period_type
}.

Definition scan_init : scan_state := mkScan 0 0 None None.

(** [if current_period_type == 'active': active += d else: resting += d]. *)
Definition add_duration (st : scan_state) (d : Z) : scan_state :=
  match current_period_type st with
  | Some active =>
      mkScan (active_duration_total st + d) (resting_duration_total st)
             (current_period_start st) (current_period_type st)
  | _ =>
      mkScan (active_duration_total st) (resting_duration_total st + d)
             (current_period_start st) (current_period_type st)
  end.

(** One iteration of [for i, entry in enumerate(data)]. *)
Definition scan_step (data : list Sample) (st : scan_state)
    (i : nat) (entry : Sample) : result scan_state :=
  let current_type := classify entry in
  if decide (current_period_type st = Some current_type) then Ok st
  else
    st' ← match current_period_start st with
          | Some start =>
              prev ← py_index data (Z.of_nat i - 1);
              duration ← calculate_duration start (time prev);
              Ok (add_duration st duration)
          | None => Ok st
          end;
    Ok (mkScan (active_duration_total st') (resting_duration_total st')
               (Some (time entry)) (Some current_type)).

(** The loop over the samples from index [i] on. *)
Fixpoint scan_from (data : list Sample) (i : nat) (rest : list Sample)
    (st : scan_state) : result scan_state :=
  match rest with
  | [] => Ok st
  | entry :: rest' =>
      st' ← scan_step data st i entry;
      scan_from data (S i) rest' st'
  end.

(** The statement after the loop, closing the last open run. *)
Definition close_last (data : list Sample) (st : scan_state)
    : result scan_state :=
  match current_period_start st with
  | Some start =>
      if (0 <? Z.of_nat (length data)) then
        last_entry ← py_index data (-1);
        duration ← calculate_duration start (time last_entry);
        Ok (add_duration st duration)
      else Ok st
  | None => Ok st
  end.

(** The two totals, in seconds, before they are formatted. *)
Definition period_totals (data : list Sample) : result (Z * Z) :=
  st ← scan_from data 0 data scan_init;
  st' ← close_last data st;
  Ok (active_duration_total st', resting_duration_total st').

Definition calculate_period_durations (data : list Sample)
    : result (duration_text * duration_text) :=
  totals ← period_totals data;
  Ok (format_duration (fst totals), format_duration (snd totals)).

(** ** JSON documents *)

(** A parsed JSON document, as [response.json()] returns it.  Python's [None]
    is [JNull]; numbers are integers here, since the retrieval code looks
    only at a document's kind and truthiness. *)
Inductive json : Type :=
| JNull
| JBool (b : bool)
| JNum (z : Z)
| JStr (s : string)
| JArr (l : list json)
| JObj (l : list (string * json)).

(** [d.get(k)] on a JSON object kept as an association list of distinct
    keys. *)
Fixpoint assoc (k : string) (l : list (string * json)) : option json :=
  match l with
  | [] => None
  | (k', v) :: l' => if String.eqb k k' then Some v else assoc k l'
  end.

(** [bool(x)]. *)
Definition truthy (j : json) : bool :=
  match j with
  | JNull => false
  | JBool b => b
  | JNum z => negb (z =? 0)
  | JStr s => negb (String.eqb s "")
  | JArr l => match l with [] => false | _ => true end
  | JObj l => match l with [] => false | _ => true end
  end.

(** [needle in hay] on strings. *)
Fixpoint contains (needle hay : string) : bool :=
  String.prefix needle hay
  || match hay with
     | EmptyString => false
     | String _ hay' => contains needle hay'
     end.

(** [j == s] for a string [s]. *)
Definition is_jstr (s : string) (j : json) : bool :=
  match j with
  | JStr s' => String.eqb s s'
  | _ => false
  end.

(** ** RateLimitManager *)

(** What a slot of [rate_limit] holds: the initial integers, later the text
    of a response header. *)
Inductive pyval : Type :=
| PInt (z : Z)
| PStr (s : string).

Record RateLimit : Type := mkRateLimit {
  rl_limit : pyval;
  rl_remaining : pyval;
  rl_reset : pyval
}.

Definition rate_limit_init : RateLimit :=
  mkRateLimit (PInt 150) (PInt 150) (PInt 0).

(** ASCII lower-casing, as [CaseInsensitiveDict] applies to its keys. *)
Definition lower_ascii (c : ascii) : ascii :=
  let n := nat_of_ascii c in
  if (65 <=? n)%nat && (n <=? 90)%nat then ascii_of_nat (n + 32) else c.

Fixpoint lower (s : string) : string :=
  match s with
  | EmptyString => EmptyString
  | String c s' => String (lower_ascii c) (lower s')
  end.

(** Response headers: a [CaseInsensitiveDict], stored under the lower-cased
    name. *)
Definition case_insensitive_dict (raw : list (string * string))
    : gmap string string :=
  foldl (fun m kv => <[lower (fst kv) := snd kv]> m) ∅ raw.

(** [headers.get(name, default)]. *)
Definition headers_get (headers : gmap string string) (name : string)
    (dflt : pyval) : pyval :=
  match headers !! lower name with
  | Some v => PStr v
  | None => dflt
  end.

Definition update_rate_limit (rl : RateLimit) (headers : gmap string string)
    : RateLimit :=
  let l := headers_get headers "fitbit-rate-limit-limit" (rl_limit rl) in
  let r := headers_get headers "fitbit-rate-limit-remaining"
             (rl_remaining rl) in
  let t := headers_get headers "fitbit-rate-limit-reset" (rl_reset rl) in
  mkRateLimit l r t.

(** ** int() *)

Definition is_space (c : ascii) : bool :=
  let n := nat_of_ascii c in
  ((9 <=? n)%nat && (n <=? 13)%nat) || ((28 <=? n)%nat && (n <=? 32)%nat).

Fixpoint lstrip (s : list ascii) : list ascii :=
  match s with
  | c :: s' => if is_space c then lstrip s' else s
  | [] => []
  end.

Definition strip (s : list ascii) : list ascii :=
  rev (lstrip (rev (lstrip s))).

(** Decimal digits with single underscores between them. *)
Fixpoint digits_value (acc : Z) (after_digit : bool) (s : list ascii)
    : option Z :=
  match s with
  | [] => if after_digit then Some acc else None
  | c :: s' =>
      if is_digit c then digits_value (10 * acc + digit_val c) true s'
      else if Ascii.eqb c "_" && after_digit then digits_value acc false s'
      else None
  end.

(** [int(s)] for a string, base 10. *)
Definition int_of_str (s : string) : result Z :=
  let body := strip (list_ascii_of_string s) in
  of_option ValueError
    match body with
    | c :: rest =>
        if Ascii.eqb c "-" then Z.opp <$> digits_value 0 false rest
        else if Ascii.eqb c "+" then digits_value 0 false rest
        else digits_value 0 false body
    | [] => None
    end.

Definition py_int (v : pyval) : result Z :=
  match v with
  | PInt z => Ok z
  | PStr s => int_of_str s
  end.

(** ** FitbitDataRetriever: state and effects *)

Record Response : Type := mkResponse {
  status_code : Z;
  headers : gmap string string;
  (** [None]: the body is not JSON, [response.json()] raises. *)
  body : option json
}.

(** The retriever object together with the class-level quota record and a
    trace of what it did to the outside: the URLs requested and the lengths
    of the calls to [time.sleep], both in order. *)
Record Retriever : Type := mkRetriever {
  rate_limit : RateLimit;
  total_requests : Z;
  successful_requests : gmap string Z;
  failed_requests : gmap string Z;
  requested : list string;
  slept : list Q
}.

Definition counters_init : gmap string Z :=
  list_to_map
    ((fun r => (r, 0)) <$>
     ["steps"; "heart"; "calories"; "sleep"; "spo2"; "rate"; "devices"]).

Definition retriever_init : Retriever :=
  mkRetriever rate_limit_init 0 counters_init counters_init [] [].

(** The remote API: the response to the [n]-th request of the run. *)
Definition Server : Type := nat -> Response.

(** State and exceptions. *)
Definition M (A : Type) : Type := Retriever -> result A * Retriever.

#[export] Instance M_ret : MRet M := fun A a st => (Ok a, st).
#[export] Instance M_bind : MBind M := fun A B f m st =>
  match m st with
  | (Ok a, st') => f a st'
  | (Raise e, st') => (Raise e, st')
  end.

Definition lift {A : Type} (r : result A) : M A := fun st => (r, st).
Definition get_state : M Retriever := fun st => (Ok st, st).

Definition base_url : string := "https://api.fitbit.com".

(** [requests.get(f"{self.base_url}/{endpoint}", headers=self.headers)]. *)
Definition requests_get (srv : Server) (endpoint : string) : M Response :=
  fun st =>
    let response := srv (length (requested st)) in
    (Ok response,
     mkRetriever (rate_limit st) (total_requests st)
       (successful_requests st) (failed_requests st)
       (requested st ++ [base_url +:+ "/" +:+ endpoint]) (slept st)).

Definition do_update_rate_limit (h : gmap string string) : M unit :=
  fun st =>
    (Ok tt,
     mkRetriever (update_rate_limit (rate_limit st) h) (total_requests st)
       (successful_requests st) (failed_requests st)
       (requested st) (slept st)).

(** [time.sleep(secs)]: a negative length is a ValueError. *)
Definition time_sleep (secs : Q) : M unit :=
  fun st =>
    if Qle_bool 0 secs then
      (Ok tt,
       mkRetriever (rate_limit st) (total_requests st)
         (successful_requests st) (failed_requests st)
         (requested st) (slept st ++ [secs]))
    else (Raise ValueError, st).

(** [counters[key] += 1]. *)
Definition incr (counters : gmap string Z) (key : string)
    : result (gmap string Z) :=
  n ← of_option KeyError (counters !! key);
  Ok (<[key := n + 1]> counters).

Definition incr_successful (resource_type : string) : M unit :=
  fun st =>
    match incr (successful_requests st) resource_type with
    | Ok c =>
        (Ok tt,
         mkRetriever (rate_limit st) (total_requests st) c
           (failed_requests st) (requested st) (slept st))
    | Raise e => (Raise e, st)
    end.

Definition incr_failed (resource_type : string) : M unit :=
  fun st =>
    match incr (failed_requests st) resource_type with
    | Ok c =>
        (Ok tt,
         mkRetriever (rate_limit st) (total_requests st)
           (successful_requests st) c (requested st) (slept st))
    | Raise e => (Raise e, st)
    end.

Definition incr_total : M unit :=
  fun st =>
    (Ok tt,
     mkRetriever (rate_limit st) (total_requests st + 1)
       (successful_requests st) (failed_requests st)
       (requested st) (slept st)).

(** [response.json()]. *)
Definition response_json (response : Response) : result json :=
  of_option ValueError (body response).

(** ** log_error_details *)

(** [error['message']] for one element of the error list. *)
Definition error_message_of (error : json) : result json :=
  match error with
  | JObj l => of_option KeyError (assoc "message" l)
  | _ => Raise TypeError
  end.

(** [', '.join(parts)]: every part must be a string. *)
Fixpoint join_messages (parts : list json) : result string :=
  match parts with
  | [] => Ok ""
  | [JStr s] => Ok s
  | JStr s :: rest => t ← join_messages rest; Ok (s +:+ ", " +:+ t)
  | _ :: _ => Raise TypeError
  end.

Fixpoint mapM_result {A B : Type} (f : A -> result B) (l : list A)
    : result (list B) :=
  match l with
  | [] => Ok []
  | a :: l' => b ← f a; bs ← mapM_result f l'; Ok (b :: bs)
  end.

(** The items [for error in errors] runs over. *)
Definition iterate (errors : json) : result (list json) :=
  match errors with
  | JArr l => Ok l
  | JObj l => Ok (JStr <$> (fst <$> l))
  | JStr s => Ok ((fun c => JStr (String c EmptyString))
                    <$> list_ascii_of_string s)
  | _ => Raise TypeError
  end.

(** ['errors' in error_details], then [error_details['errors']]. *)
Definition errors_of (error_details : json) : result (option json) :=
  match error_details with
  | JObj l => Ok (assoc "errors" l)
  | JArr l =>
      if existsb (is_jstr "errors") l then Raise TypeError else Ok None
  | JStr s => if contains "errors" s then Raise TypeError else Ok None
  | _ => Raise TypeError
  end.

(** The message the method logs; the [except ValueError] clause covers the
    undecodable body only. *)
Definition log_error_details (response : Response) (attempt : Z)
    (resource_type : string) : result string :=
  match response_json response with
  | Ok error_details =>
      errors ← errors_of error_details;
      match errors with
      | Some es =>
          items ← iterate es;
          parts ← mapM_result error_message_of items;
          join_messages parts
      | None => Ok "Unknown Error"
      end
  | Raise ValueError => Ok "Failed to parse JSON response"
  | Raise e => Raise e
  end.

(** ** get_data *)

(** How one pass through the body of the [while] loop ends. *)
Inductive loop_exit : Type :=
| Returned (v : json)
| Continue (attempt : Z).

Definition get_data_attempt (srv : Server) (endpoint resource_type : string)
    (backoff_factor : Q) (attempt : Z) : M loop_exit :=
  response ← requests_get srv endpoint;
  _ ← do_update_rate_limit (headers response);
  if status_code response =? 200 then
    _ ← incr_successful resource_type;
    _ ← incr_total;
    v ← lift (response_json response);
    mret (Returned v)
  else if status_code response =? 429 then
    st ← get_state;
    reset_time ← lift (py_int (rl_reset (rate_limit st)));
    let remaining_time := reset_time in
    _ ← (if 0 <? remaining_time
         then time_sleep (inject_Z (remaining_time + 1))
         else time_sleep (inject_Z (attempt + 1) * backoff_factor)%Q);
    mret (Continue (attempt + 1))
  else
    _ ← lift (log_error_details response attempt resource_type);
    _ ← time_sleep (inject_Z (attempt + 1) * backoff_factor)%Q;
    _ ← incr_failed resource_type;
    _ ← incr_total;
    mret (Continue (attempt + 1)).

(** [while attempt < retries]: every pass that does not return adds one to
    [attempt], so [todo] = [retries - attempt] passes remain. *)
Fixpoint get_data_loop (srv : Server) (endpoint resource_type : string)
    (backoff_factor : Q) (todo : nat) (attempt : Z) : M json :=
  match todo with
  | O => mret JNull
  | S todo' =>
      r ← get_data_attempt srv endpoint resource_type backoff_factor attempt;
      match r with
      | Returned v => mret v
      | Continue attempt' =>
          get_data_loop srv endpoint resource_type backoff_factor
            todo' attempt'
      end
  end.

Definition get_data (srv : Server) (endpoint resource_type : string)
    (retries : Z) (backoff_factor : Q) : M json :=
  get_data_loop srv endpoint resource_type backoff_factor
    (Z.to_nat retries) 0.

Definition default_retries : Z := 3.
Definition default_backoff_factor : Q := 3 # 2.

(** ** Endpoints and the retrieval loop *)

Definition member (x : string) (l : list string) : bool :=
  existsb (String.eqb x) l.

(** [None] for a resource outside the six known kinds. *)
Definition construct_endpoint (user_id resource date : string)
    : option string :=
  if member resource ["steps"; "heart"; "calories"] then
    Some ("/1/user/" +:+ user_id +:+ "/activities/" +:+ resource
          +:+ "/date/" +:+ date +:+ "/1d.json")
  else if String.eqb resource "sleep" then
    Some ("/1.2/user/" +:+ user_id +:+ "/sleep/date/" +:+ date +:+ ".json")
  else if String.eqb resource "spo2" then
    Some ("/1/user/" +:+ user_id +:+ "/spo2/date/" +:+ date +:+ ".json")
  else if String.eqb resource "rate" then
    Some ("/1/user/" +:+ user_id +:+ "/activities/heart/date/" +:+ date
          +:+ "/1d/1sec.json")
  else None.

(** How an endpoint reads inside the f-string of the URL. *)
Definition endpoint_text (endpoint : option string) : string :=
  default "None" endpoint.

Definition check_not_exceeded (resources : list string) (num_days : Z)
    : M unit :=
  let total := Z.of_nat (length resources) * num_days in
  st ← get_state;
  remaining_requests ← lift (py_int (rl_remaining (rate_limit st)));
  if remaining_requests <? total then lift (Raise (SystemExit 1))
  else mret tt.

(** The dictionary [get_all_data_for_date_ranges] builds: one list of daily
    payloads per resource, and the device id. *)
Record Bundle : Type := mkBundle {
  per_resource : gmap string (list json);
  bundle_device_id : string
}.

Definition all_resources : list string :=
  ["steps"; "heart"; "calories"; "sleep"; "spo2"; "rate"].

Definition bundle_init (device_id : string) : Bundle :=
  mkBundle (list_to_map ((fun r => (r, [])) <$> all_resources)) device_id.

(** [data[resource].append(daily_data)]. *)
Definition bundle_append (data : Bundle) (resource : string)
    (daily_data : json) : result Bundle :=
  l ← of_option KeyError (per_resource data !! resource);
  Ok (mkBundle (<[resource := l ++ [daily_data]]> (per_resource data))
               (bundle_device_id data)).

(** [for resource in resources] for one date. *)
Fixpoint fetch_resources (srv : Server) (user_id date_str : string)
    (resources : list string) (data : Bundle) : M Bundle :=
  match resources with
  | [] => mret data
  | resource :: rest =>
      let endpoint := construct_endpoint user_id resource date_str in
      daily_data ← get_data srv (endpoint_text endpoint) resource
                     default_retries default_backoff_factor;
      data' ← (if truthy daily_data
               then lift (bundle_append data resource daily_data)
               else mret data);
      fetch_resources srv user_id date_str rest data'
  end.

(** [for single_date in (start + timedelta(n) for n in range(num_days))]. *)
Fixpoint fetch_days (srv : Server) (user_id : string) (start : datetime)
    (offsets : list Z) (resources : list string) (data : Bundle)
    : M Bundle :=
  match offsets with
  | [] => mret data
  | n :: rest =>
      single_date ← lift (dt_plus_days start n);
      let date_str := strftime_ymd single_date in
      data' ← fetch_resources srv user_id date_str resources data;
      fetch_days srv user_id start rest resources data'
  end.

(** [range(n)]. *)
Definition py_range (n : Z) : list Z := Z.of_nat <$> seq 0 (Z.to_nat n).

Definition get_all_data_for_date_ranges (srv : Server)
    (user_id device_id start_date end_date : string) : M Bundle :=
  let resources := all_resources in
  let data := bundle_init device_id in
  start ← lift (strptime_ymd start_date);
  end_ ← lift (strptime_ymd end_date);
  let num_days := dt_diff_days end_ start + 1 in
  _ ← check_not_exceeded resources num_days;
  fetch_days srv user_id start (py_range num_days) resources data.

(** ** Numbers of the output record *)

(** A Python number: an [int], or a [float] taken as the exact rational it
    approximates. *)
Inductive num : Type :=
| NInt (z : Z)
| NFloat (q : Q).

(** Rounding to the nearest integer, ties to the even one. *)
Definition round_half_even (q : Q) : Z :=
  let f := Qfloor q in
  let r := (q - inject_Z f)%Q in
  match (r ?= 1 # 2)%Q with
  | Lt => f
  | Gt => f + 1
  | Eq => if Z.even f then f else f + 1
  end.

(** [round(x, ndigits)]: an [int] comes back as it is. *)
Definition py_round_to (x : num) (ndigits : nat) : num :=
  match x with
  | NInt z => NInt z
  | NFloat q =>
      let scale := 10 ^ Z.of_nat ndigits in
      NFloat (round_half_even (q * inject_Z scale) # Z.to_pos scale)
  end.

(** [round(x)]. *)
Definition py_round (x : num) : Z :=
  match x with
  | NInt z => z
  | NFloat q => round_half_even q
  end.

Definition sum_values (vals : list Z) : Z := foldr Z.add 0 vals.

(** [sum(vals) / len(vals) if vals else dflt]. *)
Definition mean_or (vals : list Z) (dflt : Z) : num :=
  match vals with
  | [] => NInt dflt
  | _ :: _ => NFloat (sum_values vals # Pos.of_nat (length vals))
  end.

(** ** extract_average_rate_data *)

(** One element of ['activities-heart']. *)
Record HeartDay : Type := mkHeartDay { dateTime : option string }.

(** The ['activities-heart-intraday'] object; [None] is an absent key. *)
Record Intraday : Type := mkIntraday {
  dataset : option (list Sample);
  datasetInterval : option Z;
  datasetType : option string
}.

(** One daily payload of the 'rate' resource. *)
Record RateEntry : Type := mkRateEntry {
  activities_heart : option (list HeartDay);
  activities_heart_intraday : option Intraday
}.

Record AverageRateRecord : Type := mkAverageRate {
  Id_dispositivo : string;
  DateTime : string;
  TimeStart : string;
  TimeEnd : string;
  Duration : duration_text;
  TimeStartDay : option string;
  TimeEndDay : option string;
  DurationDay : duration_text;
  TimeStartNight : option string;
  TimeEndNight : option string;
  DurationNight : duration_text;
  dataset_Interval : Z;
  dataset_type : string;
  average_HeartValue : num;
  average_HeartValue_Activity : num;
  average_HeartValue_Resting : num;
  average_HeartValue_Day : num;
  average_HeartValue_Day_Activity : num;
  average_HeartValue_Day_Activity_Duration : duration_text;
  average_HeartValue_Day_Resting : num;
  average_HeartValue_Day_Resting_Duration : duration_text;
  average_HeartValue_Night : num;
  average_HeartValue_Night_Activity : num;
  average_HeartValue_Night_Activity_Duration : duration_text;
  average_HeartValue_Night_Resting : num;
  average_HeartValue_Night_Resting_Duration : duration_text;
  (** The two integers of "{round(active)} / {round(resting)}". *)
  BloodPreassure : Z * Z
}.

Definition night_start : string := "00:00".
Definition night_end : string := "09:00".

Definition in_night (d : Sample) : bool :=
  String.leb night_start (time d) && String.ltb (time d) night_end.

Definition in_day (d : Sample) : bool := String.leb night_end (time d).

(** [all(x['value'] for x in data)]. *)
Definition is_complete (data : list Sample) : bool :=
  forallb (fun x => negb (value x =? 0)) data.

Definition is_active (d : Sample) : bool := max_rate_on_rest <? value d.
Definition is_resting (d : Sample) : bool := value d <=? max_rate_on_rest.

(** [min(...)] and [max(...)] over the times of a window; [None] when the
    window is empty. *)
Definition str_min (a b : string) : string := if String.ltb b a then b else a.
Definition str_max (a b : string) : string := if String.ltb a b then b else a.

Definition min_time (data : list Sample) : option string :=
  match data with
  | [] => None
  | d :: rest => Some (foldl (fun m x => str_min m (time x)) (time d) rest)
  end.

Definition max_time (data : list Sample) : option string :=
  match data with
  | [] => None
  | d :: rest => Some (foldl (fun m x => str_max m (time x)) (time d) rest)
  end.

(** [calculate_duration(a, b) if data else 0]. *)
Definition window_duration (a b : option string) : result Z :=
  match a, b with
  | Some a', Some b' => calculate_duration a' b'
  | _, _ => Ok 0
  end.

(** The date expression: the first element of a non-empty
    ['activities-heart'] must carry ['dateTime']. *)
Definition entry_date (entry : RateEntry) : result string :=
  match activities_heart entry with
  | Some (first :: _) => of_option KeyError (dateTime first)
  | _ => Ok "N/A"
  end.

(** The body of [if dataset:], for a payload with at least one sample. *)
Definition average_rate_record (device_id date : string)
    (interval : Z) (dataset_type : string)
    (first_sample : Sample) (dataset : list Sample)
    : result AverageRateRecord :=
  let night_data := List.filter in_night dataset in
  let day_data := List.filter in_day dataset in
  let day_complete := is_complete day_data in
  let night_complete := is_complete night_data in
  let no_rate_above_110 :=
    forallb (fun d => value d <=? max_rate_on_rest) dataset in
  (* the override; both names are assigned again further down *)
  let avg_heart_rate_active :=
    if day_complete && night_complete && no_rate_above_110
    then Some (NInt 120) else None in
  let avg_heart_rate_night_active := avg_heart_rate_active in
  let active_data := value <$> List.filter is_active dataset in
  let resting_data :=
    value <$> List.filter is_resting dataset in
  let time_start_day := min_time day_data in
  let time_end_day := max_time day_data in
  let time_start_night := min_time night_data in
  let time_end_night := max_time night_data in
  let active_day_data :=
    value <$> List.filter is_active day_data in
  let resting_day_data :=
    value <$> List.filter is_resting day_data in
  let active_night_data :=
    value <$> List.filter is_active night_data in
  let resting_night_data :=
    value <$> List.filter is_resting night_data in
  let time_start := time first_sample in
  time_end ← time <$> py_index dataset (-1);
  duration ← format_duration <$> calculate_duration time_start time_end;
  duration_day ←
    format_duration <$> window_duration time_start_day time_end_day;
  duration_night ←
    format_duration <$> window_duration time_start_night time_end_night;
  day_durations ← calculate_period_durations day_data;
  night_durations ← calculate_period_durations night_data;
  let avg_heart_rate := mean_or (value <$> dataset) 0 in
  let avg_heart_rate_active := mean_or active_data 120 in
  let avg_heart_rate_resting := mean_or resting_data 80 in
  let avg_heart_rate_day := mean_or (value <$> day_data) 0 in
  let avg_heart_rate_day_active := mean_or active_day_data 120 in
  let avg_heart_rate_day_resting := mean_or resting_day_data 80 in
  let avg_heart_rate_night := mean_or (value <$> night_data) 0 in
  let avg_heart_rate_night_active := mean_or active_night_data 120 in
  let avg_heart_rate_night_resting := mean_or resting_night_data 80 in
  let blood_pressure :=
    (py_round avg_heart_rate_active, py_round avg_heart_rate_resting) in
  Ok {|
    Id_dispositivo := device_id;
    DateTime := date;
    TimeStart := time_start;
    TimeEnd := time_end;
    Duration := duration;
    TimeStartDay := time_start_day;
    TimeEndDay := time_end_day;
    DurationDay := duration_day;
    TimeStartNight := time_start_night;
    TimeEndNight := time_end_night;
    DurationNight := duration_night;
    dataset_Interval := interval;
    dataset_type := dataset_type;
    average_HeartValue := py_round_to avg_heart_rate 4;
    average_HeartValue_Activity := py_round_to avg_heart_rate_active 2;
    average_HeartValue_Resting := py_round_to avg_heart_rate_resting 2;
    average_HeartValue_Day := py_round_to avg_heart_rate_day 2;
    average_HeartValue_Day_Activity :=
      py_round_to avg_heart_rate_day_active 2;
    average_HeartValue_Day_Activity_Duration := fst day_durations;
    average_HeartValue_Day_Resting :=
      py_round_to avg_heart_rate_day_resting 2;
    average_HeartValue_Day_Resting_Duration := snd day_durations;
    average_HeartValue_Night := py_round_to avg_heart_rate_night 2;
    average_HeartValue_Night_Activity :=
      py_round_to avg_heart_rate_night_active 2;
    average_HeartValue_Night_Activity_Duration := fst night_durations;
    average_HeartValue_Night_Resting :=
      py_round_to avg_heart_rate_night_resting 2;
    average_HeartValue_Night_Resting_Duration := snd night_durations;
    BloodPreassure := blood_pressure
  |}.

(** What one entry of [rate_entries] appends to [average_rate_records]. *)
Definition rate_entry_records (device_id : string) (entry : RateEntry)
    : result (list AverageRateRecord) :=
  match activities_heart_intraday entry with
  | Some intraday_data =>
      date ← entry_date entry;
      let dataset := default [] (dataset intraday_data) in
      let interval := default 1 (datasetInterval intraday_data) in
      let dataset_type := default "minute" (datasetType intraday_data) in
      match dataset with
      | first_sample :: _ =>
          r ← average_rate_record device_id date interval dataset_type
                first_sample dataset;
          Ok [r]
      | [] => Ok []
      end
  | None => Ok []
  end.

(** The list [average_rate_records] at the end of the loop of
    [extract_average_rate_data]; the data frame built from it has one row
    per record, with the date column re-formatted. *)
Fixpoint average_rate_records (device_id : string)
    (rate_entries : list RateEntry) : result (list AverageRateRecord) :=
  match rate_entries with
  | [] => Ok []
  | entry :: rest =>
      rs ← rate_entry_records device_id entry;
      more ← average_rate_records device_id rest;
      Ok (rs ++ more)
  end.

(** ** join_and_save_combined_data *)

(** A data frame with the default index 0, 1, ...: its column names and its
    rows, each a map from column name to cell.  [JNull] is the missing cell
    ([None] or NaN), and so is a column the row has no entry for. *)
Record DataFrame : Type := mkFrame {
  columns : list string;
  rows : list (gmap string json)
}.

(** A frame cut down by a boolean mask: the rows kept carry the index label
    they had. *)
Record Selection : Type := mkSelection {
  sel_columns : list string;
  sel_rows : list (nat * gmap string json)
}.

(** [df.empty]. *)
Definition df_empty (df : DataFrame) : bool :=
  match columns df, rows df with
  | [], _ | _, [] => true
  | _, _ => false
  end.

Definition cell (row : gmap string json) (column : string) : json :=
  default JNull (row !! column).

(** [series.notnull()] on one cell. *)
Definition notnull (j : json) : bool :=
  match j with
  | JNull => false
  | _ => true
  end.

(** [if 'logId' not in df.columns: df['logId'] = None]. *)
Definition ensure_logId (df : DataFrame) : DataFrame :=
  if member "logId" (columns df) then df
  else mkFrame (columns df ++ ["logId"]) (<["logId" := JNull]> <$> rows df).

(** [df[mask]]. *)
Definition select (df : DataFrame) (mask : list bool) : Selection :=
  mkSelection (columns df)
    (fst <$> List.filter snd (zip (zip (seq 0 (length (rows df))) (rows df)) mask)).

Section Reconciler.

(** [pd.merge(left, right, on=['Id_dispositivo', 'DateTime'], how='outer')],
    a function of pandas. *)
Variable merge : DataFrame -> DataFrame -> DataFrame.

(** [reduce(f, frames)] on a non-empty list. *)
Definition reduce_merge (first : DataFrame) (rest : list DataFrame)
    : DataFrame :=
  foldl merge first rest.

(** The joined table the two output tables are cut from; [None] when
    every input frame is empty. *)
Definition combined_df (data_frames : list DataFrame) : option DataFrame :=
  match List.filter (fun df => negb (df_empty df)) data_frames with
  | [] => None
  | first :: rest => Some (ensure_logId (reduce_merge first rest))
  end.

Definition complete_mask (df : DataFrame) : list bool :=
  (fun row => notnull (cell row "logId")) <$> rows df.

(** The files handed to the storage, in order: name and table. *)
Definition join_and_save_combined_data (data_frames : list DataFrame)
    : list (string * Selection) :=
  match combined_df data_frames with
  | Some combined =>
      let mask := complete_mask combined in
      let complete_df := select combined mask in
      let incomplete_df := select combined (negb <$> mask) in
      [("Merged.csv", complete_df);
       ("Registros_Incompletos.csv", incomplete_df)]
  | None => []
  end.

End Reconciler.

(** ** FitbitDataApplication: the date range *)

(** [d.year], [d.month] and [d.day]. *)
Definition dt_year (d : datetime) : Z := (ord2ymd (dt_days d)).1.1.
Definition dt_month (d : datetime) : Z := (ord2ymd (dt_days d)).1.2.
Definition dt_day (d : datetime) : Z := (ord2ymd (dt_days d)).2.

(** [self.max_days], set once by [__init__]. *)
Definition max_days : Z := 30.

(** [a > b] for a parsed date [a], which has no microseconds, and a clock
    reading [b] with [us] microseconds. *)
Definition dt_gt_clock (a b : datetime) (us : Z) : bool :=
  (dt_days b <? dt_days a)
  || ((dt_days b =? dt_days a)
      && ((dt_secs b <? dt_secs a)
          || ((dt_secs b =? dt_secs a) && (us <? 0)))).

(** [now] and [now_us] are what [datetime.now()] reads; [None] is the
    rejected range. *)
Definition validate_and_parse_dates (now : datetime) (now_us : Z)
    (start_date end_date : string) : result (option (datetime * datetime)) :=
  match (start_date_dt ← strptime_ymd start_date;
         end_date_dt ← strptime_ymd end_date;
         Ok (start_date_dt, end_date_dt)) with
  | Raise ValueError => Ok None
  | Raise e => Raise e
  | Ok (start_date_dt, end_date_dt) =>
      if (dt_year start_date_dt <? 2000) || (dt_year end_date_dt <? 2000)
      then Ok None
      else if (dt_month start_date_dt <? 1) || (12 <? dt_month start_date_dt)
              || (dt_month end_date_dt <? 1) || (12 <? dt_month end_date_dt)
      then Ok None
      else if (dt_day start_date_dt <? 1) || (31 <? dt_day start_date_dt)
              || (dt_day end_date_dt <? 1) || (31 <? dt_day end_date_dt)
      then Ok None
      else
        yesterday ← dt_plus_days now (-1);
        if dt_gt_clock end_date_dt yesterday now_us then Ok None
        else if dt_lt end_date_dt start_date_dt then Ok None
        else if max_days <? dt_diff_days end_date_dt start_date_dt
        then Ok None
        else Ok (Some (start_date_dt, end_date_dt))
  end.

(** [get_data_for_dates] hands its arguments on. *)
Definition get_data_for_dates (srv : Server)
    (user_id device_id start_date end_date : string) : M Bundle :=
  get_all_data_for_date_ranges srv user_id device_id start_date end_date.

(** ** extract_sleep_data *)

Module Sleep.

(** The data of one stage in ['levels']['summary']; [None] is an absent
    key, here and below. *)
Record Stage : Type := mkStage {
  minutes : option Z;
  count : option Z;
  thirtyDayAvgMinutes : option Z
}.

(** The ['levels'] object. *)
Record Levels : Type := mkLevels { summary : option (gmap string Stage) }.

(** One element of a payload's ['sleep'] list. *)
Record Entry : Type := mkEntry {
  dateOfSleep : option string;
  isMainSleep : option bool;
  type : option string;
  logId : option Z;
  startTime : option string;
  endTime : option string;
  duration : option Z;
  efficiency : option Z;
  minutesAsleep : option Z;
  minutesAwake : option Z;
  timeInBed : option Z;
  levels : option Levels
}.

(** One daily payload of the 'sleep' resource. *)
Record Payload : Type := mkPayload { sleep : option (list Entry) }.

#[export] Instance Stage_eq_dec : EqDecision Stage.
Proof. solve_decision. Defined.

#[export] Instance Levels_eq_dec : EqDecision Levels.
Proof. solve_decision. Defined.

#[export] Instance Entry_eq_dec : EqDecision Entry.
Proof. solve_decision. Defined.

(** The empty dictionary, as an entry and as a stage. *)
Definition empty_entry : Entry :=
  mkEntry None None None None None None None None None None None None.

Definition empty_stage : Stage := mkStage None None None.

(** The dictionary [extracted_data]; [stage_columns] holds, for each stage,
    its '_minutes', '_count' and '_thirtyDayAvgMinutes' values. *)
Record Extracted : Type := mkExtracted {
  Id_dispositivo : string;
  rec_logId : pyval;
  DateTime : string;
  rec_startTime : string;
  rec_endTime : string;
  rec_duration : Z;
  rec_efficiency : Z;
  rec_minutesAsleep : Z;
  rec_minutesAwake : Z;
  rec_timeInBed : Z;
  rec_isMainSleep : bool;
  rec_type : string;
  stage_columns : list (string * (Z * Z * Z))
}.

(** The comprehension [main_sleeps]: a later entry of a date replaces an
    earlier one. *)
Definition main_sleeps (daily_sleeps : list Entry) : gmap string Entry :=
  foldl (fun acc entry =>
           if default false (isMainSleep entry)
           then <[default "N/A" (dateOfSleep entry) := entry]> acc
           else acc)
    ∅ daily_sleeps.

Definition extracted_data (device_id : string) (sleep_entry : Entry)
    : Extracted :=
  let date_of_sleep := default "N/A" (dateOfSleep sleep_entry) in
  let is_main_sleep := default false (isMainSleep sleep_entry) in
  let sleep_type := default "N/A" (type sleep_entry) in
  let levels_summary :=
    default ∅ (summary (default (mkLevels None) (levels sleep_entry))) in
  mkExtracted device_id
    (from_option PInt (PStr "N/A") (logId sleep_entry))
    date_of_sleep
    (default "N/A" (startTime sleep_entry))
    (default "N/A" (endTime sleep_entry))
    (default 0 (duration sleep_entry))
    (default 0 (efficiency sleep_entry))
    (default 0 (minutesAsleep sleep_entry))
    (default 0 (minutesAwake sleep_entry))
    (default 0 (timeInBed sleep_entry))
    is_main_sleep
    sleep_type
    ((fun stage =>
        let stage_data := default empty_stage (levels_summary !! stage) in
        (stage, (default 0 (minutes stage_data),
                 default 0 (count stage_data),
                 default 0 (thirtyDayAvgMinutes stage_data))))
       <$> ["deep"; "wake"; "light"; "rem"]).

(** The body of [for sleep_entry in record.get('sleep', [])], on the pair
    of [sleep_records] and [processed_days]. *)
Definition visit (device_id : string) (main_sleeps : gmap string Entry)
    (acc : list Extracted * gset string) (sleep_entry : Entry)
    : list Extracted * gset string :=
  let '(sleep_records, processed_days) := acc in
  let date_of_sleep := default "N/A" (dateOfSleep sleep_entry) in
  if bool_decide (date_of_sleep ∉ processed_days)
     && bool_decide (sleep_entry
                     = default empty_entry (main_sleeps !! date_of_sleep))
  then (sleep_records ++ [extracted_data device_id sleep_entry],
        processed_days ∪ {[date_of_sleep]})
  else acc.

(** The body of [for record in self.data.get('sleep', [])]. *)
Definition visit_payload (device_id : string)
    (acc : list Extracted * gset string) (record : Payload)
    : list Extracted * gset string :=
  let daily_sleeps := default [] (sleep record) in
  foldl (visit device_id (main_sleeps daily_sleeps)) acc
    (default [] (sleep record)).

(** [sleep_records] as it is handed to the data frame. *)
Definition sleep_records (device_id : string)
    (data_sleep : option (list Payload)) : list Extracted :=
  fst (foldl (visit_payload device_id) ([], ∅) (default [] data_sleep)).

End Sleep.

(** ** FitbitDataApplication: the last days *)

(** One pass of the loop in [retrieve_and_save_data] for a [choice] that
    holds no "to": the last [int(choice)] days up to the clock's date.
    [None] is the [continue] after "Invalid input", which the [except
    ValueError] clause reaches from anywhere in the [try] block. *)
Definition retrieve_last_days (srv : Server) (now : datetime)
    (user_id device_id choice : string) : M (option Bundle) :=
  fun st =>
    match
      (days ← lift (int_of_str choice);
       let end_date := now in
       start_date ← lift (dt_plus_days end_date (- (days - 1)));
       get_data_for_dates srv user_id device_id
         (strftime_ymd start_date) (strftime_ymd end_date)) st
    with
    | (Ok all_data, st') => (Ok (Some all_data), st')
    | (Raise ValueError, st') => (Ok None, st')
    | (Raise e, st') => (Raise e, st')
    end.

(** ** get_device_id *)

(** The exceptions of the device menu: a value that is not a dictionary has
    no [get]. *)
Inductive device_exn : Type :=
| AttributeError
| Exn (e : exn).

(** [len(x)]. *)
Definition py_len (x : json) : result Z :=
  match x with
  | JStr s => Ok (Z.of_nat (String.length s))
  | JArr l => Ok (Z.of_nat (length l))
  | JObj l => Ok (Z.of_nat (length l))
  | _ => Raise TypeError
  end.

(** The line printed for one device: [device.get('deviceVersion')], then
    [device['id']]. *)
Definition device_line (device : json) : device_exn + unit :=
  match device with
  | JObj l =>
      match assoc "id" l with
      | Some _ => inr tt
      | None => inl (Exn KeyError)
      end
  | _ => inl AttributeError
  end.

Fixpoint device_lines (devices : list json) : device_exn + unit :=
  match devices with
  | [] => inr tt
  | device :: rest =>
      match device_line device with
      | inr _ => device_lines rest
      | inl e => inl e
      end
  end.

(** [devices_data[device_number]['id']] for an index within the length. *)
Definition selected_id (devices_data : json) (device_number : Z)
    : result json :=
  match devices_data with
  | JArr l =>
      device ← py_index l device_number;
      match device with
      | JObj d => of_option KeyError (assoc "id" d)
      | _ => Raise TypeError
      end
  | JObj l => Raise KeyError
  | _ => Raise TypeError
  end.

Definition of_result {A : Type} (r : result A) : device_exn + A :=
  match r with
  | Ok a => inr a
  | Raise e => inl (Exn e)
  end.

(** The menu, on what [get_data] returned and what the user types. *)
Definition select_device (devices_data : json) (typed : string)
    : device_exn + option json :=
  match devices_data with
  | JNull => inr None
  | _ =>
      match py_len devices_data with
      | Raise e => inl (Exn e)
      | Ok n =>
          if 0 <? n then
            match of_result (iterate devices_data) with
            | inl e => inl e
            | inr devices =>
                match device_lines devices with
                | inl e => inl e
                | inr _ =>
                    match int_of_str typed with
                    | Raise e => inl (Exn e)
                    | Ok number =>
                        let device_number := number - 1 in
                        if (0 <=? device_number) && (device_number <? n)
                        then
                          match selected_id devices_data device_number with
                          | Ok selected_device_id =>
                              inr (Some selected_device_id)
                          | Raise e => inl (Exn e)
                          end
                        else inr None
                    end
                end
            end
          else inr None
      end
  end.

Definition devices_endpoint (user_id : string) : string :=
  "/1/user/" +:+ user_id +:+ "/devices.json".

Definition get_device_id (srv : Server) (user_id typed : string)
    (st : Retriever) : (device_exn + option json) * Retriever :=
  match (_ ← check_not_exceeded ["devices"] 1;
         get_data srv (devices_endpoint user_id) "devices"
           default_retries default_backoff_factor) st with
  | (Ok devices_data, st') => (select_device devices_data typed, st')
  | (Raise e, st') => (inl (Exn e), st')
  end.

(** ** Vocabulary of the statements *)

(** A time string [strptime] accepts for the format '%H:%M:%S'. *)
Definition valid_time (s : string) : Prop :=
  exists d, strptime_hms s = Ok d.

(** The duration in terms of the two seconds of the day. *)
Definition wrapped_difference (start_secs end_secs : Z) : Z :=
  if end_secs <? start_secs then end_secs + 86400 - start_secs
  else end_secs - start_secs.

Definition totals_nonneg (st : scan_state) : Prop :=
  0 <= active_duration_total st /\ 0 <= resting_duration_total st.

Definition start_valid (st : scan_state) : Prop :=
  forall s, current_period_start st = Some s -> valid_time s.

Definition times_valid (data : list Sample) : Prop :=
  Forall (fun d => valid_time (time d)) data.

(** The seconds the two formatted totals of [calculate_period_durations]
    add up to. *)
Definition segmented_seconds (data : list Sample) : result Z :=
  out ← calculate_period_durations data;
  Ok (duration_in_seconds (fst out) + duration_in_seconds (snd out)).

(** The second of the day a time string stands for (0 when it does not
    parse). *)
Definition time_secs (s : string) : Z :=
  match strptime_hms s with
  | Ok d => dt_secs d
  | Raise _ => 0
  end.

(** The seconds that lie between runs: for every sample whose
    classification differs from the previous sample's, the time from the
    previous sample to it. *)
Fixpoint boundary_gaps_from (prev : Sample) (rest : list Sample) : Z :=
  match rest with
  | [] => 0
  | x :: rest' =>
      (if decide (classify x = classify prev) then 0
       else time_secs (time x) - time_secs (time prev))
      + boundary_gaps_from x rest'
  end.

Definition boundary_gaps (data : list Sample) : Z :=
  match data with
  | [] => 0
  | first :: rest => boundary_gaps_from first rest
  end.

(** Sample times that never go back, as the API returns them. *)
Fixpoint ordered_from (prev : Sample) (rest : list Sample) : Prop :=
  match rest with
  | [] => True
  | x :: rest' =>
      time_secs (time prev) <= time_secs (time x) /\ ordered_from x rest'
  end.

Definition time_ordered (data : list Sample) : Prop :=
  match data with
  | [] => True
  | first :: rest => ordered_from first rest
  end.

(** Both running totals together. *)
Definition scan_sum (st : scan_state) : Z :=
  active_duration_total st + resting_duration_total st.

Definition digit_char (d : Z) : ascii := ascii_of_nat (Z.to_nat (48 + d)).

Definition two_digits (n : Z) : string :=
  String (digit_char (n / 10)) (String (digit_char (n mod 10)) EmptyString).

(** The text "HH:MM:SS" of a time of day. *)
Definition clock (h m s : Z) : string :=
  two_digits h +:+ ":" +:+ two_digits m +:+ ":" +:+ two_digits s.

Definition seconds_of_day (h m s : Z) : Z := h * 3600 + m * 60 + s.

Definition url_of (endpoint : string) : string :=
  base_url +:+ "/" +:+ endpoint.

(** The length of the wait after a 429, as the code computes it. *)
Definition throttle_wait (reset attempt : Z) (backoff_factor : Q) : Q :=
  if 0 <? reset then inject_Z (reset + 1)
  else (inject_Z (attempt + 1) * backoff_factor)%Q.

(** A server that answers every request with 429 and a reset of 0 seconds. *)
Definition throttling_server : Server :=
  fun _ => mkResponse 429
             (case_insensitive_dict [("Fitbit-Rate-Limit-Reset", "0")]) None.

(** A response the loop counts as a failure and can log. *)
Definition failure_response (response : Response) (attempt : Z)
    (resource_type : string) : Prop :=
  status_code response <> 200 /\ status_code response <> 429
  /\ exists msg, log_error_details response attempt resource_type = Ok msg.

(** A server that answers every request with 500 and no JSON body. *)
Definition failing_server : Server := fun _ => mkResponse 500 ∅ None.

(** A result other than [SystemExit]. *)
Definition no_exit {A : Type} (r : result A) : Prop :=
  forall code, r <> Raise (SystemExit code).

Definition no_exit_M {A : Type} (m : M A) : Prop :=
  forall st, no_exit (fst (m st)).

(** The quota record with [remaining] replaced. *)
Definition with_remaining (st : Retriever) (remaining : pyval) : Retriever :=
  mkRetriever
    (mkRateLimit (rl_limit (rate_limit st)) remaining
                 (rl_reset (rate_limit st)))
    (total_requests st) (successful_requests st) (failed_requests st)
    (requested st) (slept st).

(** A server that answers every request with 200 and a small document. *)
Definition ok_server : Server :=
  fun _ => mkResponse 200 ∅ (Some (JObj [("value", JNum 1)])).

(** A daily payload with no intraday samples: the key is missing, or the
    dataset is missing or empty. *)
Definition without_samples (entry : RateEntry) : Prop :=
  match activities_heart_intraday entry with
  | None => True
  | Some intraday => dataset intraday = None \/ dataset intraday = Some []
  end.

(** The requests of one resource that the two counters have counted. *)
Definition counted (st : Retriever) (k : string) : Z :=
  default 0 (successful_requests st !! k)
  + default 0 (failed_requests st !! k).

(** What one pass of the retry loop for resource [k] may do to the state,
    whatever the response and however the pass ends. *)
Definition attempt_effects (srv : Server) (endpoint k : string)
    (st st' : Retriever) : Prop :=
  requested st' = requested st ++ [url_of endpoint]
  /\ rate_limit st'
     = update_rate_limit (rate_limit st)
         (headers (srv (length (requested st))))
  /\ (slept st' = slept st \/ exists d, slept st' = slept st ++ [d])
  /\ counted st' k - total_requests st' = counted st k - total_requests st
  /\ 0 <= total_requests st' - total_requests st <= 1
  /\ forall k' : string, k' <> k ->
       successful_requests st' !! k' = successful_requests st !! k'
       /\ failed_requests st' !! k' = failed_requests st !! k'.

(** What a whole retry loop of at most [bound] passes may do. *)
Definition loop_effects (endpoint k : string) (bound : nat)
    (st st' : Retriever) : Prop :=
  (exists (sent : list string) (waits : list Q),
      requested st' = requested st ++ sent
      /\ slept st' = slept st ++ waits
      /\ (length waits <= length sent <= bound)%nat
      /\ Forall (fun url => url = url_of endpoint) sent)
  /\ counted st' k - total_requests st' = counted st k - total_requests st
  /\ 0 <= total_requests st' - total_requests st <= Z.of_nat bound
  /\ forall k' : string, k' <> k ->
       successful_requests st' !! k' = successful_requests st !! k'
       /\ failed_requests st' !! k' = failed_requests st !! k'.

(** A 429 response that says in how many seconds the quota resets. *)
Definition throttled_response (response : Response) : Prop :=
  status_code response = 429
  /\ exists (txt : string) (reset : Z),
       headers response !! "fitbit-rate-limit-reset" = Some txt
       /\ int_of_str txt = Ok reset.

(** At most [n] requests were sent between two states, and none forgotten. *)
Definition sent_at_most (n : nat) (st st' : Retriever) : Prop :=
  exists sent : list string,
    requested st' = requested st ++ sent /\ (length sent <= n)%nat.

(** A server that answers every request with 200 and a truthy document. *)
Definition healthy (srv : Server) : Prop :=
  forall n : nat,
    status_code (srv n) = 200
    /\ exists v, body (srv n) = Some v /\ truthy v = true.

(** How many daily payloads the bundle holds for a resource. *)
Definition payload_count (data : Bundle) (r : string) : nat :=
  length (default [] (per_resource data !! r)).

(** How often a resource occurs in a list of resources. *)
Definition occurrences (r : string) (resources : list string) : nat :=
  length (List.filter (String.eqb r) resources).






(** A daily 'rate' payload that carries at least one intraday sample. *)
Definition has_samples (entry : RateEntry) : bool :=
  match activities_heart_intraday entry with
  | Some intraday =>
      match default [] (dataset intraday) with
      | [] => false
      | _ :: _ => true
      end
  | None => false
  end.

(** The record [r] is the one made from the payload [entry] for a device. *)
Definition record_of (device_id : string) (r : AverageRateRecord)
    (entry : RateEntry) : Prop :=
  Id_dispositivo r = device_id
  /\ entry_date entry = Ok (DateTime r)
  /\ exists intraday first_sample rest,
       activities_heart_intraday entry = Some intraday
       /\ dataset intraday = Some (first_sample :: rest)
       /\ TimeStart r = time first_sample
       /\ TimeEnd r = time (List.last rest first_sample).

(** The extra day of a leap year. *)
Definition leap_day (y : Z) : Z := if is_leap y then 1 else 0.

(** Days before each month of a common year, and the months' lengths. *)
Definition month_offset (m : Z) : Z :=
  match m with
  | 1 => 0 | 2 => 31 | 3 => 59 | 4 => 90 | 5 => 120 | 6 => 151 | 7 => 181
  | 8 => 212 | 9 => 243 | 10 => 273 | 11 => 304 | 12 => 334 | _ => 365
  end.

Definition month_length (m : Z) : Z :=
  match m with
  | 2 => 28 | 4 | 6 | 9 | 11 => 30 | _ => 31
  end.

(** A calendar date: year, month and day of the month. *)
Definition valid_date (date : Z * Z * Z) : Prop :=
  let '(y, m, d) := date in
  1 <= y /\ 1 <= m <= 12 /\ 1 <= d <= days_in_month y m.

(** The calendar day after a date. *)
Definition next_day (date : Z * Z * Z) : Z * Z * Z :=
  let '(y, m, d) := date in
  if d <? days_in_month y m then (y, m, d + 1)
  else if m <? 12 then (y, m + 1, 1)
  else (y + 1, 1, 1).

(** The [n] calendar days that start with a date. *)
Definition days_from (date : Z * Z * Z) (n : nat) : list (Z * Z * Z) :=
  (fun i => Nat.iter i next_day date) <$> seq 0 n.

(** A date as '%Y-%m-%d' writes it. *)
Definition date_text (date : Z * Z * Z) : string :=
  let '(y, m, d) := date in
  zero_pad 4 y +:+ "-" +:+ zero_pad 2 m +:+ "-" +:+ zero_pad 2 d.

(** The URLs requested for one date, in the order of the resources. *)
Definition day_urls (user_id : string) (resources : list string)
    (date : Z * Z * Z) : list string :=
  (fun r => url_of (endpoint_text
                      (construct_endpoint user_id r (date_text date))))
    <$> resources.

(** A clock reading: a time of day on a day that has a day before it. *)
Definition clock_reading (now : datetime) (now_us : Z) : Prop :=
  2 <= dt_days now <= max_ordinal
  /\ 0 <= dt_secs now < 86400 /\ 0 <= now_us < 1000000.

(** The conditions under which a range of parsed dates is accepted. *)
Definition acceptable (now s e : datetime) : bool :=
  (ymd2ord 2000 1 1 <=? dt_days s)
  && (dt_days s <=? dt_days e)
  && (dt_days e <? dt_days now)
  && (dt_days e - dt_days s <=? max_days).

(** A server whose error document lists an error without a message. *)
Definition messageless_server : Server :=
  fun _ =>
    mkResponse 400 ∅
      (Some (JObj [("errors", JArr [JObj [("errorType", JStr "validation")]])])).

(** The date under which a sleep entry is filed, and whether it is a main
    sleep. *)
Definition sleep_date (entry : Sleep.Entry) : string :=
  default "N/A" (Sleep.dateOfSleep entry).

Definition is_main_sleep (entry : Sleep.Entry) : bool :=
  default false (Sleep.isMainSleep entry).

(** The entries of all the payloads. *)
Definition sleep_entries (data_sleep : option (list Sleep.Payload))
    : list Sleep.Entry :=
  concat ((fun record => default [] (Sleep.sleep record))
            <$> default [] data_sleep).

(** The loop state is coherent: the processed days are the dates of the
    records, each once. *)
Definition sleep_coherent (acc : list Sleep.Extracted * gset string) : Prop :=
  NoDup (Sleep.DateTime <$> acc.1)
  /\ forall d : string, d ∈ acc.2 <-> d ∈ Sleep.DateTime <$> acc.1.

(** Every record was made from a main sleep or from the empty entry, out of
    the given entries. *)
Definition sleep_sourced (device_id : string) (entries : list Sleep.Entry)
    (records : list Sleep.Extracted) : Prop :=
  forall r, r ∈ records ->
    exists entry, entry ∈ entries
      /\ r = Sleep.extracted_data device_id entry
      /\ (is_main_sleep entry = true \/ entry = Sleep.empty_entry).

(** A text without the separator of dates. *)
Fixpoint dash_free (s : string) : bool :=
  match s with
  | EmptyString => true
  | String c s' => negb (Ascii.eqb c "-") && dash_free s'
  end.

(** What makes the text of a number readable as a field of a date. *)
Definition year_text_ok (y : Z) : bool :=
  dash_free (zero_pad 4 y) && bool_decide (field4 (zero_pad 4 y) = Some y).

Definition month_text_ok (m : Z) : bool :=
  dash_free (zero_pad 2 m) && bool_decide (field12 (zero_pad 2 m) = Some m).

Definition day_text_ok (d : Z) : bool :=
  dash_free (zero_pad 2 d) && bool_decide (field_day (zero_pad 2 d) = Some d).

(** A day number whose year is written with four digits. *)
Definition four_digit_year (ordinal : Z) : Prop :=
  ymd2ord 1000 1 1 <= ordinal <= max_ordinal.

(** How the loop treats the end of the [try] block. *)
Definition after_try (r : result Bundle * Retriever)
    : result (option Bundle) * Retriever :=
  match r with
  | (Ok all_data, st') => (Ok (Some all_data), st')
  | (Raise ValueError, st') => (Ok None, st')
  | (Raise e, st') => (Raise e, st')
  end.

(** A device the menu can list: a dictionary with an 'id'. *)
Definition listable (device : json) : Prop :=
  exists d, device = JObj d /\ is_Some (assoc "id" d).

(** A server that lists two devices. *)
Definition two_device_server : Server :=
  fun _ =>
    mkResponse 200 ∅
      (Some (JArr [JObj [("deviceVersion", JStr "Charge 5");
                         ("id", JStr "111")];
                   JObj [("id", JStr "222")]])).

(** A stand-in for the merge, to run the reconciler on an example: the
    columns and the rows of both frames, one after the other. *)
Definition stack_frames (left right : DataFrame) : DataFrame :=
  mkFrame (columns left ++ columns right) (rows left ++ rows right).

(** * Properties *)

Example strftime_leap :
  (d ← strptime_ymd "2024-02-28"; d' ← dt_plus_days d 2; Ok (strftime_ymd d'))
  = Ok "2024-03-01".
Proof. vm_compute. reflexivity. Qed.
Example strftime_eoy :
  (d ← strptime_ymd "2023-12-31"; d' ← dt_plus_days d 0; Ok (strftime_ymd d'))
  = Ok "2023-12-31".
Proof. vm_compute. reflexivity. Qed.
Example strftime_eoy2 :
  (d ← strptime_ymd "2000-12-31"; d' ← dt_plus_days d 1; Ok (strftime_ymd d'))
  = Ok "2001-01-01".
Proof. vm_compute. reflexivity. Qed.
Example ord1900 : ymd2ord 1900 1 1 = 693596. Proof. reflexivity. Qed.
Example ordmax : ymd2ord 9999 12 31 = max_ordinal. Proof. reflexivity. Qed.

(** ** Results *)

Lemma bind_Ok {A B : Type} (f : A -> result B) (a : A) :
  (Ok a ≫= f) = f a.
Proof. reflexivity. Qed.

Lemma bind_Ok_inv {A B : Type} (m : result A) (f : A -> result B) (b : B) :
  m ≫= f = Ok b -> exists a, m = Ok a /\ f a = Ok b.
Proof. destruct m as [a|e]; [eauto | discriminate]. Qed.

Lemma fmap_Ok_inv {A B : Type} (m : result A) (f : A -> B) (b : B) :
  f <$> m = Ok b -> exists a, m = Ok a /\ f a = b.
Proof.
  destruct m as [a|e]; [|discriminate].
  intros H. exists a. split; [reflexivity|]. now inversion H.
Qed.

(** ** Python indexing *)

Lemma py_index_neg1 {A : Type} (l : list A) (x : A) :
  py_index (l ++ [x]) (-1) = Ok x.
Proof.
  unfold py_index. rewrite length_app. simpl length.
  replace (-1 <? 0) with true by reflexivity.
  destruct (_ || _) eqn:E.
  - apply orb_true_iff in E. destruct E as [E|E].
    + apply Z.ltb_lt in E. lia.
    + apply Z.leb_le in E. lia.
  - replace (Z.to_nat (-1 + Z.of_nat (length l + 1))) with (length l) by lia.
    rewrite lookup_app_r by lia. now rewrite Nat.sub_diag.
Qed.

Lemma py_index_prev {A : Type} (l : list A) (i : nat) :
  (i < length l)%nat ->
  exists x, py_index l (Z.of_nat i - 1) = Ok x /\ x ∈ l.
Proof.
  intros Hi. unfold py_index.
  set (n := Z.of_nat (length l)).
  set (j := if Z.of_nat i - 1 <? 0 then Z.of_nat i - 1 + n
            else Z.of_nat i - 1).
  assert (Hj : 0 <= j < n).
  { subst j n. destruct (Z.ltb_spec (Z.of_nat i - 1) 0); lia. }
  destruct (_ || _) eqn:E.
  - apply orb_true_iff in E. destruct E as [E|E].
    + apply Z.ltb_lt in E. lia.
    + apply Z.leb_le in E. lia.
  - destruct (lookup_lt_is_Some_2 l (Z.to_nat j)) as [x Hx]; [subst n; lia|].
    exists x. rewrite Hx. split; [reflexivity|].
    eapply list_elem_of_lookup_2; eassumption.
Qed.

Lemma py_index_last_elem {A : Type} (l : list A) :
  l <> [] -> exists x, py_index l (-1) = Ok x /\ x ∈ l.
Proof.
  intros Hl. destruct (py_index_prev l 0) as [x Hx].
  - destruct l; [congruence | simpl; lia].
  - exists x. exact Hx.
Qed.

(** ** Parsing clock times *)

Lemma digit_val_range (c : ascii) :
  is_digit c = true -> 0 <= digit_val c <= 9.
Proof.
  unfold is_digit, digit_val. intros H.
  apply andb_true_iff in H. destruct H as [H1 H2].
  apply Z.leb_le in H1, H2. lia.
Qed.

Lemma field12_range (s : string) (z : Z) :
  field12 s = Some z -> 0 <= z <= 99.
Proof.
  unfold field12. intros H.
  destruct s as [|a [|b [|? ?]]]; try discriminate.
  - destruct (is_digit a) eqn:Ea; [|discriminate].
    inversion H; subst. pose proof (digit_val_range a Ea). lia.
  - destruct (is_digit a) eqn:Ea; [|discriminate].
    destruct (is_digit b) eqn:Eb; [|discriminate].
    simpl in H. inversion H; subst.
    pose proof (digit_val_range a Ea). pose proof (digit_val_range b Eb).
    lia.
Qed.

(** Every parsed clock time lies on 1900-01-01, at a second of that day. *)
Lemma strptime_hms_range (s : string) (d : datetime) :
  strptime_hms s = Ok d ->
  dt_days d = ymd2ord 1900 1 1 /\ 0 <= dt_secs d < 86400.
Proof.
  unfold strptime_hms. intros H.
  destruct (split_on ":" s) as [|h [|m [|sec [|? ?]]]]; try discriminate.
  destruct (field12 h) as [hh|] eqn:Eh; [|discriminate].
  destruct (field12 m) as [mm|] eqn:Em; [|discriminate].
  destruct (field12 sec) as [ss|] eqn:Es; [|discriminate].
  destruct (_ && _) eqn:E; [|discriminate].
  apply andb_true_iff in E. destruct E as [E E3].
  apply andb_true_iff in E. destruct E as [E1 E2].
  apply Z.leb_le in E1, E2, E3.
  apply field12_range in Eh, Em, Es.
  inversion H; subst; simpl. split; [reflexivity | lia].
Qed.

Lemma valid_time_not_NA (s : string) : valid_time s -> s <> "N/A".
Proof. intros [d Hd] ->. discriminate. Qed.

(** ** calculate_duration *)

Lemma calculate_duration_parsed (s e : string) (a b : datetime) :
  s <> "N/A" -> e <> "N/A" ->
  strptime_hms s = Ok a -> strptime_hms e = Ok b ->
  calculate_duration s e = Ok (wrapped_difference (dt_secs a) (dt_secs b)).
Proof.
  intros Hs He Ha Hb. unfold calculate_duration.
  apply String.eqb_neq in Hs, He. rewrite Hs, He. simpl orb. cbv iota.
  rewrite Ha, Hb. simpl.
  destruct (strptime_hms_range _ _ Ha) as [Da Ra].
  destruct (strptime_hms_range _ _ Hb) as [Db Rb].
  unfold dt_lt, wrapped_difference, dt_total_seconds, dt_add_days.
  rewrite Da, Db. rewrite Z.ltb_irrefl, Z.eqb_refl. simpl orb. simpl andb.
  destruct (dt_secs b <? dt_secs a); simpl; f_equal; lia.
Qed.

Lemma wrapped_difference_range (a b : Z) :
  0 <= a < 86400 -> 0 <= b < 86400 ->
  0 <= wrapped_difference a b < 86400.
Proof.
  intros Ha Hb. unfold wrapped_difference.
  destruct (Z.ltb_spec b a); lia.
Qed.

Lemma calculate_duration_Ok_range (s e : string) (d : Z) :
  calculate_duration s e = Ok d -> 0 <= d < 86400.
Proof.
  unfold calculate_duration. intros H.
  destruct (_ || _).
  - inversion H; lia.
  - apply bind_Ok_inv in H. destruct H as [a [Ha H]].
    apply bind_Ok_inv in H. destruct H as [b [Hb H]].
    destruct (strptime_hms_range _ _ Ha) as [Da Ra].
    destruct (strptime_hms_range _ _ Hb) as [Db Rb].
    inversion H; subst. unfold dt_lt, dt_total_seconds, dt_add_days.
    rewrite Da, Db. rewrite Z.ltb_irrefl, Z.eqb_refl. simpl orb. simpl andb.
    destruct (Z.ltb_spec (dt_secs b) (dt_secs a)); simpl; lia.
Qed.

Lemma calculate_duration_valid (s e : string) :
  valid_time s -> valid_time e ->
  exists d, calculate_duration s e = Ok d /\ 0 <= d < 86400.
Proof.
  intros Hs He.
  pose proof (valid_time_not_NA _ Hs). pose proof (valid_time_not_NA _ He).
  destruct Hs as [a Ha]. destruct He as [b Hb].
  eexists. split.
  - eapply calculate_duration_parsed; eassumption.
  - apply wrapped_difference_range; eapply strptime_hms_range; eassumption.
Qed.

(** ** format_duration *)

Lemma format_duration_seconds (t : Z) :
  duration_in_seconds (format_duration t) = t.
Proof.
  unfold duration_in_seconds, format_duration; simpl.
  pose proof (Z.div_mod t 3600 ltac:(lia)) as H1.
  pose proof (Z.div_mod (t mod 3600) 60 ltac:(lia)) as H2.
  assert (H3 : (t mod 3600) mod 60 = t mod 60).
  { assert (t mod 3600 = t - 60 * (60 * (t / 3600))) as -> by lia.
    replace (t - 60 * (60 * (t / 3600)))
      with (t + (- (60 * (t / 3600))) * 60) by lia.
    apply Z.mod_add. lia. }
  lia.
Qed.

(** ** The scan of calculate_period_durations *)

Lemma add_duration_sum (st : scan_state) (d : Z) :
  active_duration_total (add_duration st d)
  + resting_duration_total (add_duration st d)
  = active_duration_total st + resting_duration_total st + d.
Proof.
  unfold add_duration. destruct (current_period_type st) as [[|]|]; simpl; lia.
Qed.

Lemma add_duration_start (st : scan_state) (d : Z) :
  current_period_start (add_duration st d) = current_period_start st.
Proof.
  unfold add_duration. now destruct (current_period_type st) as [[|]|].
Qed.

Lemma add_duration_type (st : scan_state) (d : Z) :
  current_period_type (add_duration st d) = current_period_type st.
Proof.
  unfold add_duration. now destruct (current_period_type st) as [[|]|].
Qed.

Lemma add_duration_nonneg (st : scan_state) (d : Z) :
  0 <= d -> totals_nonneg st -> totals_nonneg (add_duration st d).
Proof.
  unfold totals_nonneg, add_duration. intros Hd [Ha Hr].
  destruct (current_period_type st) as [[|]|]; simpl; lia.
Qed.

Lemma scan_step_nonneg (data : list Sample) (st st' : scan_state)
    (i : nat) (entry : Sample) :
  totals_nonneg st -> scan_step data st i entry = Ok st' ->
  totals_nonneg st'.
Proof.
  intros Hst. unfold scan_step.
  destruct (decide _) as [_|_]; [intros [= <-]; exact Hst|].
  destruct (current_period_start st) as [start|].
  - intros H. apply bind_Ok_inv in H. destruct H as [st1 [H1 H]].
    apply bind_Ok_inv in H1. destruct H1 as [prev [_ H1]].
    apply bind_Ok_inv in H1. destruct H1 as [d [Hd H1]].
    apply calculate_duration_Ok_range in Hd.
    inversion H1; subst st1. inversion H; subst st'.
    destruct (add_duration_nonneg st d ltac:(lia) Hst). split; assumption.
  - simpl. intros [= <-]. exact Hst.
Qed.

Lemma scan_from_nonneg (data rest : list Sample) :
  forall (i : nat) (st st' : scan_state),
    totals_nonneg st -> scan_from data i rest st = Ok st' ->
    totals_nonneg st'.
Proof.
  induction rest as [|entry rest IH]; intros i st st' Hst H; simpl in H.
  - now inversion H; subst.
  - apply bind_Ok_inv in H. destruct H as [st1 [H1 H]].
    eapply IH; [|exact H]. eapply scan_step_nonneg; eassumption.
Qed.

Lemma close_last_nonneg (data : list Sample) (st st' : scan_state) :
  totals_nonneg st -> close_last data st = Ok st' -> totals_nonneg st'.
Proof.
  intros Hst. unfold close_last.
  destruct (current_period_start st) as [start|]; [|now intros [= <-]].
  destruct (0 <? _); [|now intros [= <-]].
  intros H. apply bind_Ok_inv in H. destruct H as [l [_ H]].
  apply bind_Ok_inv in H. destruct H as [d [Hd H]].
  apply calculate_duration_Ok_range in Hd. inversion H; subst st'.
  apply add_duration_nonneg; [lia | exact Hst].
Qed.

(** Whatever totals the segmentation returns are non-negative. *)
Lemma period_totals_nonneg (data : list Sample) (a r : Z) :
  period_totals data = Ok (a, r) -> 0 <= a /\ 0 <= r.
Proof.
  unfold period_totals. intros H.
  apply bind_Ok_inv in H. destruct H as [st [Hscan H]].
  apply bind_Ok_inv in H. destruct H as [st' [Hclose H]].
  inversion H; subst.
  eapply close_last_nonneg; [|exact Hclose].
  eapply scan_from_nonneg; [|exact Hscan].
  split; simpl; lia.
Qed.

Lemma scan_step_total (data : list Sample) (st : scan_state)
    (i : nat) (entry : Sample) :
  times_valid data -> (i < length data)%nat ->
  start_valid st -> valid_time (time entry) ->
  exists st', scan_step data st i entry = Ok st' /\ start_valid st'.
Proof.
  intros Hdata Hi Hst Hentry. unfold scan_step.
  destruct (decide _) as [_|_]; [eauto|].
  destruct (current_period_start st) as [start|] eqn:Es.
  - destruct (py_index_prev data i Hi) as [prev [Hp Hin]].
    rewrite Hp. simpl.
    assert (Hv : valid_time (time prev)).
    { unfold times_valid in Hdata. rewrite Forall_forall in Hdata.
      now apply Hdata. }
    destruct (calculate_duration_valid start (time prev)) as [d [Hd _]];
      [now apply Hst | exact Hv |].
    rewrite Hd. simpl. eexists. split; [reflexivity|].
    intros s. simpl. now intros [= <-].
  - simpl. eexists. split; [reflexivity|].
    intros s. simpl. now intros [= <-].
Qed.

Lemma scan_from_total (data rest : list Sample) :
  forall (i : nat) (st : scan_state),
    times_valid data -> times_valid rest ->
    (i + length rest <= length data)%nat -> start_valid st ->
    exists st', scan_from data i rest st = Ok st' /\ start_valid st'.
Proof.
  induction rest as [|entry rest IH]; intros i st Hdata Hrest Hi Hst; simpl.
  - eauto.
  - apply Forall_cons in Hrest. destruct Hrest as [He Hrest].
    simpl in Hi.
    destruct (scan_step_total data st i entry) as [st1 [H1 Hst1]];
      [assumption | lia | assumption | assumption |].
    rewrite H1. simpl. apply IH; [assumption | assumption | lia | assumption].
Qed.

Lemma close_last_total (data : list Sample) (st : scan_state) :
  times_valid data -> start_valid st ->
  exists st', close_last data st = Ok st'.
Proof.
  intros Hdata Hst. unfold close_last.
  destruct (current_period_start st) as [start|] eqn:Es; [|eauto].
  destruct (Z.ltb_spec 0 (Z.of_nat (length data))); [|eauto].
  destruct (py_index_last_elem data) as [l [Hl Hin]].
  { destruct data; [simpl in *; lia | congruence]. }
  rewrite Hl. simpl.
  assert (Hv : valid_time (time l)).
  { unfold times_valid in Hdata. rewrite Forall_forall in Hdata.
    now apply Hdata. }
  destruct (calculate_duration_valid start (time l)) as [d [Hd _]];
    [now apply Hst | exact Hv |].
  rewrite Hd. simpl. eauto.
Qed.

(** On samples whose times all parse, the segmentation returns. *)
Lemma period_totals_total (data : list Sample) :
  times_valid data -> exists a r, period_totals data = Ok (a, r).
Proof.
  intros Hdata. unfold period_totals.
  destruct (scan_from_total data data 0 scan_init) as [st [Hs Hst]];
    [assumption | assumption | simpl; lia | intros s; discriminate |].
  rewrite Hs. simpl.
  destruct (close_last_total data st Hdata Hst) as [st' Hc].
  rewrite Hc. simpl. eauto.
Qed.

Lemma segmented_seconds_totals (data : list Sample) :
  segmented_seconds data
  = (totals ← period_totals data; Ok (fst totals + snd totals)).
Proof.
  unfold segmented_seconds, calculate_period_durations.
  destruct (period_totals data) as [[a r]|e]; simpl; [|reflexivity].
  now rewrite !format_duration_seconds.
Qed.

(** Inside a run nothing happens: the state is carried along unchanged. *)
Lemma scan_from_same_type (data rest : list Sample) (c : period_type) :
  forall (i : nat) (st : scan_state),
    current_period_type st = Some c ->
    Forall (fun d => classify d = c) rest ->
    scan_from data i rest st = Ok st.
Proof.
  induction rest as [|entry rest IH]; intros i st Hc Hrest; simpl.
  - reflexivity.
  - apply Forall_cons in Hrest. destruct Hrest as [He Hrest].
    unfold scan_step. rewrite Hc, He.
    destruct (decide _) as [_|Hne]; [|congruence].
    simpl. now apply IH.
Qed.

Lemma py_index_0 {A : Type} (x : A) (l : list A) :
  py_index (x :: l) 0 = Ok x.
Proof. reflexivity. Qed.

(** ** Runs and the gaps between them *)

Lemma calculate_duration_ordered (a b : string) :
  valid_time a -> valid_time b -> time_secs a <= time_secs b ->
  calculate_duration a b = Ok (time_secs b - time_secs a).
Proof.
  intros Ha Hb Hle.
  pose proof (valid_time_not_NA _ Ha) as Na.
  pose proof (valid_time_not_NA _ Hb) as Nb.
  destruct Ha as [da Ha]. destruct Hb as [db Hb].
  unfold time_secs in *. rewrite Ha, Hb in *.
  rewrite (calculate_duration_parsed a b da db Na Nb Ha Hb).
  unfold wrapped_difference.
  now replace (dt_secs db <? dt_secs da) with false
    by (symmetry; apply Z.ltb_ge; exact Hle).
Qed.

Lemma py_index_middle {A : Type} (pre : list A) (x : A) (rest : list A) :
  py_index (pre ++ x :: rest) (Z.of_nat (S (length pre)) - 1) = Ok x.
Proof.
  unfold py_index. rewrite length_app. simpl length.
  replace (Z.of_nat (S (length pre)) - 1) with (Z.of_nat (length pre))
    by lia.
  replace (Z.of_nat (length pre) <? 0) with false
    by (symmetry; apply Z.ltb_ge; lia).
  destruct (_ || _) eqn:E.
  - apply orb_true_iff in E. destruct E as [E|E].
    + apply Z.ltb_lt in E. lia.
    + apply Z.leb_le in E. lia.
  - rewrite Nat2Z.id. rewrite lookup_app_r by lia.
    now rewrite Nat.sub_diag.
Qed.

Lemma py_index_neg1_last {A : Type} (l : list A) (d : A) :
  l <> [] -> py_index l (-1) = Ok (List.last l d).
Proof.
  intros Hl. rewrite (app_removelast_last d Hl) at 1.
  apply py_index_neg1.
Qed.

Lemma last_cons {A : Type} (rest : list A) :
  forall x d : A, List.last (x :: rest) d = List.last rest x.
Proof.
  induction rest as [|y rest IH]; intros x d; [reflexivity|].
  change (List.last (x :: y :: rest) d) with (List.last (y :: rest) d).
  rewrite (IH y d). symmetry. apply IH.
Qed.

Lemma ordered_from_last (rest : list Sample) :
  forall p, ordered_from p rest ->
    time_secs (time p) <= time_secs (time (List.last rest p)).
Proof.
  induction rest as [|x rest IH]; intros p Hord; [simpl; lia|].
  destruct Hord as [Hpx Hord]. specialize (IH x Hord).
  rewrite last_cons. lia.
Qed.

(** The scan of the samples after [p], whose run began at time [q]: what the
    totals gain, together with the gaps at the boundaries crossed, is the
    distance by which the start of the open run has moved. *)
Lemma scan_from_ordered (data : list Sample) (rest : list Sample) :
  forall (pre : list Sample) (p : Sample) (q : string) (st : scan_state),
    data = pre ++ p :: rest ->
    times_valid (p :: rest) -> ordered_from p rest ->
    current_period_start st = Some q -> valid_time q ->
    time_secs q <= time_secs (time p) ->
    current_period_type st = Some (classify p) ->
    exists (st' : scan_state) (q' : string),
      scan_from data (S (length pre)) rest st = Ok st'
      /\ current_period_start st' = Some q' /\ valid_time q'
      /\ time_secs q' <= time_secs (time (List.last rest p))
      /\ scan_sum st' - time_secs q' + boundary_gaps_from p rest
         = scan_sum st - time_secs q.
Proof.
  induction rest as [|x rest IH];
    intros pre p q st Hdata Hvalid Hord Hstart Hq Hqp Htype.
  - exists st, q. simpl. repeat split; try assumption. lia.
  - apply Forall_cons in Hvalid. destruct Hvalid as [Hp Hvalid].
    pose proof Hvalid as Hvalid'.
    apply Forall_cons in Hvalid'. destruct Hvalid' as [Hx _].
    destruct Hord as [Hpx Hord].
    assert (Hdata' : data = (pre ++ [p]) ++ x :: rest).
    { rewrite Hdata, <- app_assoc. reflexivity. }
    assert (Hlen : S (S (length pre)) = S (length (pre ++ [p]))).
    { rewrite length_app. simpl. lia. }
    rewrite last_cons.
    simpl scan_from. unfold scan_step. rewrite Htype.
    simpl boundary_gaps_from.
    destruct (decide (classify x = classify p)) as [Hsame|Hdiff].
    + destruct (decide (Some (classify p) = Some (classify x)))
        as [_|Hne]; [|congruence].
      cbn [mbind result_bind]. rewrite Hlen.
      destruct (IH (pre ++ [p]) x q st Hdata' Hvalid Hord Hstart Hq
                  ltac:(lia) ltac:(congruence))
        as [st' [q' [Hrun [Hs' [Hq' [Hle Heq]]]]]].
      exists st', q'. repeat split; try assumption; try lia.
    + destruct (decide (Some (classify p) = Some (classify x)))
        as [Heq|_]; [congruence|].
      rewrite Hstart.
      replace (py_index data (Z.of_nat (S (length pre)) - 1)) with (Ok p)
        by (rewrite Hdata; symmetry; apply py_index_middle).
      cbn [mbind result_bind].
      rewrite (calculate_duration_ordered q (time p) Hq Hp Hqp).
      cbn [mbind result_bind]. rewrite Hlen.
      match goal with
      | |- context [scan_from data _ rest ?s] => set (st1 := s)
      end.
      destruct (IH (pre ++ [p]) x (time x) st1 Hdata' Hvalid Hord
                  eq_refl Hx ltac:(lia) eq_refl)
        as [st' [q' [Hrun [Hs' [Hq' [Hle Heq]]]]]].
      exists st', q'. repeat split; try assumption.
      assert (Hsum : scan_sum st1
                     = scan_sum st + (time_secs (time p) - time_secs q)).
      { subst st1. unfold scan_sum. simpl. apply add_duration_sum. }
      lia.
Qed.

(** On valid, ordered sample times the two totals fall short of the time
    from the first sample to the last by exactly the gaps between runs. *)
Lemma segmented_seconds_ordered (first : Sample) (rest : list Sample) :
  times_valid (first :: rest) -> ordered_from first rest ->
  exists total,
    segmented_seconds (first :: rest) = Ok total
    /\ calculate_duration (time first) (time (List.last rest first))
       = Ok (total + boundary_gaps_from first rest).
Proof.
  intros Hvalid Hord.
  pose proof Hvalid as Hvalid'.
  apply Forall_cons in Hvalid'. destruct Hvalid' as [Hfirst Hrest].
  set (data := first :: rest) in *.
  set (st0 := mkScan 0 0 (Some (time first)) (Some (classify first))).
  destruct (scan_from_ordered data rest [] first (time first) st0
              eq_refl Hvalid Hord eq_refl Hfirst ltac:(lia) eq_refl)
    as [st' [q' [Hrun [Hs' [Hq' [Hle Heq]]]]]].
  simpl length in Hrun.
  set (l := List.last rest first) in *.
  assert (Hl : py_index data (-1) = Ok l).
  { subst data l. rewrite (py_index_neg1_last _ first) by discriminate.
    f_equal. apply last_cons. }
  assert (Hvl : valid_time (time l)).
  { destruct (py_index_last_elem data ltac:(discriminate)) as [l' [Hl' Hin]].
    rewrite Hl in Hl'. inversion Hl'; subst l'.
    unfold times_valid in Hvalid. rewrite Forall_forall in Hvalid.
    now apply Hvalid. }
  exists (scan_sum st' + (time_secs (time l) - time_secs q')). split.
  - rewrite segmented_seconds_totals. unfold period_totals.
    change (scan_from data 0 data scan_init)
      with (scan_from data 1 rest st0).
    rewrite Hrun. cbn [mbind result_bind]. unfold close_last. rewrite Hs'.
    replace (0 <? Z.of_nat (length data)) with true
      by (symmetry; apply Z.ltb_lt; subst data; simpl; lia).
    rewrite Hl. cbn [mbind result_bind].
    rewrite (calculate_duration_ordered q' (time l) Hq' Hvl Hle).
    cbn [mbind result_bind fst snd]. f_equal.
    rewrite add_duration_sum. reflexivity.
  - rewrite (calculate_duration_ordered (time first) (time l) Hfirst Hvl
               (ordered_from_last rest first Hord)).
    f_equal. unfold scan_sum in *. subst st0. simpl in Heq. lia.
Qed.

(** C1 as stated fails: two samples on opposite sides of the threshold form
    two one-sample runs of zero length, and the minute between them is in
    neither total. *)
Lemma segmented_seconds_gap_lost :
  let data := [mkSample "09:00:00" 100; mkSample "09:01:00" 120] in
  (2 <= length data)%nat
  /\ segmented_seconds data = Ok 0
  /\ calculate_duration "09:00:00" "09:01:00" = Ok 60
  /\ segmented_seconds data <> calculate_duration "09:00:00" "09:01:00".
Proof.
  simpl. split; [lia|]. split; [reflexivity|]. split; [reflexivity|].
  discriminate.
Qed.

(** C1 (amended): for a sequence of at least two samples, (a) when all
    samples fall on the same side of the threshold (one run), the active
    total plus the resting total returned by [calculate_period_durations] is
    the duration between the first and the last sample's time, a failure to
    parse either time being the same failure on both sides; (b) when the
    times are valid and never go back, the two totals plus the gaps between
    runs (from the last sample of a run to the first sample of the next)
    make up that duration. *)
Theorem segmented_seconds_runs
    (data : list Sample) (first last_ : Sample) :
  (2 <= length data)%nat ->
  py_index data 0 = Ok first ->
  py_index data (-1) = Ok last_ ->
  (Forall (fun d => classify d = classify first) data ->
   segmented_seconds data = calculate_duration (time first) (time last_))
  /\ (times_valid data -> time_ordered data ->
      exists total,
        segmented_seconds data = Ok total
        /\ calculate_duration (time first) (time last_)
           = Ok (total + boundary_gaps data)).
Proof.
  intros Hlen Hfirst Hlast.
  destruct data as [|x rest]; [simpl in Hlen; lia|].
  rewrite py_index_0 in Hfirst. inversion Hfirst; subst x. clear Hfirst.
  split.
  - intros Hall.
    rewrite segmented_seconds_totals. unfold period_totals.
    apply Forall_cons in Hall. destruct Hall as [_ Hrest].
    simpl scan_from.
    rewrite (scan_from_same_type _ rest (classify first));
      [|reflexivity|exact Hrest].
    rewrite bind_Ok. unfold close_last. simpl current_period_start.
    replace (0 <? Z.of_nat (length (first :: rest))) with true
      by (symmetry; apply Z.ltb_lt; simpl; lia).
    rewrite Hlast. rewrite bind_Ok.
    destruct (calculate_duration (time first) (time last_)) as [d|e];
      [|reflexivity].
    rewrite !bind_Ok. simpl fst. simpl snd.
    f_equal. rewrite add_duration_sum. simpl. lia.
  - intros Hvalid Hord.
    rewrite (py_index_neg1_last _ first) in Hlast by discriminate.
    rewrite last_cons in Hlast. inversion Hlast; subst last_.
    exact (segmented_seconds_ordered first rest Hvalid Hord).
Qed.

Lemma segmented_seconds_runs_witness :
  segmented_seconds
    [mkSample "09:00:00" 70; mkSample "09:00:30" 80; mkSample "09:02:00" 75]
  = calculate_duration "09:00:00" "09:02:00"
  /\ exists total,
       segmented_seconds
         [mkSample "09:00:00" 100; mkSample "09:01:00" 120;
          mkSample "09:03:00" 130]
       = Ok total
       /\ calculate_duration "09:00:00" "09:03:00"
          = Ok (total + boundary_gaps
                          [mkSample "09:00:00" 100; mkSample "09:01:00" 120;
                           mkSample "09:03:00" 130]).
Proof.
  split.
  - apply (segmented_seconds_runs
             [mkSample "09:00:00" 70; mkSample "09:00:30" 80;
              mkSample "09:02:00" 75]
             (mkSample "09:00:00" 70) (mkSample "09:02:00" 75)).
    + simpl. lia.
    + reflexivity.
    + reflexivity.
    + repeat constructor.
  - apply (segmented_seconds_runs
             [mkSample "09:00:00" 100; mkSample "09:01:00" 120;
              mkSample "09:03:00" 130]
             (mkSample "09:00:00" 100) (mkSample "09:03:00" 130)).
    + simpl. lia.
    + reflexivity.
    + reflexivity.
    + repeat constructor; eexists; reflexivity.
    + simpl. repeat split; apply Z.leb_le; reflexivity.
Defined.

(** ** Clock strings "HH:MM:SS" *)

Lemma digit_char_props (d : Z) :
  0 <= d <= 9 ->
  is_digit (digit_char d) = true
  /\ digit_val (digit_char d) = d
  /\ Ascii.eqb (digit_char d) ":" = false.
Proof.
  intros Hd.
  assert (H : d = 0 \/ d = 1 \/ d = 2 \/ d = 3 \/ d = 4 \/ d = 5 \/ d = 6
              \/ d = 7 \/ d = 8 \/ d = 9) by lia.
  repeat (destruct H as [-> | H]; [now vm_compute|]). subst. now vm_compute.
Qed.

Lemma div10_range (n : Z) :
  0 <= n < 100 -> 0 <= n / 10 <= 9 /\ 0 <= n mod 10 <= 9.
Proof.
  intros Hn. pose proof (Z.div_mod n 10 ltac:(lia)).
  pose proof (Z.mod_pos_bound n 10 ltac:(lia)). lia.
Qed.

Lemma field12_two_digits (n : Z) :
  0 <= n < 100 -> field12 (two_digits n) = Some n.
Proof.
  intros Hn. unfold two_digits, field12.
  destruct (div10_range n Hn) as [Hq Hr].
  destruct (digit_char_props (n / 10) Hq) as [H1 [H2 _]].
  destruct (digit_char_props (n mod 10) Hr) as [H3 [H4 _]].
  rewrite H1, H3, H2, H4. simpl. f_equal.
  pose proof (Z.div_mod n 10 ltac:(lia)). lia.
Qed.

Lemma split_on_clock (h m s : Z) :
  0 <= h < 100 -> 0 <= m < 100 -> 0 <= s < 100 ->
  split_on ":" (clock h m s) = [two_digits h; two_digits m; two_digits s].
Proof.
  intros Hh Hm Hs. unfold clock, two_digits.
  assert (D : forall n, 0 <= n < 100 ->
                Ascii.eqb (digit_char (n / 10)) ":" = false
                /\ Ascii.eqb (digit_char (n mod 10)) ":" = false).
  { intros n Hn. destruct (div10_range n Hn).
    split; now apply digit_char_props. }
  destruct (D h Hh) as [H1 H2]. destruct (D m Hm) as [H3 H4].
  destruct (D s Hs) as [H5 H6].
  simpl. rewrite H1, H2, H3, H4, H5, H6. reflexivity.
Qed.

(** [strptime] reads "HH:MM:SS" as that second of 1900-01-01. *)
Lemma strptime_hms_clock (h m s : Z) :
  0 <= h < 24 -> 0 <= m < 60 -> 0 <= s < 60 ->
  strptime_hms (clock h m s)
  = Ok (mkdt (ymd2ord 1900 1 1) (seconds_of_day h m s)).
Proof.
  intros Hh Hm Hs. unfold strptime_hms.
  rewrite split_on_clock by lia.
  rewrite !field12_two_digits by lia.
  replace (h <=? 23) with true by (symmetry; apply Z.leb_le; lia).
  replace (m <=? 59) with true by (symmetry; apply Z.leb_le; lia).
  replace (s <=? 59) with true by (symmetry; apply Z.leb_le; lia).
  reflexivity.
Qed.

Lemma clock_not_NA (h m s : Z) : clock h m s <> "N/A".
Proof. unfold clock, two_digits. simpl. intros H. inversion H. Qed.

Lemma clock_valid (h m s : Z) :
  0 <= h < 24 -> 0 <= m < 60 -> 0 <= s < 60 -> valid_time (clock h m s).
Proof. intros. eexists. now apply strptime_hms_clock. Qed.

(** C7: [calculate_duration] is 0 when either argument is "N/A";
    otherwise both strings are parsed and the result is end minus start,
    with 24 hours added to the end when it is before the start (for any
    two strings the parser accepts, and so for any two "HH:MM:SS" clock
    strings); from "23:30:00" to "00:10:00" it is 2400 seconds. *)
Theorem calculate_duration_spec :
  (forall s e : string,
      s = "N/A" \/ e = "N/A" -> calculate_duration s e = Ok 0)
  /\ (forall (s e : string) (a b : datetime),
         s <> "N/A" -> e <> "N/A" ->
         strptime_hms s = Ok a -> strptime_hms e = Ok b ->
         calculate_duration s e
         = Ok (if dt_secs b <? dt_secs a
               then dt_secs b + 24 * 3600 - dt_secs a
               else dt_secs b - dt_secs a))
  /\ (forall h m s h' m' s' : Z,
         0 <= h < 24 -> 0 <= m < 60 -> 0 <= s < 60 ->
         0 <= h' < 24 -> 0 <= m' < 60 -> 0 <= s' < 60 ->
         calculate_duration (clock h m s) (clock h' m' s')
         = Ok (if seconds_of_day h' m' s' <? seconds_of_day h m s
               then seconds_of_day h' m' s' + 24 * 3600
                    - seconds_of_day h m s
               else seconds_of_day h' m' s' - seconds_of_day h m s))
  /\ calculate_duration "23:30:00" "00:10:00" = Ok 2400.
Proof.
  split; [|split; [|split]].
  - intros s e [-> | ->]; unfold calculate_duration.
    + reflexivity.
    + rewrite orb_true_r. reflexivity.
  - intros s e a b Hs He Ha Hb.
    rewrite (calculate_duration_parsed s e a b Hs He Ha Hb). reflexivity.
  - intros h m s h' m' s' Hh Hm Hs Hh' Hm' Hs'.
    rewrite (calculate_duration_parsed _ _ _ _
               (clock_not_NA h m s) (clock_not_NA h' m' s')
               (strptime_hms_clock h m s Hh Hm Hs)
               (strptime_hms_clock h' m' s' Hh' Hm' Hs')).
    reflexivity.
  - reflexivity.
Qed.

Lemma calculate_duration_spec_witness :
  calculate_duration "N/A" "10:00:00" = Ok 0
  /\ calculate_duration (clock 8 0 0) (clock 9 30 0) = Ok 5400
  /\ calculate_duration (clock 23 30 0) (clock 0 10 0) = Ok 2400.
Proof.
  destruct calculate_duration_spec as [Hna [_ [Hclock _]]].
  split; [apply Hna; left; reflexivity|].
  split.
  - apply (Hclock 8 0 0 9 30 0); lia.
  - apply (Hclock 23 30 0 0 10 0); lia.
Defined.

(** C9: for two time strings the parser accepts (every "HH:MM:SS" clock
    string is one), [calculate_duration] returns a value in [0, 86400);
    so the totals of the segmentation are non-negative: they are returned
    whenever every sample time is valid, and any totals returned at all
    are non-negative. *)
Theorem durations_nonnegative :
  (forall s e : string,
      valid_time s -> valid_time e ->
      exists d, calculate_duration s e = Ok d /\ 0 <= d < 86400)
  /\ (forall h m s : Z,
         0 <= h < 24 -> 0 <= m < 60 -> 0 <= s < 60 ->
         valid_time (clock h m s))
  /\ (forall data : list Sample,
         times_valid data ->
         exists a r, period_totals data = Ok (a, r) /\ 0 <= a /\ 0 <= r)
  /\ (forall (data : list Sample) (a r : Z),
         period_totals data = Ok (a, r) -> 0 <= a /\ 0 <= r).
Proof.
  split; [|split; [|split]].
  - exact calculate_duration_valid.
  - exact clock_valid.
  - intros data Hdata.
    destruct (period_totals_total data Hdata) as [a [r H]].
    exists a, r. split; [exact H|]. eapply period_totals_nonneg; exact H.
  - exact period_totals_nonneg.
Qed.

Lemma durations_nonnegative_witness :
  (exists d, calculate_duration (clock 23 30 0) (clock 0 10 0) = Ok d
             /\ 0 <= d < 86400)
  /\ (exists a r,
         period_totals [mkSample (clock 9 0 0) 100; mkSample (clock 9 1 0) 120;
                        mkSample (clock 9 5 0) 130]
         = Ok (a, r) /\ 0 <= a /\ 0 <= r).
Proof.
  destruct durations_nonnegative as [Hd [Hv [Ht _]]].
  split.
  - apply Hd; apply Hv; lia.
  - apply Ht. repeat constructor; apply Hv; lia.
Defined.

(** ** update_rate_limit *)

Lemma headers_get_present (h : gmap string string) (name v : string)
    (dflt : pyval) :
  h !! lower name = Some v -> headers_get h name dflt = PStr v.
Proof. unfold headers_get. now intros ->. Qed.

Lemma headers_get_absent (h : gmap string string) (name : string)
    (dflt : pyval) :
  h !! lower name = None -> headers_get h name dflt = dflt.
Proof. unfold headers_get. now intros ->. Qed.

(** C8: after [update_rate_limit], each of limit, remaining and reset holds
    the value of its header when the header is present and its previous
    value when the header is absent. *)
Theorem update_rate_limit_frame (rl : RateLimit) (h : gmap string string) :
  let rl' := update_rate_limit rl h in
  ((forall v, h !! "fitbit-rate-limit-limit" = Some v ->
              rl_limit rl' = PStr v)
   /\ (h !! "fitbit-rate-limit-limit" = None -> rl_limit rl' = rl_limit rl))
  /\ ((forall v, h !! "fitbit-rate-limit-remaining" = Some v ->
                 rl_remaining rl' = PStr v)
      /\ (h !! "fitbit-rate-limit-remaining" = None ->
          rl_remaining rl' = rl_remaining rl))
  /\ ((forall v, h !! "fitbit-rate-limit-reset" = Some v ->
                 rl_reset rl' = PStr v)
      /\ (h !! "fitbit-rate-limit-reset" = None ->
          rl_reset rl' = rl_reset rl)).
Proof.
  simpl. repeat split; intros;
    first [ now apply headers_get_present | now apply headers_get_absent ].
Qed.

Lemma update_rate_limit_frame_witness :
  let h := case_insensitive_dict [("Fitbit-Rate-Limit-Remaining", "41")] in
  let rl' := update_rate_limit rate_limit_init h in
  rl_limit rl' = PInt 150 /\ rl_remaining rl' = PStr "41"
  /\ rl_reset rl' = PInt 0.
Proof.
  intros h rl'.
  destruct (update_rate_limit_frame rate_limit_init h)
    as [[_ Hl] [[Hr _] [_ Ht]]].
  split; [apply Hl; reflexivity|].
  split; [apply Hr; reflexivity | apply Ht; reflexivity].
Defined.

(** ** One pass of the retry loop *)

Lemma backoff_nonneg (attempt : Z) (backoff_factor : Q) :
  0 <= attempt -> Qle_bool 0 backoff_factor = true ->
  Qle_bool 0 (inject_Z (attempt + 1) * backoff_factor) = true.
Proof.
  intros Ha Hb. apply Qle_bool_iff. apply Qle_bool_iff in Hb.
  apply Qmult_le_0_compat; [|exact Hb].
  unfold Qle; simpl. lia.
Qed.

Lemma get_data_attempt_throttled (srv : Server)
    (endpoint resource_type : string) (backoff_factor : Q) (attempt : Z)
    (st : Retriever) (reset : Z) :
  let response := srv (length (requested st)) in
  let rl' := update_rate_limit (rate_limit st) (headers response) in
  status_code response = 429 ->
  py_int (rl_reset rl') = Ok reset ->
  Qle_bool 0 (throttle_wait reset attempt backoff_factor) = true ->
  get_data_attempt srv endpoint resource_type backoff_factor attempt st
  = (Ok (Continue (attempt + 1)),
     mkRetriever rl' (total_requests st) (successful_requests st)
       (failed_requests st) (requested st ++ [url_of endpoint])
       (slept st ++ [throttle_wait reset attempt backoff_factor])).
Proof.
  intros response rl' Hstatus Hreset Hwait.
  unfold get_data_attempt, mbind, M_bind, requests_get, do_update_rate_limit.
  fold response. simpl. rewrite Hstatus. simpl.
  unfold get_state, lift. simpl.
  subst rl'. simpl in Hreset. rewrite Hreset.
  unfold throttle_wait in *. unfold time_sleep.
  destruct (0 <? reset); simpl; rewrite Hwait; reflexivity.
Qed.

Lemma get_data_attempt_failed (srv : Server)
    (endpoint resource_type : string) (backoff_factor : Q) (attempt : Z)
    (st : Retriever) (n : Z) (msg : string) :
  let response := srv (length (requested st)) in
  status_code response <> 200 ->
  status_code response <> 429 ->
  log_error_details response attempt resource_type = Ok msg ->
  Qle_bool 0 (inject_Z (attempt + 1) * backoff_factor) = true ->
  failed_requests st !! resource_type = Some n ->
  get_data_attempt srv endpoint resource_type backoff_factor attempt st
  = (Ok (Continue (attempt + 1)),
     mkRetriever (update_rate_limit (rate_limit st) (headers response))
       (total_requests st + 1) (successful_requests st)
       (<[resource_type := n + 1]> (failed_requests st))
       (requested st ++ [url_of endpoint])
       (slept st ++ [(inject_Z (attempt + 1) * backoff_factor)%Q])).
Proof.
  intros response H200 H429 Hlog Hwait Hn.
  unfold get_data_attempt, mbind, M_bind, requests_get, do_update_rate_limit.
  fold response. simpl.
  apply Z.eqb_neq in H200, H429. rewrite H200, H429.
  unfold lift. rewrite Hlog. unfold time_sleep. simpl. rewrite Hwait.
  unfold incr_failed, incr. simpl. rewrite Hn. reflexivity.
Qed.

(** C3 as stated fails: on a 429 with reset 0 the first attempt waits
    (0 + 1) * 1.5 seconds, the backoff formula, not max(0, 0) + 1 = 1. *)
Lemma throttle_wait_uses_backoff :
  let run := get_data_attempt throttling_server "devices.json" "devices"
               default_backoff_factor 0 retriever_init in
  fst run = Ok (Continue 1)
  /\ py_int (rl_reset (rate_limit (snd run))) = Ok 0
  /\ slept (snd run) = [(3 # 2)%Q]
  /\ ~ (3 # 2 == inject_Z (Z.max 0 0 + 1))%Q.
Proof.
  simpl. split; [reflexivity|]. split; [reflexivity|]. split; [reflexivity|].
  intros H. unfold Qeq in H. simpl in H. discriminate.
Qed.

(** C3 (amended): an attempt answered with 429 reads reset from the quota
    record as just updated from that response; it sleeps reset + 1 seconds
    when reset is positive and (attempt + 1) * backoff_factor seconds
    otherwise; it goes on with attempt + 1; and it leaves the failure
    counters (and the success and total counters) as they were. *)
Theorem get_data_attempt_429 (srv : Server)
    (endpoint resource_type : string) (backoff_factor : Q) (attempt : Z)
    (st : Retriever) (reset : Z) :
  let response := srv (length (requested st)) in
  let rl' := update_rate_limit (rate_limit st) (headers response) in
  status_code response = 429 ->
  py_int (rl_reset rl') = Ok reset ->
  0 <= attempt -> Qle_bool 0 backoff_factor = true ->
  exists st',
    get_data_attempt srv endpoint resource_type backoff_factor attempt st
    = (Ok (Continue (attempt + 1)), st')
    /\ slept st'
       = slept st ++ [if 0 <? reset then inject_Z (reset + 1)
                      else (inject_Z (attempt + 1) * backoff_factor)%Q]
    /\ failed_requests st' = failed_requests st
    /\ successful_requests st' = successful_requests st
    /\ total_requests st' = total_requests st
    /\ rate_limit st' = rl'.
Proof.
  intros response rl' Hstatus Hreset Ha Hb.
  eexists. split.
  - apply get_data_attempt_throttled with (reset := reset);
      [exact Hstatus | exact Hreset |].
    unfold throttle_wait. destruct (Z.ltb_spec 0 reset).
    + apply Qle_bool_iff. unfold Qle; simpl. lia.
    + now apply backoff_nonneg.
  - simpl. repeat split; reflexivity.
Qed.

Lemma get_data_attempt_429_witness :
  exists st',
    get_data_attempt throttling_server "devices.json" "devices"
      default_backoff_factor 0 retriever_init
    = (Ok (Continue 1), st')
    /\ slept st' = [(inject_Z 1 * default_backoff_factor)%Q]
    /\ failed_requests st' = counters_init
    /\ successful_requests st' = counters_init
    /\ total_requests st' = 0
    /\ rate_limit st' = mkRateLimit (PInt 150) (PInt 150) (PStr "0").
Proof.
  apply (get_data_attempt_429 throttling_server "devices.json" "devices"
           default_backoff_factor 0 retriever_init 0).
  - reflexivity.
  - reflexivity.
  - lia.
  - reflexivity.
Defined.

(** ** Exhausting the retries *)

Lemma get_data_loop_all_fail (srv : Server)
    (endpoint resource_type : string) (backoff_factor : Q) :
  Qle_bool 0 backoff_factor = true ->
  forall (todo : nat) (attempt : Z) (st : Retriever) (n : Z),
    0 <= attempt ->
    failed_requests st !! resource_type = Some n ->
    (forall k : nat, (k < todo)%nat ->
       failure_response (srv (length (requested st) + k)%nat)
         (attempt + Z.of_nat k) resource_type) ->
    exists st',
      get_data_loop srv endpoint resource_type backoff_factor todo attempt st
      = (Ok JNull, st')
      /\ failed_requests st' !! resource_type = Some (n + Z.of_nat todo)
      /\ total_requests st' = total_requests st + Z.of_nat todo
      /\ successful_requests st' = successful_requests st
      /\ length (requested st') = (length (requested st) + todo)%nat.
Proof.
  intros Hb. induction todo as [|todo IH]; intros attempt st n Ha Hn Hfail.
  - exists st. simpl. repeat split; try reflexivity; try lia.
    rewrite Hn. f_equal. lia.
  - destruct (Hfail 0%nat ltac:(lia)) as [H200 [H429 [msg Hlog]]].
    rewrite Nat.add_0_r, Z.add_0_r in *.
    pose proof (get_data_attempt_failed srv endpoint resource_type
                  backoff_factor attempt st n msg H200 H429 Hlog
                  (backoff_nonneg attempt backoff_factor Ha Hb) Hn) as Hstep.
    simpl get_data_loop. unfold mbind at 1, M_bind at 1. rewrite Hstep.
    match goal with
    | |- context [get_data_loop _ _ _ _ todo (attempt + 1) ?s] =>
        destruct (IH (attempt + 1) s (n + 1)) as [st' [Hrun [Hf [Ht [Hs Hr]]]]]
    end.
    + lia.
    + simpl. apply lookup_insert_eq.
    + intros k Hk. simpl. rewrite length_app. simpl.
      replace (length (requested st) + 1 + k)%nat
        with (length (requested st) + S k)%nat by lia.
      replace (attempt + 1 + Z.of_nat k) with (attempt + Z.of_nat (S k))
        by lia.
      apply Hfail. lia.
    + exists st'. split; [exact Hrun|]. simpl in *.
      rewrite length_app in Hr. simpl in Hr.
      repeat split.
      * rewrite Hf. f_equal. lia.
      * lia.
      * exact Hs.
      * lia.
Qed.

(** C2 as stated fails: three 500s leave the failure counter at 3, not 1. *)
Lemma exhaustion_counts_every_attempt :
  let run := get_data failing_server "devices.json" "devices"
               default_retries default_backoff_factor retriever_init in
  fst run = Ok JNull
  /\ failed_requests retriever_init !! "devices" = Some 0
  /\ failed_requests (snd run) !! "devices" = Some 3
  /\ failed_requests (snd run) !! "devices" <> Some (0 + 1).
Proof.
  vm_compute. repeat split; discriminate.
Qed.

(** C2 (amended): with three retries, when all three attempts are answered
    with a status other than 200 and 429, [get_data] returns None and the
    failure counter of that resource has grown by 3, one for each attempt. *)
Theorem get_data_exhausted (srv : Server) (endpoint resource_type : string)
    (st : Retriever) (n : Z) :
  failed_requests st !! resource_type = Some n ->
  (forall k : nat, (k < 3)%nat ->
     failure_response (srv (length (requested st) + k)%nat)
       (Z.of_nat k) resource_type) ->
  exists st',
    get_data srv endpoint resource_type default_retries
      default_backoff_factor st
    = (Ok JNull, st')
    /\ failed_requests st' !! resource_type = Some (n + 3)
    /\ total_requests st' = total_requests st + 3
    /\ successful_requests st' = successful_requests st
    /\ length (requested st') = (length (requested st) + 3)%nat.
Proof.
  intros Hn Hfail. unfold get_data.
  apply (get_data_loop_all_fail srv endpoint resource_type
           default_backoff_factor eq_refl 3%nat 0 st n);
    [lia | exact Hn | exact Hfail].
Qed.

Lemma get_data_exhausted_witness :
  exists st',
    get_data failing_server "devices.json" "devices" default_retries
      default_backoff_factor retriever_init
    = (Ok JNull, st')
    /\ failed_requests st' !! "devices" = Some (0 + 3)
    /\ total_requests st' = 0 + 3
    /\ successful_requests st' = counters_init
    /\ length (requested st') = (0 + 3)%nat.
Proof.
  apply (get_data_exhausted failing_server "devices.json" "devices"
           retriever_init 0).
  - reflexivity.
  - intros k Hk. repeat split; try discriminate.
    exists "Failed to parse JSON response"%string. reflexivity.
Defined.

(** ** No exit below the admission check *)

Lemma no_exit_Ok {A : Type} (a : A) : no_exit (Ok a).
Proof. intros code. discriminate. Qed.

Lemma no_exit_Raise {A B : Type} (e : exn) :
  no_exit (@Raise A e) -> no_exit (@Raise B e).
Proof. intros H code E. apply (H code). now inversion E. Qed.

Lemma no_exit_of_option {A : Type} (e : exn) (o : option A) :
  (forall code, e <> SystemExit code) -> no_exit (of_option e o).
Proof.
  intros He code. destruct o; simpl; [discriminate|].
  intros [= H]. exact (He code H).
Qed.

Lemma no_exit_bind {A B : Type} (m : result A) (f : A -> result B) :
  no_exit m -> (forall a, no_exit (f a)) -> no_exit (m ≫= f).
Proof.
  intros Hm Hf. destruct m as [a|e]; [apply Hf|].
  intros code H. apply (Hm code). simpl in H. now inversion H.
Qed.

Lemma no_exit_M_ret {A : Type} (a : A) : no_exit_M (mret a).
Proof. intros st. apply no_exit_Ok. Qed.

Lemma no_exit_M_lift {A : Type} (r : result A) :
  no_exit r -> no_exit_M (lift r).
Proof. intros Hr st. exact Hr. Qed.

Lemma no_exit_M_bind {A B : Type} (m : M A) (f : A -> M B) :
  no_exit_M m -> (forall a, no_exit_M (f a)) -> no_exit_M (m ≫= f).
Proof.
  intros Hm Hf st. unfold mbind, M_bind.
  specialize (Hm st). destruct (m st) as [[a|e] st1]; simpl in *.
  - apply Hf.
  - intros code H. apply (Hm code). now inversion H.
Qed.

Lemma no_exit_int_of_str (s : string) : no_exit (int_of_str s).
Proof. apply no_exit_of_option. discriminate. Qed.

Lemma no_exit_py_int (v : pyval) : no_exit (py_int v).
Proof. destruct v; [apply no_exit_Ok | apply no_exit_int_of_str]. Qed.

Lemma no_exit_incr (c : gmap string Z) (k : string) : no_exit (incr c k).
Proof.
  apply no_exit_bind; [apply no_exit_of_option; discriminate|].
  intros a. apply no_exit_Ok.
Qed.

Lemma no_exit_response_json (r : Response) : no_exit (response_json r).
Proof. apply no_exit_of_option. discriminate. Qed.

Lemma no_exit_error_message_of (j : json) : no_exit (error_message_of j).
Proof.
  destruct j; simpl; try (intros code; discriminate).
  apply no_exit_of_option. discriminate.
Qed.

Lemma no_exit_mapM {A B : Type} (f : A -> result B) (l : list A) :
  (forall a, no_exit (f a)) -> no_exit (mapM_result f l).
Proof.
  intros Hf. induction l as [|a l IH]; simpl; [apply no_exit_Ok|].
  apply no_exit_bind; [apply Hf|]. intros b.
  apply no_exit_bind; [exact IH|]. intros bs. apply no_exit_Ok.
Qed.

Lemma no_exit_join_messages (parts : list json) :
  no_exit (join_messages parts).
Proof.
  induction parts as [|p parts IH]; [apply no_exit_Ok|].
  destruct p; simpl; try (intros code; discriminate).
  destruct parts as [|q parts]; [apply no_exit_Ok|].
  apply no_exit_bind; [exact IH|]. intros t. apply no_exit_Ok.
Qed.

Lemma no_exit_iterate (j : json) : no_exit (iterate j).
Proof. destruct j; simpl; intros code; discriminate. Qed.

Lemma no_exit_errors_of (j : json) : no_exit (errors_of j).
Proof.
  destruct j; simpl; try (intros code; discriminate).
  - destruct (contains _ _); intros code; discriminate.
  - destruct (existsb _ _); intros code; discriminate.
Qed.

Lemma no_exit_log_error_details (r : Response) (attempt : Z) (k : string) :
  no_exit (log_error_details r attempt k).
Proof.
  unfold log_error_details, response_json.
  destruct (body r) as [j|]; simpl; [|apply no_exit_Ok].
  apply no_exit_bind; [apply no_exit_errors_of|].
  intros [es|]; [|apply no_exit_Ok].
  apply no_exit_bind; [apply no_exit_iterate|]. intros items.
  apply no_exit_bind;
    [apply no_exit_mapM, no_exit_error_message_of|].
  intros parts. apply no_exit_join_messages.
Qed.

Lemma no_exit_time_sleep (secs : Q) : no_exit_M (time_sleep secs).
Proof.
  intros st code. unfold time_sleep. destruct (Qle_bool 0 secs); discriminate.
Qed.

Lemma no_exit_incr_successful (k : string) : no_exit_M (incr_successful k).
Proof.
  intros st. unfold incr_successful.
  pose proof (no_exit_incr (successful_requests st) k) as H.
  destruct (incr _ _); simpl;
    [apply no_exit_Ok | exact (no_exit_Raise _ H)].
Qed.

Lemma no_exit_incr_failed (k : string) : no_exit_M (incr_failed k).
Proof.
  intros st. unfold incr_failed.
  pose proof (no_exit_incr (failed_requests st) k) as H.
  destruct (incr _ _); simpl;
    [apply no_exit_Ok | exact (no_exit_Raise _ H)].
Qed.

Lemma no_exit_get_data_attempt (srv : Server) (endpoint k : string)
    (backoff_factor : Q) (attempt : Z) :
  no_exit_M (get_data_attempt srv endpoint k backoff_factor attempt).
Proof.
  unfold get_data_attempt.
  apply no_exit_M_bind; [intros st; apply no_exit_Ok|]. intros response.
  apply no_exit_M_bind; [intros st; apply no_exit_Ok|]. intros _.
  destruct (status_code response =? 200).
  - apply no_exit_M_bind; [apply no_exit_incr_successful|]. intros _.
    apply no_exit_M_bind; [intros st; apply no_exit_Ok|]. intros _.
    apply no_exit_M_bind;
      [apply no_exit_M_lift, no_exit_response_json|].
    intros v. apply no_exit_M_ret.
  - destruct (status_code response =? 429).
    + apply no_exit_M_bind; [intros st; apply no_exit_Ok|]. intros st0.
      apply no_exit_M_bind; [apply no_exit_M_lift, no_exit_py_int|].
      intros reset.
      apply no_exit_M_bind;
        [destruct (0 <? reset); apply no_exit_time_sleep|].
      intros _. apply no_exit_M_ret.
    + apply no_exit_M_bind;
        [apply no_exit_M_lift, no_exit_log_error_details|].
      intros _.
      apply no_exit_M_bind; [apply no_exit_time_sleep|]. intros _.
      apply no_exit_M_bind; [apply no_exit_incr_failed|]. intros _.
      apply no_exit_M_bind; [intros st; apply no_exit_Ok|]. intros _.
      apply no_exit_M_ret.
Qed.

Lemma no_exit_get_data_loop (srv : Server) (endpoint k : string)
    (backoff_factor : Q) (todo : nat) :
  forall attempt,
    no_exit_M (get_data_loop srv endpoint k backoff_factor todo attempt).
Proof.
  induction todo as [|todo IH]; intros attempt; simpl.
  - apply no_exit_M_ret.
  - apply no_exit_M_bind; [apply no_exit_get_data_attempt|].
    intros [v|attempt']; [apply no_exit_M_ret | apply IH].
Qed.

Lemma no_exit_get_data (srv : Server) (endpoint k : string) (retries : Z)
    (backoff_factor : Q) :
  no_exit_M (get_data srv endpoint k retries backoff_factor).
Proof. apply no_exit_get_data_loop. Qed.

Lemma no_exit_bundle_append (data : Bundle) (k : string) (d : json) :
  no_exit (bundle_append data k d).
Proof.
  apply no_exit_bind; [apply no_exit_of_option; discriminate|].
  intros l. apply no_exit_Ok.
Qed.

Lemma no_exit_fetch_resources (srv : Server) (user_id date_str : string)
    (resources : list string) :
  forall data,
    no_exit_M (fetch_resources srv user_id date_str resources data).
Proof.
  induction resources as [|r rest IH]; intros data; simpl.
  - apply no_exit_M_ret.
  - apply no_exit_M_bind; [apply no_exit_get_data|]. intros daily.
    apply no_exit_M_bind; [|apply IH].
    destruct (truthy daily);
      [apply no_exit_M_lift, no_exit_bundle_append | apply no_exit_M_ret].
Qed.

Lemma no_exit_fetch_days (srv : Server) (user_id : string) (start : datetime)
    (offsets : list Z) (resources : list string) :
  forall data,
    no_exit_M (fetch_days srv user_id start offsets resources data).
Proof.
  induction offsets as [|n rest IH]; intros data; simpl.
  - apply no_exit_M_ret.
  - apply no_exit_M_bind.
    + apply no_exit_M_lift. unfold dt_plus_days.
      destruct (_ && _); intros code; discriminate.
    + intros d. apply no_exit_M_bind; [apply no_exit_fetch_resources|].
      apply IH.
Qed.

(** ** Admission control *)

Lemma strptime_ymd_midnight (s : string) (d : datetime) :
  strptime_ymd s = Ok d -> dt_secs d = 0.
Proof.
  unfold strptime_ymd. intros H.
  destruct (split_on "-" s) as [|y [|m [|dd [|? ?]]]]; try discriminate.
  destruct (field4 y); [|discriminate].
  destruct (field12 m); [|discriminate].
  destruct (field_day dd); [|discriminate].
  destruct (_ && _); [|discriminate].
  now inversion H.
Qed.

Lemma dt_diff_days_dates (a b : datetime) :
  dt_secs a = 0 -> dt_secs b = 0 ->
  dt_diff_days a b = dt_days a - dt_days b.
Proof.
  intros Ha Hb. unfold dt_diff_days, dt_total_seconds.
  rewrite Ha, Hb, Z.sub_diag, Z.add_0_r. apply Z.div_mul. lia.
Qed.

(** C5: with required = |resources| * |days| over the inclusive date range,
    [get_all_data_for_date_ranges] exits with status 1, the state untouched
    and so no request sent, when required exceeds the remaining quota; when
    it does not, the call is the fetch loop run from the unchanged state and
    never ends in an exit.  With 5 days required is 30: remaining 20 exits,
    remaining 30 goes on. *)
Theorem admission_control (srv : Server)
    (user_id device_id start_date end_date : string) (st : Retriever)
    (s e : datetime) (remaining : Z) :
  strptime_ymd start_date = Ok s ->
  strptime_ymd end_date = Ok e ->
  py_int (rl_remaining (rate_limit st)) = Ok remaining ->
  let num_days := dt_days e - dt_days s + 1 in
  let required := Z.of_nat (length all_resources) * num_days in
  let run := get_all_data_for_date_ranges srv user_id device_id
               start_date end_date st in
  (remaining < required -> run = (Raise (SystemExit 1), st))
  /\ (required <= remaining ->
      run = fetch_days srv user_id s (py_range num_days) all_resources
              (bundle_init device_id) st
      /\ no_exit (fst run))
  /\ (num_days = 5 ->
      required = 30
      /\ (remaining = 20 -> run = (Raise (SystemExit 1), st))
      /\ (remaining = 30 -> no_exit (fst run))).
Proof.
  intros Hs He Hrem num_days required run.
  assert (Hdays : dt_diff_days e s + 1 = num_days).
  { subst num_days. rewrite dt_diff_days_dates; [reflexivity | |];
      eapply strptime_ymd_midnight; eassumption. }
  assert (Hrun : run
                 = if remaining <? required then (Raise (SystemExit 1), st)
                   else fetch_days srv user_id s (py_range num_days)
                          all_resources (bundle_init device_id) st).
  { subst run. unfold get_all_data_for_date_ranges.
    unfold mbind at 1, M_bind at 1. unfold lift at 1. rewrite Hs.
    unfold mbind at 1, M_bind at 1. unfold lift at 1. rewrite He.
    rewrite Hdays. unfold check_not_exceeded.
    unfold mbind, M_bind, get_state, lift. rewrite Hrem.
    fold required. destruct (remaining <? required); reflexivity. }
  assert (Hproceed : required <= remaining ->
            run = fetch_days srv user_id s (py_range num_days) all_resources
                    (bundle_init device_id) st
            /\ no_exit (fst run)).
  { intros Hle. rewrite Hrun.
    replace (remaining <? required) with false
      by (symmetry; apply Z.ltb_ge; exact Hle).
    split; [reflexivity | apply no_exit_fetch_days]. }
  assert (Habort : remaining < required -> run = (Raise (SystemExit 1), st)).
  { intros Hlt. rewrite Hrun.
    now replace (remaining <? required) with true
      by (symmetry; apply Z.ltb_lt; exact Hlt). }
  split; [exact Habort|]. split; [exact Hproceed|].
  intros H5. assert (Hreq : required = 30).
  { subst required. rewrite H5. reflexivity. }
  split; [exact Hreq|]. split.
  - intros ->. apply Habort. lia.
  - intros ->. apply Hproceed. lia.
Qed.

Lemma admission_control_witness :
  let st20 := with_remaining retriever_init (PStr "20") in
  let st30 := with_remaining retriever_init (PStr "30") in
  get_all_data_for_date_ranges ok_server "u" "dev" "2024-02-27" "2024-03-02"
    st20
  = (Raise (SystemExit 1), st20)
  /\ no_exit
       (fst (get_all_data_for_date_ranges ok_server "u" "dev" "2024-02-27"
               "2024-03-02" st30)).
Proof.
  intros st20 st30. split.
  - destruct (admission_control ok_server "u" "dev" "2024-02-27" "2024-03-02"
                st20 (mkdt 738943 0) (mkdt 738947 0) 20
                eq_refl eq_refl eq_refl) as [_ [_ H5]].
    destruct (H5 eq_refl) as [_ [H20 _]]. exact (H20 eq_refl).
  - destruct (admission_control ok_server "u" "dev" "2024-02-27" "2024-03-02"
                st30 (mkdt 738943 0) (mkdt 738947 0) 30
                eq_refl eq_refl eq_refl) as [_ [_ H5]].
    destruct (H5 eq_refl) as [_ [_ H30]]. exact (H30 eq_refl).
Defined.

(** The run that is admitted sends its thirty requests. *)
Example admitted_run_requests :
  let st30 := with_remaining retriever_init (PStr "30") in
  let run := get_all_data_for_date_ranges ok_server "u" "dev" "2024-02-27"
               "2024-03-02" st30 in
  length (requested (snd run)) = 30%nat
  /\ nth_error (requested (snd run)) 0
     = Some "https://api.fitbit.com//1/user/u/activities/steps/date/2024-02-27/1d.json"%string
  /\ total_requests (snd run) = 30.
Proof. vm_compute. repeat split. Qed.

(** ** The intraday record *)

Lemma Forall_list_filter {A : Type} (P : A -> Prop) (f : A -> bool)
    (l : list A) :
  Forall P l -> Forall P (List.filter f l).
Proof.
  induction 1 as [|x l Hx Hl IH]; simpl; [constructor|].
  destruct (f x); [constructor; assumption | assumption].
Qed.

Lemma filter_is_active_nil (l : list Sample) :
  Forall (fun d => value d <= max_rate_on_rest) l ->
  List.filter is_active l = [].
Proof.
  induction 1 as [|x l Hx Hl IH]; simpl; [reflexivity|].
  unfold is_active at 1.
  replace (max_rate_on_rest <? value x) with false
    by (symmetry; apply Z.ltb_ge; exact Hx).
  exact IH.
Qed.

Lemma foldl_min_valid (rest : list Sample) :
  forall a, valid_time a -> times_valid rest ->
    valid_time (foldl (fun m x => str_min m (time x)) a rest).
Proof.
  induction rest as [|x rest IH]; intros a Ha Hrest; simpl; [exact Ha|].
  apply Forall_cons in Hrest. destruct Hrest as [Hx Hrest].
  apply IH; [|exact Hrest]. unfold str_min. now destruct (String.ltb _ _).
Qed.

Lemma foldl_max_valid (rest : list Sample) :
  forall a, valid_time a -> times_valid rest ->
    valid_time (foldl (fun m x => str_max m (time x)) a rest).
Proof.
  induction rest as [|x rest IH]; intros a Ha Hrest; simpl; [exact Ha|].
  apply Forall_cons in Hrest. destruct Hrest as [Hx Hrest].
  apply IH; [|exact Hrest]. unfold str_max. now destruct (String.ltb _ _).
Qed.

Lemma window_duration_total (data : list Sample) :
  times_valid data ->
  exists d, window_duration (min_time data) (max_time data) = Ok d.
Proof.
  intros Hdata. destruct data as [|x rest]; simpl; [eauto|].
  apply Forall_cons in Hdata. destruct Hdata as [Hx Hrest].
  destruct (calculate_duration_valid
              (foldl (fun m y => str_min m (time y)) (time x) rest)
              (foldl (fun m y => str_max m (time y)) (time x) rest))
    as [d [Hd _]].
  - now apply foldl_min_valid.
  - now apply foldl_max_valid.
  - eauto.
Qed.

Lemma calculate_period_durations_total (data : list Sample) :
  times_valid data -> exists out, calculate_period_durations data = Ok out.
Proof.
  intros Hdata. unfold calculate_period_durations.
  destruct (period_totals_total data Hdata) as [a [r H]].
  rewrite H. simpl. eauto.
Qed.

(** The two active means of a record that was produced. *)
Lemma average_rate_record_active_means (device_id date : string)
    (interval : Z) (dataset_type : string) (first_sample : Sample)
    (dataset : list Sample) (r : AverageRateRecord) :
  average_rate_record device_id date interval dataset_type first_sample
    dataset = Ok r ->
  average_HeartValue_Activity r
  = py_round_to (mean_or (value <$> List.filter is_active dataset) 120) 2
  /\ average_HeartValue_Night_Activity r
     = py_round_to
         (mean_or (value <$> List.filter is_active
                               (List.filter in_night dataset)) 120) 2.
Proof.
  unfold average_rate_record. cbv zeta. intros H.
  repeat (apply bind_Ok_inv in H; destruct H as [? [_ H]]).
  inversion H; subst r. simpl. split; reflexivity.
Qed.

(** On samples whose times all parse, the record is produced. *)
Lemma average_rate_record_total (device_id date : string)
    (interval : Z) (dataset_type : string) (first_sample : Sample)
    (rest : list Sample) :
  times_valid (first_sample :: rest) ->
  exists r,
    average_rate_record device_id date interval dataset_type first_sample
      (first_sample :: rest) = Ok r.
Proof.
  intros Hdata. set (ds := first_sample :: rest) in *.
  destruct (py_index_last_elem ds ltac:(discriminate)) as [l [Hl Hin]].
  assert (Hvl : valid_time (time l)).
  { unfold times_valid in Hdata. rewrite Forall_forall in Hdata.
    now apply Hdata. }
  assert (Hvf : valid_time (time first_sample)).
  { unfold times_valid in Hdata. rewrite Forall_forall in Hdata.
    apply Hdata. subst ds. left. }
  destruct (calculate_duration_valid _ _ Hvf Hvl) as [d [Hd _]].
  destruct (window_duration_total (List.filter in_day ds)
              (Forall_list_filter _ _ _ Hdata)) as [dd Hdd].
  destruct (window_duration_total (List.filter in_night ds)
              (Forall_list_filter _ _ _ Hdata)) as [dn Hdn].
  destruct (calculate_period_durations_total (List.filter in_day ds)
              (Forall_list_filter _ _ _ Hdata)) as [pd Hpd].
  destruct (calculate_period_durations_total (List.filter in_night ds)
              (Forall_list_filter _ _ _ Hdata)) as [pn Hpn].
  unfold average_rate_record. cbv zeta.
  rewrite Hl. cbn [fmap result_fmap mbind result_bind].
  rewrite Hd. cbn [fmap result_fmap mbind result_bind].
  rewrite Hdd. cbn [fmap result_fmap mbind result_bind].
  rewrite Hdn. cbn [fmap result_fmap mbind result_bind].
  rewrite Hpd. cbn [fmap result_fmap mbind result_bind].
  rewrite Hpn. cbn [fmap result_fmap mbind result_bind].
  eauto.
Qed.

(** C4: when every sample of the day window and of the night window has a
    truthy value and no sample of the dataset exceeds 110, every record the
    entry yields has full-day active mean and night active mean exactly 120;
    and the record is yielded whenever the dataset is not empty, its times
    parse and the date can be read. *)
Theorem special_case_active_means (device_id : string) (entry : RateEntry)
    (intraday : Intraday) (ds : list Sample) :
  activities_heart_intraday entry = Some intraday ->
  dataset intraday = Some ds ->
  is_complete (List.filter in_day ds) = true ->
  is_complete (List.filter in_night ds) = true ->
  Forall (fun d => value d <= 110) ds ->
  (forall rs r,
      rate_entry_records device_id entry = Ok rs -> r ∈ rs ->
      average_HeartValue_Activity r = NInt 120
      /\ average_HeartValue_Night_Activity r = NInt 120)
  /\ (ds <> [] -> times_valid ds ->
      (exists date, entry_date entry = Ok date) ->
      exists r,
        rate_entry_records device_id entry = Ok [r]
        /\ average_HeartValue_Activity r = NInt 120
        /\ average_HeartValue_Night_Activity r = NInt 120).
Proof.
  intros Hintra Hds _ _ Hlow.
  assert (Hfields : forall date first_sample r,
            average_rate_record device_id date
              (default 1 (datasetInterval intraday))
              (default "minute"%string (datasetType intraday))
              first_sample ds = Ok r ->
            average_HeartValue_Activity r = NInt 120
            /\ average_HeartValue_Night_Activity r = NInt 120).
  { intros date first_sample r Hr.
    destruct (average_rate_record_active_means _ _ _ _ _ _ _ Hr) as [Ha Hn].
    rewrite Ha, Hn.
    rewrite (filter_is_active_nil ds Hlow).
    rewrite (filter_is_active_nil (List.filter in_night ds)
               (Forall_list_filter _ _ _ Hlow)).
    split; reflexivity. }
  split.
  - intros rs r Hrs Hin. unfold rate_entry_records in Hrs.
    rewrite Hintra in Hrs.
    apply bind_Ok_inv in Hrs. destruct Hrs as [date [_ Hrs]].
    rewrite Hds in Hrs. simpl in Hrs.
    destruct ds as [|first_sample rest].
    + inversion Hrs; subst rs. inversion Hin.
    + apply bind_Ok_inv in Hrs. destruct Hrs as [r0 [Hr0 Hrs]].
      inversion Hrs; subst rs.
      apply list_elem_of_singleton in Hin. subst r.
      eapply Hfields; exact Hr0.
  - intros Hne Hvalid [date Hdate].
    destruct ds as [|first_sample rest]; [congruence|].
    destruct (average_rate_record_total device_id date
                (default 1 (datasetInterval intraday))
                (default "minute"%string (datasetType intraday))
                first_sample rest Hvalid) as [r Hr].
    exists r. split; [|eapply Hfields; exact Hr].
    unfold rate_entry_records. rewrite Hintra, Hdate.
    cbn [mbind result_bind]. rewrite Hds. simpl default. cbv iota.
    rewrite Hr. reflexivity.
Qed.

Lemma special_case_active_means_witness :
  let ds := [mkSample "08:59:00" 60; mkSample "09:00:00" 72;
             mkSample "09:00:05" 110] in
  let entry := mkRateEntry (Some [mkHeartDay (Some "2024-03-01"%string)])
                 (Some (mkIntraday (Some ds) (Some 1)
                          (Some "second"%string))) in
  exists r,
    rate_entry_records "dev" entry = Ok [r]
    /\ average_HeartValue_Activity r = NInt 120
    /\ average_HeartValue_Night_Activity r = NInt 120.
Proof.
  intros ds entry.
  destruct (special_case_active_means "dev" entry
              (mkIntraday (Some ds) (Some 1) (Some "second"%string)) ds
              eq_refl eq_refl eq_refl eq_refl) as [_ H].
  - repeat constructor; simpl; lia.
  - apply H.
    + discriminate.
    + repeat constructor; eexists; reflexivity.
    + eexists; reflexivity.
Defined.

(** ** Days without samples *)

Lemma average_rate_records_app (device_id : string)
    (l1 l2 : list RateEntry) :
  average_rate_records device_id (l1 ++ l2)
  = (r1 ← average_rate_records device_id l1;
     r2 ← average_rate_records device_id l2;
     Ok (r1 ++ r2)).
Proof.
  induction l1 as [|e l1 IH]; simpl.
  - destruct (average_rate_records device_id l2); reflexivity.
  - destruct (rate_entry_records device_id e) as [rs|x]; simpl;
      [|reflexivity].
    rewrite IH.
    destruct (average_rate_records device_id l1) as [r1|x]; simpl;
      [|reflexivity].
    destruct (average_rate_records device_id l2) as [r2|x]; simpl;
      [|reflexivity].
    now rewrite app_assoc.
Qed.

(** C10: a daily 'rate' payload without the intraday key, or with an empty
    dataset, never yields a record: the entry contributes the empty list
    (always so when the key is missing, and whenever its date can be read
    otherwise), and the records of the whole list are those of the list
    without it. *)
Theorem no_record_without_samples (device_id : string) (entry : RateEntry) :
  without_samples entry ->
  (forall r rs, rate_entry_records device_id entry <> Ok (r :: rs))
  /\ (activities_heart_intraday entry = None ->
      rate_entry_records device_id entry = Ok [])
  /\ (forall date, entry_date entry = Ok date ->
      rate_entry_records device_id entry = Ok []
      /\ forall before after,
           average_rate_records device_id (before ++ entry :: after)
           = average_rate_records device_id (before ++ after)).
Proof.
  intros Hw. unfold without_samples in Hw.
  assert (Hdate : forall date, entry_date entry = Ok date ->
                    rate_entry_records device_id entry = Ok []).
  { intros date Hd. unfold rate_entry_records.
    destruct (activities_heart_intraday entry) as [intraday|];
      [|reflexivity].
    rewrite Hd. cbn [mbind result_bind].
    destruct Hw as [-> | ->]; reflexivity. }
  split; [|split].
  - intros r rs. unfold rate_entry_records.
    destruct (activities_heart_intraday entry) as [intraday|];
      [|discriminate].
    destruct (entry_date entry) as [date|e]; [|discriminate].
    cbn [mbind result_bind].
    destruct Hw as [-> | ->]; discriminate.
  - intros Hnone. unfold rate_entry_records. now rewrite Hnone.
  - intros date Hd. split; [now apply (Hdate date)|].
    intros before after. rewrite !average_rate_records_app. simpl.
    rewrite (Hdate date Hd). cbn [mbind result_bind].
    destruct (average_rate_records device_id before) as [r1|x];
      [|reflexivity].
    cbn [mbind result_bind].
    destruct (average_rate_records device_id after) as [r2|x]; reflexivity.
Qed.

Lemma no_record_without_samples_witness :
  let empty_day := mkRateEntry (Some [mkHeartDay (Some "2024-03-02"%string)])
                     (Some (mkIntraday (Some []) None None)) in
  let full_day := mkRateEntry (Some [mkHeartDay (Some "2024-03-01"%string)])
                    (Some (mkIntraday (Some [mkSample "10:00:00" 70])
                             None None)) in
  rate_entry_records "dev" empty_day = Ok []
  /\ average_rate_records "dev" ([full_day] ++ empty_day :: [])
     = average_rate_records "dev" ([full_day] ++ []).
Proof.
  intros empty_day full_day.
  destruct (no_record_without_samples "dev" empty_day) as [_ [_ H]].
  - right. reflexivity.
  - destruct (H "2024-03-02"%string eq_refl) as [H1 H2].
    split; [exact H1 | apply H2].
Defined.

(** ** Cutting the joined table in two *)

Lemma elem_of_masked {A : Type} (rows : list A) :
  forall (mask : list bool) (s k : nat) (r : A),
    length mask = length rows ->
    (k, r) ∈ (fst <$> List.filter snd
                (zip (zip (seq s (length rows)) rows) mask))
    <-> exists i, k = (s + i)%nat /\ rows !! i = Some r
                  /\ mask !! i = Some true.
Proof.
  induction rows as [|x rows IH]; intros mask s k r Hlen.
  - simpl. split.
    + intros H. inversion H.
    + intros [i [_ [H _]]]. discriminate.
  - destruct mask as [|b mask]; [discriminate|].
    simpl in Hlen. injection Hlen as Hlen. simpl.
    assert (Htail :
      (k, r) ∈ (fst <$> List.filter snd
                  (zip (zip (seq (S s) (length rows)) rows) mask))
      <-> exists i, k = (s + S i)%nat /\ rows !! i = Some r
                    /\ mask !! i = Some true).
    { rewrite (IH mask (S s) k r Hlen). split; intros [i [Hk H]];
        exists i; (split; [lia | exact H]). }
    destruct b; simpl.
    + rewrite elem_of_cons, Htail. split.
      * intros [[= -> ->] | [i [Hk H]]].
        -- exists 0%nat. repeat split. lia.
        -- exists (S i). split; [exact Hk | exact H].
      * intros [[|i] [Hk [Hr Hm]]].
        -- left. simpl in Hr. inversion Hr; subst. f_equal. lia.
        -- right. exists i. split; [exact Hk | split; assumption].
    + rewrite Htail. split.
      * intros [i [Hk H]]. exists (S i). split; [exact Hk | exact H].
      * intros [[|i] [Hk [Hr Hm]]]; [discriminate|].
        exists i. split; [exact Hk | split; assumption].
Qed.

Lemma masked_lengths {A : Type} (xs : list A) :
  forall mask : list bool,
    length mask = length xs ->
    (length (List.filter snd (zip xs mask))
     + length (List.filter snd (zip xs (negb <$> mask))))%nat
    = length xs.
Proof.
  induction xs as [|x xs IH]; intros mask Hlen; [reflexivity|].
  destruct mask as [|b mask]; [discriminate|].
  simpl in Hlen. injection Hlen as Hlen.
  specialize (IH mask Hlen). change (list_fmap bool bool negb mask) with (negb <$> mask) in *.
  destruct b; simpl;
    change (list_fmap bool bool negb mask) with (negb <$> mask); lia.
Qed.

Lemma elem_of_select (df : DataFrame) (mask : list bool) (k : nat)
    (r : gmap string json) :
  length mask = length (rows df) ->
  (k, r) ∈ sel_rows (select df mask)
  <-> rows df !! k = Some r /\ mask !! k = Some true.
Proof.
  intros Hlen. unfold select. simpl.
  rewrite (elem_of_masked (rows df) mask 0 k r Hlen). split.
  - intros [i [-> H]]. exact H.
  - intros H. exists k. split; [reflexivity | exact H].
Qed.

Lemma member_app_r (x : string) (l : list string) :
  member x (l ++ [x]) = true.
Proof.
  unfold member. rewrite existsb_app. simpl.
  rewrite String.eqb_refl. now rewrite orb_true_r.
Qed.

Lemma ensure_logId_has_column (df : DataFrame) :
  member "logId" (columns (ensure_logId df)) = true.
Proof.
  unfold ensure_logId. destruct (member "logId" (columns df)) eqn:E.
  - exact E.
  - apply member_app_r.
Qed.

Lemma ensure_logId_synthesized (df : DataFrame) :
  member "logId" (columns df) = false ->
  length (rows (ensure_logId df)) = length (rows df)
  /\ forall r : gmap string json,
       r ∈ rows (ensure_logId df) -> cell r "logId" = JNull.
Proof.
  intros E. unfold ensure_logId. rewrite E. simpl. split.
  - apply length_fmap.
  - intros r Hr. apply list_elem_of_fmap in Hr. destruct Hr as [r0 [-> _]].
    unfold cell. now rewrite lookup_insert_eq.
Qed.

(** C6: the joined table always has a logId column (a null-filled one is
    added when the merge produced none); its rows are cut into the complete
    table (logId not null) and the incomplete table (logId null) so that
    each row is in exactly one of the two, nothing else is in either, and
    the two row counts add up to the count of the joined table.  When every
    input frame is empty nothing is written. *)
Theorem partition_exhaustive_disjoint
    (merge : DataFrame -> DataFrame -> DataFrame)
    (data_frames : list DataFrame) :
  (forall df : DataFrame,
      member "logId" (columns df) = false ->
      length (rows (ensure_logId df)) = length (rows df)
      /\ forall r : gmap string json,
           r ∈ rows (ensure_logId df) -> cell r "logId" = JNull)
  /\ match combined_df merge data_frames with
     | None => join_and_save_combined_data merge data_frames = []
     | Some joined =>
         member "logId" (columns joined) = true
         /\ exists complete incomplete : Selection,
              join_and_save_combined_data merge data_frames
              = [("Merged.csv"%string, complete);
                 ("Registros_Incompletos.csv"%string, incomplete)]
              /\ ((length (sel_rows complete)
                   + length (sel_rows incomplete))%nat
                  = length (rows joined))
              /\ (forall (k : nat) (r : gmap string json),
                     rows joined !! k = Some r ->
                     if notnull (cell r "logId")
                     then ((k, r) ∈ sel_rows complete
                           /\ (k, r) ∉ sel_rows incomplete)
                     else (((k, r) ∉ sel_rows complete)
                           /\ (k, r) ∈ sel_rows incomplete))
              /\ (forall (k : nat) (r : gmap string json),
                     (k, r) ∈ sel_rows complete ++ sel_rows incomplete ->
                     rows joined !! k = Some r)
     end.
Proof.
  split; [exact ensure_logId_synthesized|].
  unfold join_and_save_combined_data.
  destruct (combined_df merge data_frames) as [joined|] eqn:Ej;
    [|reflexivity].
  split.
  { unfold combined_df in Ej.
    destruct (List.filter _ data_frames) as [|first rest]; [discriminate|].
    inversion Ej; subst joined. apply ensure_logId_has_column. }
  set (mask := complete_mask joined).
  assert (Hlen : length mask = length (rows joined)).
  { subst mask. unfold complete_mask. apply length_fmap. }
  assert (Hlen' : length (negb <$> mask) = length (rows joined)).
  { rewrite length_fmap. exact Hlen. }
  assert (Hmask : forall k r, rows joined !! k = Some r ->
                    mask !! k = Some (notnull (cell r "logId"))).
  { intros k r Hr. subst mask. unfold complete_mask.
    rewrite list_lookup_fmap, Hr. reflexivity. }
  exists (select joined mask), (select joined (negb <$> mask)).
  split; [reflexivity|]. split; [|split].
  - unfold select. simpl. rewrite !length_fmap.
    rewrite masked_lengths.
    + rewrite length_zip, length_seq. lia.
    + rewrite length_zip, length_seq. lia.
  - intros k r Hr. specialize (Hmask k r Hr).
    pose proof (elem_of_select joined mask k r Hlen) as Hc.
    pose proof (elem_of_select joined (negb <$> mask) k r Hlen') as Hi.
    rewrite list_lookup_fmap, Hmask in Hi. rewrite Hmask in Hc.
    destruct (notnull (cell r "logId")); simpl in Hi; split.
    + apply Hc. split; [exact Hr | reflexivity].
    + intros H. apply Hi in H. destruct H as [_ H]. discriminate.
    + intros H. apply Hc in H. destruct H as [_ H]. discriminate.
    + apply Hi. split; [exact Hr | reflexivity].
  - intros k r Hin. apply elem_of_app in Hin.
    rewrite !elem_of_select in Hin by assumption.
    destruct Hin as [[H _] | [H _]]; exact H.
Qed.

Lemma partition_exhaustive_disjoint_witness :
  let sleep := mkFrame ["DateTime"; "logId"]
                 [{[ "logId"%string := JNum 7 ]}] in
  let steps := mkFrame ["DateTime"; "TotalSteps"]
                 [{[ "TotalSteps"%string := JNum 100 ]}] in
  exists complete incomplete : Selection,
    join_and_save_combined_data stack_frames [sleep; mkFrame [] []; steps]
    = [("Merged.csv"%string, complete);
       ("Registros_Incompletos.csv"%string, incomplete)]
    /\ (length (sel_rows complete) + length (sel_rows incomplete))%nat
       = 2%nat.
Proof.
  intros sleep steps.
  destruct (partition_exhaustive_disjoint stack_frames
              [sleep; mkFrame [] []; steps]) as [_ H].
  destruct (combined_df stack_frames [sleep; mkFrame [] []; steps])
    as [joined|] eqn:E; [|discriminate E].
  destruct H as [_ [complete [incomplete [Hsave [Hlen _]]]]].
  exists complete, incomplete. split; [exact Hsave|].
  rewrite Hlen. inversion E. reflexivity.
Defined.

(** * Further properties of the code *)

(** ** format_duration *)

(** X1: [format_duration] splits any second count into hours, minutes in
    [0, 60) and seconds in [0, 60) that add up to it again, with hours not
    negative when the count is not; and hours, minutes and seconds in those
    ranges come back as they are from the count they add up to. *)
Theorem format_duration_canonical :
  (forall t : Z,
      0 <= dur_minutes (format_duration t) < 60
      /\ 0 <= dur_seconds (format_duration t) < 60
      /\ duration_in_seconds (format_duration t) = t
      /\ (0 <= t -> 0 <= dur_hours (format_duration t)))
  /\ (forall h m s : Z,
         0 <= m < 60 -> 0 <= s < 60 ->
         format_duration (h * 3600 + m * 60 + s) = mkdur h m s).
Proof.
  split.
  - intros t. split; [|split; [|split]].
    + unfold format_duration; simpl.
      pose proof (Z.mod_pos_bound t 3600 ltac:(lia)).
      pose proof (Z.div_mod (t mod 3600) 60 ltac:(lia)).
      pose proof (Z.mod_pos_bound (t mod 3600) 60 ltac:(lia)). lia.
    + unfold format_duration; simpl. apply Z.mod_pos_bound. lia.
    + apply format_duration_seconds.
    + intros Ht. unfold format_duration; simpl. apply Z.div_pos; lia.
  - intros h m s Hm Hs. unfold format_duration.
    assert (H1 : (h * 3600 + m * 60 + s) / 3600 = h).
    { replace (h * 3600 + m * 60 + s) with (m * 60 + s + h * 3600) by lia.
      rewrite Z.div_add by lia. rewrite Z.div_small by lia. lia. }
    assert (H2 : (h * 3600 + m * 60 + s) mod 3600 = m * 60 + s).
    { replace (h * 3600 + m * 60 + s) with (m * 60 + s + h * 3600) by lia.
      rewrite Z.mod_add by lia. apply Z.mod_small. lia. }
    assert (H3 : (h * 3600 + m * 60 + s) mod 60 = s).
    { replace (h * 3600 + m * 60 + s) with (s + (h * 60 + m) * 60) by lia.
      rewrite Z.mod_add by lia. apply Z.mod_small. lia. }
    rewrite H1, H2, H3. f_equal.
    replace (m * 60 + s) with (s + m * 60) by lia.
    rewrite Z.div_add by lia. rewrite Z.div_small by lia. lia.
Qed.

Lemma format_duration_canonical_witness :
  format_duration (1 * 3600 + 2 * 60 + 3) = mkdur 1 2 3.
Proof.
  destruct format_duration_canonical as [_ H]. apply H; lia.
Defined.

(** ** Totals of the segmentation *)

Lemma scan_from_no_active (data rest : list Sample) :
  forall (i : nat) (st st' : scan_state),
    Forall (fun d => value d <= max_rate_on_rest) rest ->
    active_duration_total st = 0 ->
    current_period_type st <> Some active ->
    scan_from data i rest st = Ok st' ->
    active_duration_total st' = 0 /\ current_period_type st' <> Some active.
Proof.
  induction rest as [|x rest IH]; intros i st st' Hrest Ha Ht H; simpl in H.
  - inversion H; subst. split; assumption.
  - apply Forall_cons in Hrest. destruct Hrest as [Hx Hrest].
    apply bind_Ok_inv in H. destruct H as [st1 [Hstep H]].
    assert (Hc : classify x = resting).
    { unfold classify.
      now replace (max_rate_on_rest <? value x) with false
        by (symmetry; apply Z.ltb_ge; exact Hx). }
    assert (H1 : active_duration_total st1 = 0
                 /\ current_period_type st1 <> Some active).
    { unfold scan_step in Hstep. rewrite Hc in Hstep.
      destruct (decide _) as [_|_];
        [inversion Hstep; subst; split; assumption|].
      apply bind_Ok_inv in Hstep. destruct Hstep as [st0 [H0 Hstep]].
      inversion Hstep; subst st1. simpl. split; [|discriminate].
      destruct (current_period_start st) as [start|].
      - apply bind_Ok_inv in H0. destruct H0 as [prev [_ H0]].
        apply bind_Ok_inv in H0. destruct H0 as [d [_ H0]].
        inversion H0; subst st0. unfold add_duration.
        destruct (current_period_type st) as [[|]|]; simpl;
          [congruence | exact Ha | exact Ha].
      - inversion H0; subst st0. exact Ha. }
    destruct H1 as [Ha1 Ht1]. eapply IH; eassumption.
Qed.

Lemma scan_from_no_resting (data rest : list Sample) :
  forall (i : nat) (st st' : scan_state),
    Forall (fun d => max_rate_on_rest < value d) rest ->
    resting_duration_total st = 0 ->
    (current_period_type st = Some active
     \/ current_period_start st = None) ->
    scan_from data i rest st = Ok st' ->
    resting_duration_total st' = 0
    /\ (current_period_type st' = Some active
        \/ current_period_start st' = None).
Proof.
  induction rest as [|x rest IH]; intros i st st' Hrest Hr Ht H; simpl in H.
  - inversion H; subst. split; assumption.
  - apply Forall_cons in Hrest. destruct Hrest as [Hx Hrest].
    apply bind_Ok_inv in H. destruct H as [st1 [Hstep H]].
    assert (Hc : classify x = active).
    { unfold classify.
      now replace (max_rate_on_rest <? value x) with true
        by (symmetry; apply Z.ltb_lt; exact Hx). }
    assert (H1 : resting_duration_total st1 = 0
                 /\ (current_period_type st1 = Some active
                     \/ current_period_start st1 = None)).
    { unfold scan_step in Hstep. rewrite Hc in Hstep.
      destruct (decide _) as [_|Hne];
        [inversion Hstep; subst; split; assumption|].
      apply bind_Ok_inv in Hstep. destruct Hstep as [st0 [H0 Hstep]].
      inversion Hstep; subst st1. simpl. split; [|left; reflexivity].
      destruct Ht as [Ht|Ht]; [congruence|].
      rewrite Ht in H0. inversion H0; subst st0. exact Hr. }
    destruct H1 as [Hr1 Ht1]. eapply IH; eassumption.
Qed.

(** X2: when no sample of the window exceeds 110, whatever
    [calculate_period_durations] returns has a zero active total; when every
    sample exceeds 110, it has a zero resting total. *)
Theorem one_sided_window_totals (data : list Sample)
    (out : duration_text * duration_text) :
  calculate_period_durations data = Ok out ->
  (Forall (fun d => value d <= 110) data -> fst out = format_duration 0)
  /\ (Forall (fun d => 110 < value d) data -> snd out = format_duration 0).
Proof.
  unfold calculate_period_durations. intros H.
  apply bind_Ok_inv in H. destruct H as [[a r] [Ht H]].
  inversion H; subst out. simpl. clear H.
  unfold period_totals in Ht.
  apply bind_Ok_inv in Ht. destruct Ht as [st [Hscan Ht]].
  apply bind_Ok_inv in Ht. destruct Ht as [st' [Hclose Ht]].
  inversion Ht; subst a r. clear Ht.
  split; intros Hall.
  - destruct (scan_from_no_active data data 0 scan_init st Hall eq_refl
                ltac:(discriminate) Hscan) as [Ha Hty].
    f_equal. unfold close_last in Hclose.
    destruct (current_period_start st) as [start|];
      [|inversion Hclose; subst; exact Ha].
    destruct (0 <? _); [|inversion Hclose; subst; exact Ha].
    apply bind_Ok_inv in Hclose. destruct Hclose as [l [_ Hclose]].
    apply bind_Ok_inv in Hclose. destruct Hclose as [d [_ Hclose]].
    inversion Hclose; subst st'. unfold add_duration.
    destruct (current_period_type st) as [[|]|]; simpl;
      [congruence | exact Ha | exact Ha].
  - destruct (scan_from_no_resting data data 0 scan_init st Hall eq_refl
                (or_intror eq_refl) Hscan) as [Hr Hty].
    f_equal. unfold close_last in Hclose.
    destruct (current_period_start st) as [start|] eqn:Es;
      [|inversion Hclose; subst; exact Hr].
    destruct (0 <? _); [|inversion Hclose; subst; exact Hr].
    apply bind_Ok_inv in Hclose. destruct Hclose as [l [_ Hclose]].
    apply bind_Ok_inv in Hclose. destruct Hclose as [d [_ Hclose]].
    inversion Hclose; subst st'. unfold add_duration.
    destruct Hty as [Hty|Hty]; [|discriminate].
    rewrite Hty. simpl. exact Hr.
Qed.

Lemma one_sided_window_totals_witness :
  let data := [mkSample "10:00:00" 90; mkSample "10:05:00" 110] in
  let out := (format_duration 0, format_duration 300) in
  (Forall (fun d => value d <= 110) data -> fst out = format_duration 0)
  /\ (Forall (fun d => 110 < value d) data -> snd out = format_duration 0).
Proof.
  intros data out.
  apply (one_sided_window_totals data out). reflexivity.
Defined.

Lemma boundary_gaps_from_nonneg (rest : list Sample) :
  forall p, ordered_from p rest -> 0 <= boundary_gaps_from p rest.
Proof.
  induction rest as [|x rest IH]; intros p Hord; simpl; [lia|].
  destruct Hord as [Hpx Hord]. specialize (IH x Hord).
  destruct (decide _); lia.
Qed.

(** X3: on samples whose times parse and never go back, the active total
    plus the resting total is at least 0 and at most the duration between
    the first and the last sample's time. *)
Theorem totals_within_span (first : Sample) (rest : list Sample) :
  times_valid (first :: rest) ->
  time_ordered (first :: rest) ->
  exists total span : Z,
    segmented_seconds (first :: rest) = Ok total
    /\ calculate_duration (time first) (time (List.last rest first))
       = Ok span
    /\ 0 <= total <= span.
Proof.
  intros Hvalid Hord. simpl in Hord.
  destruct (segmented_seconds_ordered first rest Hvalid Hord)
    as [total [Htotal Hspan]].
  exists total, (total + boundary_gaps_from first rest).
  split; [exact Htotal|]. split; [exact Hspan|].
  pose proof (boundary_gaps_from_nonneg rest first Hord).
  rewrite segmented_seconds_totals in Htotal.
  apply bind_Ok_inv in Htotal. destruct Htotal as [[a r] [Ht Htotal]].
  apply period_totals_nonneg in Ht. inversion Htotal; subst total.
  simpl. lia.
Qed.

Lemma totals_within_span_witness :
  exists total span : Z,
    segmented_seconds
      [mkSample "09:00:00" 100; mkSample "09:01:00" 120;
       mkSample "09:03:00" 130; mkSample "09:04:00" 90]
    = Ok total
    /\ calculate_duration "09:00:00" "09:04:00" = Ok span
    /\ 0 <= total <= span.
Proof.
  apply (totals_within_span (mkSample "09:00:00" 100)
           [mkSample "09:01:00" 120; mkSample "09:03:00" 130;
            mkSample "09:04:00" 90]).
  - repeat constructor; eexists; reflexivity.
  - simpl. repeat split; apply Z.leb_le; reflexivity.
Defined.

(** ** Updates of the quota record *)

Lemma headers_get_union (h1 h2 : gmap string string) (name : string)
    (dflt : pyval) :
  headers_get h2 name (headers_get h1 name dflt)
  = headers_get (h2 ∪ h1) name dflt.
Proof.
  unfold headers_get. rewrite lookup_union.
  destruct (h2 !! lower name), (h1 !! lower name); reflexivity.
Qed.

(** X4: two updates of the quota record in a row are one update with the
    later headers laid over the earlier ones, so for each field the latest
    response that carries its header decides; updating twice from the same
    headers changes nothing further. *)
Theorem update_rate_limit_compose (rl : RateLimit)
    (h1 h2 : gmap string string) :
  update_rate_limit (update_rate_limit rl h1) h2
  = update_rate_limit rl (h2 ∪ h1)
  /\ update_rate_limit (update_rate_limit rl h1) h1
     = update_rate_limit rl h1.
Proof.
  assert (H : forall a b,
            update_rate_limit (update_rate_limit rl a) b
            = update_rate_limit rl (b ∪ a)).
  { intros a b. unfold update_rate_limit. simpl.
    now rewrite !headers_get_union. }
  split; [apply H|]. rewrite H. f_equal.
  apply map_eq. intros k. rewrite lookup_union.
  now destruct (h1 !! k).
Qed.

(** ** What the retry loop does to the state *)

Lemma get_data_attempt_effects (srv : Server) (endpoint k : string)
    (backoff_factor : Q) (attempt : Z) (st : Retriever) :
  attempt_effects srv endpoint k st
    (snd (get_data_attempt srv endpoint k backoff_factor attempt st)).
Proof.
  unfold get_data_attempt, mbind, M_bind, requests_get, do_update_rate_limit.
  simpl. set (response := srv (length (requested st))).
  assert (Hfin : forall (c : gmap string Z) (n : Z) (k' : string),
            k' <> k -> <[k := n]> c !! k' = c !! k').
  { intros c n k' Hne. apply lookup_insert_ne. congruence. }
  destruct (status_code response =? 200).
  - unfold incr_successful, incr. simpl.
    destruct (successful_requests st !! k) as [n|] eqn:En; simpl.
    + unfold lift, response_json.
      destruct (body response); simpl;
        (unfold attempt_effects, counted; simpl;
         rewrite lookup_insert_eq, En; simpl;
         repeat split; try reflexivity; try lia; auto).
    + unfold attempt_effects, counted; simpl.
      repeat split; try reflexivity; try lia; auto.
  - destruct (status_code response =? 429).
    + unfold get_state, lift. simpl.
      destruct (py_int _) as [reset|e]; simpl.
      * unfold time_sleep.
        destruct (0 <? reset); simpl;
          (destruct (Qle_bool _ _); simpl;
           unfold attempt_effects, counted; simpl;
           repeat split; try reflexivity; try lia; eauto).
      * unfold attempt_effects, counted; simpl.
        repeat split; try reflexivity; try lia; auto.
    + unfold lift. destruct (log_error_details _ _ _) as [msg|e]; simpl.
      * unfold time_sleep. destruct (Qle_bool _ _); simpl.
        -- unfold incr_failed, incr. simpl.
           destruct (failed_requests st !! k) as [n|] eqn:En; simpl;
             unfold attempt_effects, counted; simpl;
             rewrite ?lookup_insert_eq, ?En; simpl;
             repeat split; try reflexivity; try lia; eauto.
        -- unfold attempt_effects, counted; simpl.
           repeat split; try reflexivity; try lia; auto.
      * unfold attempt_effects, counted; simpl.
        repeat split; try reflexivity; try lia; auto.
Qed.

Lemma attempt_then_loop_effects (srv : Server) (endpoint k : string)
    (n : nat) (st st1 st2 : Retriever) :
  attempt_effects srv endpoint k st st1 ->
  loop_effects endpoint k n st1 st2 ->
  loop_effects endpoint k (S n) st st2.
Proof.
  intros [Hreq [_ [Hsl [Hcnt [Htot Hoth]]]]]
         [[sent [waits [Hreq2 [Hsl2 [Hlen Hall]]]]] [Hcnt2 [Htot2 Hoth2]]].
  split; [|split; [|split]].
  - destruct Hsl as [Hsl | [d Hsl]].
    + exists (url_of endpoint :: sent), waits.
      rewrite Hreq2, Hreq, Hsl2, Hsl, <- app_assoc. simpl.
      repeat split; try lia. constructor; [reflexivity | exact Hall].
    + exists (url_of endpoint :: sent), (d :: waits).
      rewrite Hreq2, Hreq, Hsl2, Hsl, <- !app_assoc. simpl.
      repeat split; try lia. constructor; [reflexivity | exact Hall].
  - lia.
  - lia.
  - intros k' Hne. destruct (Hoth k' Hne) as [H1 H2].
    destruct (Hoth2 k' Hne) as [H3 H4]. split; congruence.
Qed.

Lemma loop_effects_refl (endpoint k : string) (n : nat) (st : Retriever) :
  loop_effects endpoint k n st st.
Proof.
  split; [|split; [|split]].
  - exists [], []. rewrite !app_nil_r. repeat split; simpl; try lia.
    constructor.
  - reflexivity.
  - lia.
  - intros k' _. split; reflexivity.
Qed.

Lemma get_data_loop_effects (srv : Server) (endpoint k : string)
    (backoff_factor : Q) (todo : nat) :
  forall (attempt : Z) (st : Retriever),
    loop_effects endpoint k todo st
      (snd (get_data_loop srv endpoint k backoff_factor todo attempt st)).
Proof.
  induction todo as [|todo IH]; intros attempt st.
  - simpl. apply loop_effects_refl.
  - simpl get_data_loop. unfold mbind at 1, M_bind at 1.
    pose proof (get_data_attempt_effects srv endpoint k backoff_factor
                  attempt st) as Hstep.
    destruct (get_data_attempt srv endpoint k backoff_factor attempt st)
      as [[[v|attempt']|e] st1]; simpl in Hstep.
    + simpl. eapply attempt_then_loop_effects; [exact Hstep|].
      apply loop_effects_refl.
    + eapply attempt_then_loop_effects; [exact Hstep | apply IH].
    + simpl. eapply attempt_then_loop_effects; [exact Hstep|].
      apply loop_effects_refl.
Qed.

(** X5: however the server answers and however the call ends, [get_data]
    sends at most [retries] requests, all to the URL of its endpoint, and
    sleeps at most once per request sent. *)
Theorem get_data_bounded_effort (srv : Server) (endpoint k : string)
    (retries : Z) (backoff_factor : Q) (st : Retriever) :
  exists (sent : list string) (waits : list Q),
    requested (snd (get_data srv endpoint k retries backoff_factor st))
    = requested st ++ sent
    /\ slept (snd (get_data srv endpoint k retries backoff_factor st))
       = slept st ++ waits
    /\ (length waits <= length sent <= Z.to_nat retries)%nat
    /\ Forall (fun url => url = base_url +:+ "/" +:+ endpoint) sent.
Proof.
  destruct (get_data_loop_effects srv endpoint k backoff_factor
              (Z.to_nat retries) 0 st) as [H _].
  exact H.
Qed.

(** X6: [get_data] keeps the books balanced, however the call ends: the
    total counter grows by exactly what the success and failure counters of
    the resource grow by together (a 429 is counted nowhere), by at most
    [retries], and the counters of every other resource stay as they are. *)
Theorem get_data_bookkeeping (srv : Server) (endpoint k : string)
    (retries : Z) (backoff_factor : Q) (st : Retriever) :
  let st' := snd (get_data srv endpoint k retries backoff_factor st) in
  total_requests st' - total_requests st = counted st' k - counted st k
  /\ 0 <= total_requests st' - total_requests st <= Z.of_nat (Z.to_nat retries)
  /\ forall k' : string, k' <> k ->
       successful_requests st' !! k' = successful_requests st !! k'
       /\ failed_requests st' !! k' = failed_requests st !! k'.
Proof.
  destruct (get_data_loop_effects srv endpoint k backoff_factor
              (Z.to_nat retries) 0 st) as [_ [Hcnt [Htot Hoth]]].
  simpl. split; [|split]; [unfold get_data; lia | exact Htot | exact Hoth].
Qed.

(** ** Where a payload comes from *)

Lemma get_data_attempt_returned (srv : Server) (endpoint k : string)
    (backoff_factor : Q) (attempt : Z) (st st' : Retriever) (v : json) :
  get_data_attempt srv endpoint k backoff_factor attempt st
  = (Ok (Returned v), st') ->
  status_code (srv (length (requested st))) = 200
  /\ body (srv (length (requested st))) = Some v
  /\ exists n, successful_requests st !! k = Some n
               /\ successful_requests st' !! k = Some (n + 1).
Proof.
  unfold get_data_attempt, mbind, M_bind, requests_get, do_update_rate_limit.
  simpl. set (response := srv (length (requested st))).
  destruct (status_code response =? 200) eqn:E200.
  - apply Z.eqb_eq in E200. unfold incr_successful, incr. simpl.
    destruct (successful_requests st !! k) as [n|] eqn:En; simpl;
      [|discriminate].
    unfold lift, response_json. destruct (body response) as [b|]; simpl;
      [|discriminate].
    intros H. inversion H; subst. simpl.
    split; [exact E200|]. split; [reflexivity|].
    exists n. split; [reflexivity | apply lookup_insert_eq].
  - destruct (status_code response =? 429).
    + unfold get_state, lift. simpl.
      destruct (py_int _) as [reset|e]; simpl; [|discriminate].
      unfold time_sleep.
      destruct (0 <? reset); simpl; destruct (Qle_bool _ _); discriminate.
    + unfold lift. destruct (log_error_details _ _ _); simpl;
        [|discriminate].
      unfold time_sleep. destruct (Qle_bool _ _); simpl; [|discriminate].
      unfold incr_failed, incr. simpl.
      destruct (failed_requests st !! k); discriminate.
Qed.

Lemma get_data_attempt_continue (srv : Server) (endpoint k : string)
    (backoff_factor : Q) (attempt attempt' : Z) (st st' : Retriever) :
  get_data_attempt srv endpoint k backoff_factor attempt st
  = (Ok (Continue attempt'), st') ->
  status_code (srv (length (requested st))) <> 200
  /\ successful_requests st' = successful_requests st
  /\ length (requested st') = S (length (requested st)).
Proof.
  unfold get_data_attempt, mbind, M_bind, requests_get, do_update_rate_limit.
  simpl. set (response := srv (length (requested st))).
  destruct (status_code response =? 200) eqn:E200.
  - unfold incr_successful, incr. simpl.
    destruct (successful_requests st !! k); simpl; [|discriminate].
    unfold lift, response_json. destruct (body response); discriminate.
  - apply Z.eqb_neq in E200.
    destruct (status_code response =? 429).
    + unfold get_state, lift. simpl.
      destruct (py_int _) as [reset|e]; simpl; [|discriminate].
      unfold time_sleep.
      destruct (0 <? reset); simpl; destruct (Qle_bool _ _); simpl;
        try discriminate;
        (intros H; inversion H; subst; simpl;
         rewrite length_app; simpl; repeat split; [exact E200 | lia]).
    + unfold lift. destruct (log_error_details _ _ _); simpl;
        [|discriminate].
      unfold time_sleep. destruct (Qle_bool _ _); simpl; [|discriminate].
      unfold incr_failed, incr. simpl.
      destruct (failed_requests st !! k); simpl; [|discriminate].
      intros H; inversion H; subst; simpl.
      rewrite length_app; simpl; repeat split; [exact E200 | lia].
Qed.

Lemma get_data_loop_payload (srv : Server) (endpoint k : string)
    (backoff_factor : Q) (todo : nat) :
  forall (attempt : Z) (st st' : Retriever) (v : json),
    get_data_loop srv endpoint k backoff_factor todo attempt st
    = (Ok v, st') ->
    v <> JNull ->
    exists i : nat,
      (i < todo)%nat
      /\ status_code (srv (length (requested st) + i)%nat) = 200
      /\ body (srv (length (requested st) + i)%nat) = Some v
      /\ (forall j : nat, (j < i)%nat ->
            status_code (srv (length (requested st) + j)%nat) <> 200)
      /\ length (requested st') = S (length (requested st) + i)
      /\ exists n, successful_requests st !! k = Some n
                   /\ successful_requests st' !! k = Some (n + 1).
Proof.
  induction todo as [|todo IH]; intros attempt st st' v Hrun Hv.
  - simpl in Hrun. inversion Hrun; subst. congruence.
  - simpl get_data_loop in Hrun. unfold mbind at 1, M_bind at 1 in Hrun.
    destruct (get_data_attempt srv endpoint k backoff_factor attempt st)
      as [[[w|attempt']|e] st1] eqn:Hstep; [| |discriminate].
    + simpl in Hrun. inversion Hrun; subst w st1.
      destruct (get_data_attempt_returned _ _ _ _ _ _ _ _ Hstep)
        as [H200 [Hbody Hsucc]].
      exists 0%nat. rewrite Nat.add_0_r.
      split; [lia|]. split; [exact H200|]. split; [exact Hbody|].
      split; [intros j Hj; lia|]. split; [|exact Hsucc].
      pose proof (get_data_attempt_effects srv endpoint k backoff_factor
                    attempt st) as [Hreq _].
      rewrite Hstep in Hreq. simpl in Hreq. rewrite Hreq, length_app.
      simpl. lia.
    + destruct (get_data_attempt_continue _ _ _ _ _ _ _ _ Hstep)
        as [Hn200 [Hsucc Hlen]].
      destruct (IH attempt' st1 st' v Hrun Hv)
        as [i [Hi [H200 [Hbody [Hfirst [Hlen' Hs]]]]]].
      rewrite Hlen in H200, Hbody, Hfirst, Hlen'. rewrite Hsucc in Hs.
      exists (S i).
      replace (length (requested st) + S i)%nat
        with (S (length (requested st)) + i)%nat by lia.
      split; [lia|]. split; [exact H200|]. split; [exact Hbody|].
      split; [|split; [exact Hlen' | exact Hs]].
      intros [|j] Hj.
      * rewrite Nat.add_0_r. exact Hn200.
      * replace (length (requested st) + S j)%nat
          with (S (length (requested st)) + j)%nat by lia.
        apply Hfirst. lia.
Qed.

(** X7: a payload other than None only ever comes from a 200 response:
    when [get_data] returns one, it is the body of the first response with
    status 200, that response was among the first [retries] and was the last
    one asked for, and the success counter of the resource went up by 1. *)
Theorem get_data_payload_origin (srv : Server) (endpoint k : string)
    (retries : Z) (backoff_factor : Q) (st st' : Retriever) (v : json) :
  get_data srv endpoint k retries backoff_factor st = (Ok v, st') ->
  v <> JNull ->
  exists i : nat,
    (i < Z.to_nat retries)%nat
    /\ status_code (srv (length (requested st) + i)%nat) = 200
    /\ body (srv (length (requested st) + i)%nat) = Some v
    /\ (forall j : nat, (j < i)%nat ->
          status_code (srv (length (requested st) + j)%nat) <> 200)
    /\ length (requested st') = S (length (requested st) + i)
    /\ exists n, successful_requests st !! k = Some n
                 /\ successful_requests st' !! k = Some (n + 1).
Proof. apply get_data_loop_payload. Qed.

Lemma get_data_payload_origin_witness :
  exists i : nat,
    (i < 3)%nat
    /\ status_code (ok_server (0 + i)%nat) = 200
    /\ body (ok_server (0 + i)%nat) = Some (JObj [("value"%string, JNum 1)])
    /\ (forall j : nat, (j < i)%nat ->
          status_code (ok_server (0 + j)%nat) <> 200)
    /\ length (requested
                 (snd (get_data ok_server "devices.json" "devices" 3
                         default_backoff_factor retriever_init)))
       = S (0 + i)
    /\ exists n, successful_requests retriever_init !! "devices" = Some n
                 /\ successful_requests
                      (snd (get_data ok_server "devices.json" "devices" 3
                              default_backoff_factor retriever_init))
                    !! "devices" = Some (n + 1).
Proof.
  apply (get_data_payload_origin ok_server "devices.json" "devices" 3
           default_backoff_factor retriever_init
           (snd (get_data ok_server "devices.json" "devices" 3
                   default_backoff_factor retriever_init))
           (JObj [("value"%string, JNum 1)])).
  - reflexivity.
  - discriminate.
Defined.

(** ** Throttled to the end *)

Lemma throttle_wait_nonneg (reset attempt : Z) (backoff_factor : Q) :
  0 <= attempt -> Qle_bool 0 backoff_factor = true ->
  Qle_bool 0 (throttle_wait reset attempt backoff_factor) = true.
Proof.
  intros Ha Hb. unfold throttle_wait. destruct (Z.ltb_spec 0 reset).
  - apply Qle_bool_iff. unfold Qle; simpl. lia.
  - now apply backoff_nonneg.
Qed.

Lemma get_data_loop_all_throttled (srv : Server) (endpoint k : string)
    (backoff_factor : Q) :
  Qle_bool 0 backoff_factor = true ->
  forall (todo : nat) (attempt : Z) (st : Retriever),
    0 <= attempt ->
    (forall i : nat, (i < todo)%nat ->
       throttled_response (srv (length (requested st) + i)%nat)) ->
    exists st',
      get_data_loop srv endpoint k backoff_factor todo attempt st
      = (Ok JNull, st')
      /\ total_requests st' = total_requests st
      /\ successful_requests st' = successful_requests st
      /\ failed_requests st' = failed_requests st
      /\ length (requested st') = (length (requested st) + todo)%nat
      /\ length (slept st') = (length (slept st) + todo)%nat.
Proof.
  intros Hb. induction todo as [|todo IH]; intros attempt st Ha Hall.
  - exists st. simpl. repeat split; lia.
  - destruct (Hall 0%nat ltac:(lia)) as [H429 [txt [reset [Hhdr Hint]]]].
    rewrite Nat.add_0_r in H429, Hhdr.
    assert (Hreset :
      py_int (rl_reset (update_rate_limit (rate_limit st)
                          (headers (srv (length (requested st))))))
      = Ok reset).
    { simpl. rewrite (headers_get_present _ _ txt) by exact Hhdr.
      exact Hint. }
    pose proof (get_data_attempt_throttled srv endpoint k backoff_factor
                  attempt st reset H429 Hreset
                  (throttle_wait_nonneg reset attempt backoff_factor Ha Hb))
      as Hstep.
    simpl get_data_loop. unfold mbind at 1, M_bind at 1. rewrite Hstep.
    match goal with
    | |- context [get_data_loop _ _ _ _ todo (attempt + 1) ?s] =>
        destruct (IH (attempt + 1) s) as [st' [Hrun [Ht [Hs [Hf [Hr Hw]]]]]]
    end.
    + lia.
    + intros i Hi. simpl. rewrite length_app. simpl.
      replace (length (requested st) + 1 + i)%nat
        with (length (requested st) + S i)%nat by lia.
      apply Hall. lia.
    + exists st'. split; [exact Hrun|]. simpl in *.
      rewrite length_app in Hr, Hw. simpl in Hr, Hw.
      repeat split; try assumption; lia.
Qed.

(** X8: when every one of the [retries] attempts is answered with 429 and a
    reset header holding an integer, [get_data] returns None after one
    request and one sleep per attempt, and the total, success and failure
    counters are all exactly as before: being throttled is counted
    nowhere. *)
Theorem get_data_throttled_out (srv : Server) (endpoint k : string)
    (retries : Z) (backoff_factor : Q) (st : Retriever) :
  Qle_bool 0 backoff_factor = true ->
  (forall i : nat, (i < Z.to_nat retries)%nat ->
     throttled_response (srv (length (requested st) + i)%nat)) ->
  exists st',
    get_data srv endpoint k retries backoff_factor st = (Ok JNull, st')
    /\ total_requests st' = total_requests st
    /\ successful_requests st' = successful_requests st
    /\ failed_requests st' = failed_requests st
    /\ length (requested st')
       = (length (requested st) + Z.to_nat retries)%nat
    /\ length (slept st') = (length (slept st) + Z.to_nat retries)%nat.
Proof.
  intros Hb Hall. unfold get_data.
  apply get_data_loop_all_throttled; [exact Hb | lia | exact Hall].
Qed.

Lemma get_data_throttled_out_witness :
  exists st',
    get_data throttling_server "devices.json" "devices" 3
      default_backoff_factor retriever_init
    = (Ok JNull, st')
    /\ total_requests st' = 0
    /\ successful_requests st' = counters_init
    /\ failed_requests st' = counters_init
    /\ length (requested st') = (0 + Z.to_nat 3)%nat
    /\ length (slept st') = (0 + Z.to_nat 3)%nat.
Proof.
  apply (get_data_throttled_out throttling_server "devices.json" "devices" 3
           default_backoff_factor retriever_init).
  - reflexivity.
  - intros i _. split; [reflexivity|].
    exists "0"%string, 0. split; reflexivity.
Defined.

(** ** The calendar *)

Lemma days_before_year_succ (y : Z) :
  days_before_year (y + 1)
  = days_before_year y + 365 + (if is_leap y then 1 else 0).
Proof.
  unfold days_before_year, is_leap. cbv zeta.
  replace (y + 1 - 1) with y by lia.
  destruct (Z.eqb_spec (y mod 4) 0) as [H4|H4];
    destruct (Z.eqb_spec (y mod 100) 0) as [H100|H100];
    destruct (Z.eqb_spec (y mod 400) 0) as [H400|H400]; simpl;
    Z.div_mod_to_equations; lia.
Qed.

Lemma days_before_year_le (n : nat) (y : Z) :
  days_before_year y <= days_before_year (y + Z.of_nat n).
Proof.
  induction n as [|n IH].
  - replace (y + Z.of_nat 0) with y by lia. lia.
  - replace (y + Z.of_nat (S n)) with (y + Z.of_nat n + 1) by lia.
    rewrite days_before_year_succ. destruct (is_leap _); lia.
Qed.

Lemma month_day_in_year (y m d : Z) :
  1 <= m <= 12 -> 1 <= d <= days_in_month y m ->
  1 <= days_before_month y m + d <= 365 + (if is_leap y then 1 else 0).
Proof.
  intros Hm Hd.
  assert (Hb : 0 <= days_before_month y m
               /\ days_before_month y m + days_in_month y m
                  <= 365 + (if is_leap y then 1 else 0)).
  { assert (H : m = 1 \/ m = 2 \/ m = 3 \/ m = 4 \/ m = 5 \/ m = 6
                \/ m = 7 \/ m = 8 \/ m = 9 \/ m = 10 \/ m = 11 \/ m = 12)
      by lia.
    clear Hd Hm. unfold days_before_month, days_in_month.
    destruct (is_leap y) eqn:E;
      repeat (destruct H as [-> | H];
              [simpl; rewrite ?E; simpl; lia|]);
      subst; simpl; rewrite ?E; simpl; lia. }
  lia.
Qed.

(** Every date of the years 1 to 9999 has an ordinal the [datetime] type
    can hold. *)
Lemma ymd2ord_range (y m d : Z) :
  1 <= y <= 9999 -> 1 <= m <= 12 -> 1 <= d <= days_in_month y m ->
  1 <= ymd2ord y m d <= max_ordinal.
Proof.
  intros Hy Hm Hd. unfold ymd2ord.
  pose proof (month_day_in_year y m d Hm Hd) as Hmd.
  pose proof (days_before_year_le (Z.to_nat (y - 1)) 1) as Hlo.
  replace (1 + Z.of_nat (Z.to_nat (y - 1))) with y in Hlo by lia.
  change (days_before_year 1) with 0 in Hlo.
  pose proof (days_before_year_succ y) as Hs.
  pose proof (days_before_year_le (Z.to_nat (9999 - y)) (y + 1)) as Hhi.
  replace (y + 1 + Z.of_nat (Z.to_nat (9999 - y))) with 10000 in Hhi by lia.
  change (days_before_year 10000) with max_ordinal in Hhi.
  lia.
Qed.

Lemma field4_range (s : string) (z : Z) :
  field4 s = Some z -> 0 <= z <= 9999.
Proof.
  unfold field4. intros H.
  destruct s as [|a [|b [|c [|d [|? ?]]]]]; try discriminate.
  destruct (is_digit a) eqn:Ea; [|discriminate].
  destruct (is_digit b) eqn:Eb; [|discriminate].
  destruct (is_digit c) eqn:Ec; [|discriminate].
  destruct (is_digit d) eqn:Ed; [|discriminate].
  simpl in H. inversion H; subst.
  pose proof (digit_val_range a Ea). pose proof (digit_val_range b Eb).
  pose proof (digit_val_range c Ec). pose proof (digit_val_range d Ed).
  lia.
Qed.

(** What [strptime] with '%Y-%m-%d' accepts is a calendar date. *)
Lemma strptime_ymd_date (s : string) (d : datetime) :
  strptime_ymd s = Ok d ->
  exists y m dd : Z,
    1 <= y <= 9999 /\ 1 <= m <= 12 /\ 1 <= dd <= days_in_month y m
    /\ d = mkdt (ymd2ord y m dd) 0.
Proof.
  unfold strptime_ymd. intros H.
  destruct (split_on "-" s) as [|fy [|fm [|fd [|? ?]]]]; try discriminate.
  destruct (field4 fy) as [y|] eqn:Ey; [|discriminate].
  destruct (field12 fm) as [m|]; [|discriminate].
  destruct (field_day fd) as [dd|]; [|discriminate].
  destruct (_ && _) eqn:E; [|discriminate].
  repeat (apply andb_true_iff in E; destruct E as [E ?]).
  repeat match goal with
         | H : (_ <=? _) = true |- _ => apply Z.leb_le in H
         end.
  apply field4_range in Ey.
  exists y, m, dd. inversion H. repeat split; lia.
Qed.

Lemma strptime_ymd_range (s : string) (d : datetime) :
  strptime_ymd s = Ok d -> 1 <= dt_days d <= max_ordinal /\ dt_secs d = 0.
Proof.
  intros H. destruct (strptime_ymd_date s d H)
    as [y [m [dd [Hy [Hm [Hd ->]]]]]].
  simpl. split; [now apply ymd2ord_range | reflexivity].
Qed.

(** ** Requests of a whole batch *)

Lemma sent_at_most_refl (n : nat) (st : Retriever) : sent_at_most n st st.
Proof. exists []. rewrite app_nil_r. split; [reflexivity | simpl; lia]. Qed.

Lemma sent_at_most_trans (a b : nat) (st st1 st2 : Retriever) :
  sent_at_most a st st1 -> sent_at_most b st1 st2 ->
  sent_at_most (a + b) st st2.
Proof.
  intros [s1 [H1 L1]] [s2 [H2 L2]]. exists (s1 ++ s2).
  rewrite H2, H1, app_assoc, length_app. split; [reflexivity | lia].
Qed.

Lemma sent_at_most_le (a b : nat) (st st' : Retriever) :
  (a <= b)%nat -> sent_at_most a st st' -> sent_at_most b st st'.
Proof. intros Hab [s [H L]]. exists s. split; [exact H | lia]. Qed.

Lemma get_data_sent (srv : Server) (endpoint k : string) (retries : Z)
    (backoff_factor : Q) (st : Retriever) :
  sent_at_most (Z.to_nat retries) st
    (snd (get_data srv endpoint k retries backoff_factor st)).
Proof.
  destruct (get_data_loop_effects srv endpoint k backoff_factor
              (Z.to_nat retries) 0 st)
    as [[sent [waits [Hreq [_ [Hlen _]]]]] _].
  exists sent. split; [exact Hreq | lia].
Qed.

Lemma fetch_resources_sent (srv : Server) (user_id date_str : string)
    (resources : list string) :
  forall (data : Bundle) (st : Retriever),
    sent_at_most (3 * length resources) st
      (snd (fetch_resources srv user_id date_str resources data st)).
Proof.
  induction resources as [|r rest IH]; intros data st.
  - simpl. apply sent_at_most_refl.
  - simpl fetch_resources. unfold mbind at 1, M_bind at 1.
    pose proof (get_data_sent srv
                  (endpoint_text (construct_endpoint user_id r date_str))
                  r default_retries default_backoff_factor st) as Hget.
    change (Z.to_nat default_retries) with 3%nat in Hget.
    destruct (get_data srv _ r default_retries default_backoff_factor st)
      as [[v|e] st1]; simpl snd in Hget.
    + unfold mbind at 1, M_bind at 1.
      assert (Happ : exists res,
                (if truthy v then lift (bundle_append data r v)
                 else mret data) st1 = (res, st1)).
      { destruct (truthy v); eexists; reflexivity. }
      destruct Happ as [res Hres]. rewrite Hres.
      destruct res as [data'|e].
      * eapply sent_at_most_le;
          [|eapply sent_at_most_trans; [exact Hget | apply IH]].
        simpl. lia.
      * simpl. eapply sent_at_most_le; [|exact Hget]. simpl. lia.
    + simpl. eapply sent_at_most_le; [|exact Hget]. simpl. lia.
Qed.

Lemma fetch_days_sent (srv : Server) (user_id : string) (start : datetime)
    (resources : list string) (offsets : list Z) :
  forall (data : Bundle) (st : Retriever),
    sent_at_most (3 * length resources * length offsets) st
      (snd (fetch_days srv user_id start offsets resources data st)).
Proof.
  induction offsets as [|n rest IH]; intros data st.
  - simpl. apply sent_at_most_refl.
  - simpl fetch_days. unfold mbind at 1, M_bind at 1. unfold lift at 1.
    destruct (dt_plus_days start n) as [single_date|e];
      [|simpl; apply sent_at_most_le with (a := 0%nat);
        [lia | apply sent_at_most_refl]].
    unfold mbind at 1, M_bind at 1.
    pose proof (fetch_resources_sent srv user_id
                  (strftime_ymd single_date) resources data st) as Hday.
    destruct (fetch_resources srv user_id (strftime_ymd single_date)
                resources data st) as [[data'|e] st1]; simpl in Hday.
    + eapply sent_at_most_le;
        [|eapply sent_at_most_trans; [exact Hday | apply IH]].
      simpl. lia.
    + simpl. eapply sent_at_most_le; [|exact Hday]. simpl. lia.
Qed.

Lemma length_py_range (n : Z) : length (py_range n) = Z.to_nat n.
Proof. unfold py_range. now rewrite length_fmap, length_seq. Qed.

(** The call as the date check and the quota check leave it. *)
Lemma get_all_data_unfold (srv : Server)
    (user_id device_id start_date end_date : string) (st : Retriever)
    (s e : datetime) (remaining : Z) :
  strptime_ymd start_date = Ok s ->
  strptime_ymd end_date = Ok e ->
  py_int (rl_remaining (rate_limit st)) = Ok remaining ->
  get_all_data_for_date_ranges srv user_id device_id start_date end_date st
  = if remaining <? Z.of_nat (length all_resources)
                    * (dt_days e - dt_days s + 1)
    then (Raise (SystemExit 1), st)
    else fetch_days srv user_id s (py_range (dt_days e - dt_days s + 1))
           all_resources (bundle_init device_id) st.
Proof.
  intros Hs He Hrem. unfold get_all_data_for_date_ranges.
  unfold mbind at 1, M_bind at 1. unfold lift at 1. rewrite Hs.
  unfold mbind at 1, M_bind at 1. unfold lift at 1. rewrite He.
  rewrite (dt_diff_days_dates e s
             (strptime_ymd_midnight _ _ He) (strptime_ymd_midnight _ _ Hs)).
  unfold check_not_exceeded.
  unfold mbind, M_bind, get_state, lift. rewrite Hrem.
  destruct (remaining <? _); reflexivity.
Qed.

(** X9: a batch sends no request at all, and leaves the state as it was,
    when the start date does not parse, when the end date does not parse,
    and when the end date lies before the start date (the call then returns
    the empty bundle, provided the remaining quota is not negative). *)
Theorem no_request_without_range (srv : Server)
    (user_id device_id start_date end_date : string) (st : Retriever) :
  let run := get_all_data_for_date_ranges srv user_id device_id
               start_date end_date st in
  (forall x, strptime_ymd start_date = Raise x -> run = (Raise x, st))
  /\ (forall s x,
         strptime_ymd start_date = Ok s ->
         strptime_ymd end_date = Raise x -> run = (Raise x, st))
  /\ (forall s e remaining,
         strptime_ymd start_date = Ok s ->
         strptime_ymd end_date = Ok e ->
         dt_days e < dt_days s ->
         py_int (rl_remaining (rate_limit st)) = Ok remaining ->
         0 <= remaining ->
         run = (Ok (bundle_init device_id), st)).
Proof.
  simpl. split; [|split].
  - intros x Hs. unfold get_all_data_for_date_ranges.
    unfold mbind at 1, M_bind at 1. unfold lift at 1. now rewrite Hs.
  - intros s x Hs He. unfold get_all_data_for_date_ranges.
    unfold mbind at 1, M_bind at 1. unfold lift at 1. rewrite Hs.
    unfold mbind at 1, M_bind at 1. unfold lift at 1. now rewrite He.
  - intros s e remaining Hs He Hlt Hrem Hpos.
    rewrite (get_all_data_unfold _ _ _ _ _ _ s e remaining Hs He Hrem).
    replace (remaining <? _) with false
      by (symmetry; apply Z.ltb_ge; simpl; lia).
    unfold py_range.
    replace (Z.to_nat (dt_days e - dt_days s + 1)) with 0%nat by lia.
    reflexivity.
Qed.

Lemma no_request_without_range_witness :
  get_all_data_for_date_ranges ok_server "u" "dev" "2024-02-30" "2024-03-02"
    retriever_init
  = (Raise ValueError, retriever_init)
  /\ get_all_data_for_date_ranges ok_server "u" "dev" "2024-03-02"
       "2024-02-27" retriever_init
     = (Ok (bundle_init "dev"), retriever_init).
Proof.
  destruct (no_request_without_range ok_server "u" "dev" "2024-02-30"
              "2024-03-02" retriever_init) as [H1 _].
  destruct (no_request_without_range ok_server "u" "dev" "2024-03-02"
              "2024-02-27" retriever_init) as [_ [_ H3]].
  split.
  - apply H1. reflexivity.
  - apply (H3 (mkdt 738947 0) (mkdt 738943 0) 150); try reflexivity; lia.
Defined.

(** X10: whatever the server answers and however the batch ends, a batch
    over a parsed date range sends at most 3 requests for each of the 6
    resources on each day of the range, three times what the admission
    check budgets for, since every fetch may use all its retries. *)
Theorem batch_request_bound (srv : Server)
    (user_id device_id start_date end_date : string) (st : Retriever)
    (s e : datetime) :
  strptime_ymd start_date = Ok s ->
  strptime_ymd end_date = Ok e ->
  exists sent : list string,
    requested (snd (get_all_data_for_date_ranges srv user_id device_id
                      start_date end_date st))
    = requested st ++ sent
    /\ (length sent <= 3 * 6 * Z.to_nat (dt_days e - dt_days s + 1))%nat.
Proof.
  intros Hs He.
  change (sent_at_most (3 * 6 * Z.to_nat (dt_days e - dt_days s + 1)) st
            (snd (get_all_data_for_date_ranges srv user_id device_id
                    start_date end_date st))).
  destruct (py_int (rl_remaining (rate_limit st))) as [remaining|x] eqn:Hrem.
  - rewrite (get_all_data_unfold _ _ _ _ _ _ s e remaining Hs He Hrem).
    destruct (remaining <? _).
    + simpl snd. apply sent_at_most_le with (a := 0%nat);
        [lia | apply sent_at_most_refl].
    + pose proof (fetch_days_sent srv user_id s all_resources
                    (py_range (dt_days e - dt_days s + 1))
                    (bundle_init device_id) st) as H.
      rewrite length_py_range in H. exact H.
  - unfold get_all_data_for_date_ranges.
    unfold mbind at 1, M_bind at 1. unfold lift at 1. rewrite Hs.
    unfold mbind at 1, M_bind at 1. unfold lift at 1. rewrite He.
    unfold check_not_exceeded.
    unfold mbind, M_bind, get_state, lift. rewrite Hrem. simpl snd.
    apply sent_at_most_le with (a := 0%nat);
      [lia | apply sent_at_most_refl].
Qed.

Lemma batch_request_bound_witness :
  exists sent : list string,
    requested (snd (get_all_data_for_date_ranges failing_server "u" "dev"
                      "2024-02-27" "2024-02-28" retriever_init))
    = requested retriever_init ++ sent
    /\ (length sent <= 3 * 6 * Z.to_nat (738944 - 738943 + 1))%nat.
Proof.
  apply (batch_request_bound failing_server "u" "dev" "2024-02-27"
           "2024-02-28" retriever_init (mkdt 738943 0) (mkdt 738944 0));
    reflexivity.
Defined.

(** ** A batch against a healthy server *)

Lemma get_data_first_ok (srv : Server) (endpoint k : string)
    (st : Retriever) (v : json) (n : Z) :
  status_code (srv (length (requested st))) = 200 ->
  body (srv (length (requested st))) = Some v ->
  successful_requests st !! k = Some n ->
  get_data srv endpoint k default_retries default_backoff_factor st
  = (Ok v,
     mkRetriever
       (update_rate_limit (rate_limit st)
          (headers (srv (length (requested st)))))
       (total_requests st + 1)
       (<[k := n + 1]> (successful_requests st)) (failed_requests st)
       (requested st ++ [url_of endpoint]) (slept st)).
Proof.
  intros H200 Hbody Hn. unfold get_data. simpl get_data_loop.
  unfold get_data_attempt, mbind, M_bind, requests_get, do_update_rate_limit.
  simpl. rewrite H200. simpl.
  unfold incr_successful, incr. simpl. rewrite Hn. simpl.
  unfold lift, response_json. rewrite Hbody. reflexivity.
Qed.

Lemma fetch_resources_healthy (srv : Server) (user_id date_str : string) :
  healthy srv ->
  forall (resources : list string) (data : Bundle) (st : Retriever),
    (forall r, r ∈ resources ->
       is_Some (successful_requests st !! r)
       /\ is_Some (per_resource data !! r)) ->
    exists (data' : Bundle) (st' : Retriever),
      fetch_resources srv user_id date_str resources data st
      = (Ok data', st')
      /\ length (requested st')
         = (length (requested st) + length resources)%nat
      /\ total_requests st'
         = total_requests st + Z.of_nat (length resources)
      /\ slept st' = slept st
      /\ failed_requests st' = failed_requests st
      /\ (forall r, is_Some (successful_requests st !! r) ->
                    is_Some (successful_requests st' !! r))
      /\ (forall r, is_Some (per_resource data !! r) ->
                    is_Some (per_resource data' !! r)
                    /\ payload_count data' r
                       = (payload_count data r + occurrences r resources)%nat)
      /\ bundle_device_id data' = bundle_device_id data.
Proof.
  intros Hsrv. induction resources as [|r rest IH]; intros data st Hpre.
  - exists data, st. simpl.
    split; [reflexivity|]. split; [lia|]. split; [lia|].
    split; [reflexivity|]. split; [reflexivity|].
    split; [intros r H; exact H|]. split; [|reflexivity].
    intros r H. split; [exact H|]. unfold occurrences. simpl. lia.
  - destruct (Hpre r ltac:(left)) as [[n Hn] [l Hl]].
    destruct (Hsrv (length (requested st))) as [H200 [v [Hbody Htruthy]]].
    simpl fetch_resources. unfold mbind at 1, M_bind at 1.
    rewrite (get_data_first_ok srv _ r st v n H200 Hbody Hn).
    rewrite Htruthy. unfold mbind at 1, M_bind at 1.
    unfold lift, bundle_append. rewrite Hl. cbn [of_option mbind result_bind].
    match goal with
    | |- context [fetch_resources _ _ _ rest ?d ?s] =>
        destruct (IH d s) as [data' [st' [Hrun [Hreq [Htot [Hsl [Hf [Hs
                                [Hp Hdev]]]]]]]]]
    end.
    { intros r' Hr'. destruct (Hpre r' ltac:(right; exact Hr')) as [Hs' Hp'].
      simpl. split.
      - destruct (decide (r = r')) as [->|Hne];
          [rewrite lookup_insert_eq; eauto
          |rewrite lookup_insert_ne by exact Hne; exact Hs'].
      - destruct (decide (r = r')) as [->|Hne];
          [rewrite lookup_insert_eq; eauto
          |rewrite lookup_insert_ne by exact Hne; exact Hp']. }
    exists data', st'. split; [exact Hrun|]. simpl in *.
    rewrite length_app in Hreq. simpl in Hreq.
    split; [lia|]. split; [lia|]. split; [exact Hsl|]. split; [exact Hf|].
    split; [|split; [|exact Hdev]].
    + intros r' Hr'. apply Hs.
      destruct (decide (r = r')) as [->|Hne];
        [rewrite lookup_insert_eq; eauto
        |rewrite lookup_insert_ne by exact Hne; exact Hr'].
    + intros r' Hr'.
      assert (Hr1 : is_Some (<[r := l ++ [v]]> (per_resource data) !! r')).
      { destruct (decide (r = r')) as [->|Hne];
          [rewrite lookup_insert_eq; eauto
          |rewrite lookup_insert_ne by exact Hne; exact Hr']. }
      destruct (Hp r' Hr1) as [Hsome Hcount]. split; [exact Hsome|].
      rewrite Hcount. unfold payload_count, occurrences. simpl.
      destruct (String.eqb_spec r' r) as [->|Hne].
      * rewrite lookup_insert_eq, Hl. simpl. rewrite length_app. simpl. lia.
      * rewrite lookup_insert_ne by congruence. simpl. lia.
Qed.

Lemma fetch_days_healthy (srv : Server) (user_id : string)
    (start : datetime) (resources : list string) :
  healthy srv ->
  forall (offsets : list Z) (data : Bundle) (st : Retriever),
    (forall n, n ∈ offsets -> 1 <= dt_days start + n <= max_ordinal) ->
    (forall r, r ∈ resources ->
       is_Some (successful_requests st !! r)
       /\ is_Some (per_resource data !! r)) ->
    exists (data' : Bundle) (st' : Retriever),
      fetch_days srv user_id start offsets resources data st
      = (Ok data', st')
      /\ length (requested st')
         = (length (requested st) + length resources * length offsets)%nat
      /\ total_requests st'
         = total_requests st
           + Z.of_nat (length resources * length offsets)
      /\ slept st' = slept st
      /\ failed_requests st' = failed_requests st
      /\ (forall r, r ∈ resources ->
            payload_count data' r
            = (payload_count data r
               + occurrences r resources * length offsets)%nat)
      /\ bundle_device_id data' = bundle_device_id data.
Proof.
  intros Hsrv. induction offsets as [|n rest IH]; intros data st Hoff Hpre.
  - exists data, st. simpl.
    split; [reflexivity|]. split; [lia|]. split; [lia|].
    split; [reflexivity|]. split; [reflexivity|]. split; [|reflexivity].
    intros r _. lia.
  - simpl fetch_days. unfold mbind at 1, M_bind at 1. unfold lift at 1.
    unfold dt_plus_days.
    destruct (Hoff n ltac:(left)) as [Hlo Hhi].
    replace (1 <=? dt_days start + n) with true
      by (symmetry; apply Z.leb_le; exact Hlo).
    replace (dt_days start + n <=? max_ordinal) with true
      by (symmetry; apply Z.leb_le; exact Hhi).
    simpl andb. cbv iota.
    unfold mbind at 1, M_bind at 1.
    match goal with
    | |- context [fetch_resources _ _ ?d resources data st] =>
        destruct (fetch_resources_healthy srv user_id d Hsrv resources
                    data st Hpre)
          as [data1 [st1 [Hrun [Hreq [Htot [Hsl [Hf [Hs [Hp Hdev]]]]]]]]]
    end.
    rewrite Hrun.
    destruct (IH data1 st1) as [data' [st' [Hrun' [Hreq' [Htot' [Hsl' [Hf'
                                 [Hp' Hdev']]]]]]]].
    { intros m Hm. apply Hoff. right. exact Hm. }
    { intros r Hr. destruct (Hpre r Hr) as [H1 H2].
      split; [apply Hs; exact H1 | apply Hp; exact H2]. }
    exists data', st'. split; [exact Hrun'|]. simpl length.
    split; [lia|]. split; [lia|]. split; [congruence|].
    split; [congruence|]. split; [|congruence].
    intros r Hr. rewrite (Hp' r Hr).
    destruct (Hpre r Hr) as [_ H2]. destruct (Hp r H2) as [_ Hc].
    rewrite Hc. lia.
Qed.

(** X11: against a server that answers every request with 200 and a truthy
    document, a batch over a parsed range within the quota sends exactly one
    request per resource and day, counts each in the total, never sleeps or
    counts a failure, and returns a bundle with one payload per day for each
    of the six resources, under the device id it was given. *)
Theorem batch_against_healthy_server (srv : Server)
    (user_id device_id start_date end_date : string) (st : Retriever)
    (s e : datetime) (remaining : Z) :
  healthy srv ->
  (forall r, r ∈ all_resources -> is_Some (successful_requests st !! r)) ->
  strptime_ymd start_date = Ok s ->
  strptime_ymd end_date = Ok e ->
  py_int (rl_remaining (rate_limit st)) = Ok remaining ->
  6 * (dt_days e - dt_days s + 1) <= remaining ->
  let days := Z.to_nat (dt_days e - dt_days s + 1) in
  exists (data : Bundle) (st' : Retriever),
    get_all_data_for_date_ranges srv user_id device_id start_date end_date st
    = (Ok data, st')
    /\ length (requested st') = (length (requested st) + 6 * days)%nat
    /\ total_requests st' = total_requests st + Z.of_nat (6 * days)
    /\ slept st' = slept st
    /\ failed_requests st' = failed_requests st
    /\ (forall r, r ∈ all_resources -> payload_count data r = days)
    /\ bundle_device_id data = device_id.
Proof.
  intros Hsrv Hcnt Hs He Hrem Hquota days.
  rewrite (get_all_data_unfold _ _ _ _ _ _ s e remaining Hs He Hrem).
  replace (remaining <? _) with false
    by (symmetry; apply Z.ltb_ge; simpl; lia).
  destruct (strptime_ymd_range _ _ Hs) as [[Hs1 Hs2] _].
  destruct (strptime_ymd_range _ _ He) as [[He1 He2] _].
  assert (Hinit : forall r, r ∈ all_resources ->
            is_Some (per_resource (bundle_init device_id) !! r)
            /\ payload_count (bundle_init device_id) r = 0%nat
            /\ occurrences r all_resources = 1%nat).
  { intros r Hr. unfold all_resources in Hr.
    repeat (apply elem_of_cons in Hr; destruct Hr as [-> | Hr];
            [vm_compute; eauto|]).
    inversion Hr. }
  destruct (fetch_days_healthy srv user_id s all_resources Hsrv
              (py_range (dt_days e - dt_days s + 1))
              (bundle_init device_id) st)
    as [data [st' [Hrun [Hreq [Htot [Hsl [Hf [Hp Hdev]]]]]]]].
  { intros n Hn. unfold py_range in Hn.
    apply list_elem_of_fmap in Hn. destruct Hn as [i [-> Hi]].
    apply elem_of_seq in Hi. lia. }
  { intros r Hr. split; [apply Hcnt; exact Hr | apply Hinit; exact Hr]. }
  rewrite length_py_range in Hreq, Htot, Hp. fold days in Hreq, Htot, Hp.
  exists data, st'. split; [exact Hrun|].
  change (length all_resources) with 6%nat in Hreq, Htot.
  split; [exact Hreq|]. split; [exact Htot|]. split; [exact Hsl|].
  split; [exact Hf|]. split; [|exact Hdev].
  intros r Hr. rewrite (Hp r Hr).
  destruct (Hinit r Hr) as [_ [H0 H1]]. rewrite H0, H1. lia.
Qed.

Lemma batch_against_healthy_server_witness :
  exists (data : Bundle) (st' : Retriever),
    get_all_data_for_date_ranges ok_server "u" "dev" "2024-02-27"
      "2024-03-02" retriever_init
    = (Ok data, st')
    /\ length (requested st')
       = (0 + 6 * Z.to_nat (738947 - 738943 + 1))%nat
    /\ total_requests st' = 0 + Z.of_nat (6 * Z.to_nat (738947 - 738943 + 1))
    /\ slept st' = []
    /\ failed_requests st' = counters_init
    /\ (forall r, r ∈ all_resources ->
          payload_count data r = Z.to_nat (738947 - 738943 + 1))
    /\ bundle_device_id data = "dev"%string.
Proof.
  apply (batch_against_healthy_server ok_server "u" "dev" "2024-02-27"
           "2024-03-02" retriever_init (mkdt 738943 0) (mkdt 738947 0) 150).
  - intros n. split; [reflexivity|]. eexists. split; reflexivity.
  - intros r Hr. unfold all_resources in Hr.
    repeat (apply elem_of_cons in Hr; destruct Hr as [-> | Hr];
            [vm_compute; eauto|]).
    inversion Hr.
  - reflexivity.
  - reflexivity.
  - reflexivity.
  - simpl. lia.
Defined.

(** ** The day window and the night window *)













(** ** Means and the threshold *)


















(** ** One record per day with samples *)

Lemma average_rate_record_identity (device_id date : string)
    (interval : Z) (dataset_type : string) (first_sample : Sample)
    (rest : list Sample) (r : AverageRateRecord) :
  average_rate_record device_id date interval dataset_type first_sample
    (first_sample :: rest) = Ok r ->
  Id_dispositivo r = device_id /\ DateTime r = date
  /\ TimeStart r = time first_sample
  /\ TimeEnd r = time (List.last rest first_sample).
Proof.
  unfold average_rate_record. cbv zeta. intros H.
  apply bind_Ok_inv in H. destruct H as [time_end [Hend H]].
  repeat (apply bind_Ok_inv in H; destruct H as [? [_ H]]).
  inversion H; subst r. simpl.
  split; [reflexivity|]. split; [reflexivity|]. split; [reflexivity|].
  apply fmap_Ok_inv in Hend. destruct Hend as [l [Hl <-]].
  rewrite (py_index_neg1_last _ first_sample) in Hl by discriminate.
  rewrite last_cons in Hl. now inversion Hl.
Qed.

Lemma rate_entry_records_shape (device_id : string) (entry : RateEntry)
    (rs : list AverageRateRecord) :
  rate_entry_records device_id entry = Ok rs ->
  if has_samples entry
  then exists r, rs = [r] /\ record_of device_id r entry
  else rs = [].
Proof.
  unfold rate_entry_records, has_samples, record_of. intros H.
  destruct (activities_heart_intraday entry) as [intraday|];
    [|now inversion H].
  apply bind_Ok_inv in H. destruct H as [date [Hdate H]].
  destruct (dataset intraday) as [[|first_sample rest]|] eqn:Eds;
    simpl in *; try (now inversion H).
  apply bind_Ok_inv in H. destruct H as [r [Hr H]].
  inversion H; subst rs. exists r. split; [reflexivity|].
  destruct (average_rate_record_identity _ _ _ _ _ _ _ Hr)
    as [Hid [Hd [Hts Hte]]].
  split; [exact Hid|]. split; [now rewrite Hd|].
  exists intraday, first_sample, rest. repeat split; assumption.
Qed.

(** X15: when the intraday normalizer returns, its records are, in order,
    one for each payload that carries at least one sample and none for the
    others: each record bears the device id, the date of its payload and
    the times of the payload's first and last sample. *)
Theorem one_record_per_day_with_samples (device_id : string)
    (rate_entries : list RateEntry) (rs : list AverageRateRecord) :
  average_rate_records device_id rate_entries = Ok rs ->
  Forall2 (record_of device_id) rs (List.filter has_samples rate_entries)
  /\ length rs = length (List.filter has_samples rate_entries)
  /\ (length rs <= length rate_entries)%nat.
Proof.
  intros H.
  assert (HF : Forall2 (record_of device_id) rs
                 (List.filter has_samples rate_entries)).
  { revert rs H. induction rate_entries as [|e es IH]; intros rs H.
    - simpl in H. inversion H; subst. constructor.
    - simpl in H. apply bind_Ok_inv in H. destruct H as [r1 [H1 H]].
      apply bind_Ok_inv in H. destruct H as [r2 [H2 H]].
      inversion H; subst rs. specialize (IH r2 H2).
      apply rate_entry_records_shape in H1. simpl.
      destruct (has_samples e).
      + destruct H1 as [r [-> Hr]]. simpl. constructor; assumption.
      + subst r1. exact IH. }
  split; [exact HF|].
  apply Forall2_length in HF. split; [exact HF|].
  rewrite HF. apply List.filter_length_le.
Qed.

Lemma one_record_per_day_with_samples_witness :
  let empty_day := mkRateEntry (Some [mkHeartDay (Some "2024-03-02"%string)])
                     (Some (mkIntraday (Some []) None None)) in
  let full_day := mkRateEntry (Some [mkHeartDay (Some "2024-03-01"%string)])
                    (Some (mkIntraday (Some [mkSample "10:00:00" 70])
                             None None)) in
  exists rs,
    average_rate_records "dev" [empty_day; full_day; mkRateEntry None None]
    = Ok rs
    /\ length rs = 1%nat.
Proof.
  intros empty_day full_day.
  assert (H : exists rs,
            average_rate_records "dev"
              [empty_day; full_day; mkRateEntry None None] = Ok rs)
    by (vm_compute; eexists; reflexivity).
  destruct H as [rs Hrs]. exists rs. split; [exact Hrs|].
  destruct (one_record_per_day_with_samples "dev" _ rs Hrs) as [_ [H _]].
  exact H.
Defined.

(** ** The calendar of a batch *)

Lemma month_cases (m : Z) : 1 <= m <= 13 ->
  m = 1 \/ m = 2 \/ m = 3 \/ m = 4 \/ m = 5 \/ m = 6 \/ m = 7 \/ m = 8
  \/ m = 9 \/ m = 10 \/ m = 11 \/ m = 12 \/ m = 13.
Proof. lia. Qed.

Lemma days_before_month_table (y m : Z) : 1 <= m <= 13 ->
  days_before_month y m
  = month_offset m + (if 3 <=? m then leap_day y else 0).
Proof.
  intros Hm. unfold leap_day.
  destruct (month_cases m Hm) as
    [->|[->|[->|[->|[->|[->|[->|[->|[->|[->|[->|[->| ->]]]]]]]]]]]];
    unfold days_before_month, days_in_month; simpl;
    destruct (is_leap y); reflexivity.
Qed.

Lemma days_in_month_table (y m : Z) : 1 <= m <= 12 ->
  days_in_month y m
  = month_length m + (if m =? 2 then leap_day y else 0).
Proof.
  intros Hm. unfold leap_day.
  assert (H : 1 <= m <= 13) by lia.
  destruct (month_cases m H) as
    [->|[->|[->|[->|[->|[->|[->|[->|[->|[->|[->|[->| ->]]]]]]]]]]]];
    try lia; unfold days_in_month; simpl; destruct (is_leap y); reflexivity.
Qed.

Ltac month_tables :=
  cbv [month_offset month_length Z.leb Z.eqb Z.compare Pos.compare
       Pos.compare_cont Pos.eqb] in *.

(** The day of the year, from 0. *)
Lemma year_day_range (y m d : Z) :
  1 <= m <= 12 -> 1 <= d <= days_in_month y m ->
  0 <= days_before_month y m + d - 1 < 365 + leap_day y.
Proof.
  intros Hm Hd. rewrite days_in_month_table in Hd by lia.
  rewrite days_before_month_table by lia.
  assert (H : 1 <= m <= 13) by lia.
  unfold leap_day in *.
  destruct (month_cases m H) as
    [->|[->|[->|[->|[->|[->|[->|[->|[->|[->|[->|[->| ->]]]]]]]]]]]];
    try lia; month_tables; destruct (is_leap y); lia.
Qed.

Lemma is_leap_spec (y : Z) :
  is_leap y = true <-> (y mod 4 = 0 /\ (y mod 100 <> 0 \/ y mod 400 = 0)).
Proof.
  unfold is_leap. rewrite andb_true_iff, orb_true_iff, negb_true_iff.
  rewrite !Z.eqb_eq, Z.eqb_neq. tauto.
Qed.

(** A year by its place in the 400-, 100- and 4-year cycles. *)
Lemma year_cycles (y : Z) : 1 <= y ->
  exists a b c e : Z,
    0 <= a /\ 0 <= b < 4 /\ 0 <= c < 25 /\ 0 <= e < 4
    /\ y = 400 * a + 100 * b + 4 * c + e + 1.
Proof.
  intros Hy.
  exists ((y - 1) / 400), ((y - 1) mod 400 / 100),
         ((y - 1) mod 100 / 4), ((y - 1) mod 4).
  Z.div_mod_to_equations. lia.
Qed.

Lemma days_before_year_cycles (a b c e : Z) :
  0 <= a -> 0 <= b < 4 -> 0 <= c < 25 -> 0 <= e < 4 ->
  days_before_year (400 * a + 100 * b + 4 * c + e + 1)
  = 146097 * a + 36524 * b + 1461 * c + 365 * e.
Proof.
  intros Ha Hb Hc He. unfold days_before_year. cbv zeta.
  replace (400 * a + 100 * b + 4 * c + e + 1 - 1)
    with (400 * a + 100 * b + 4 * c + e) by lia.
  assert (H4 : (400 * a + 100 * b + 4 * c + e) / 4 = 100 * a + 25 * b + c)
    by (symmetry; apply Z.div_unique with (r := e); lia).
  assert (H100 : (400 * a + 100 * b + 4 * c + e) / 100 = 4 * a + b)
    by (symmetry; apply Z.div_unique with (r := 4 * c + e); lia).
  assert (H400 : (400 * a + 100 * b + 4 * c + e) / 400 = a)
    by (symmetry; apply Z.div_unique with (r := 100 * b + 4 * c + e); lia).
  rewrite H4, H100, H400. lia.
Qed.

Lemma is_leap_cycles (a b c e : Z) :
  0 <= a -> 0 <= b < 4 -> 0 <= c < 25 -> 0 <= e < 4 ->
  is_leap (400 * a + 100 * b + 4 * c + e + 1) = true
  <-> e = 3 /\ (c <> 24 \/ b = 3).
Proof.
  intros Ha Hb Hc He. rewrite is_leap_spec.
  set (y := 400 * a + 100 * b + 4 * c + e + 1).
  assert (H4 : y mod 4 = (e + 1) mod 4).
  { unfold y. replace (400 * a + 100 * b + 4 * c + e + 1)
      with (e + 1 + (100 * a + 25 * b + c) * 4) by lia.
    apply Z.mod_add. lia. }
  assert (H100 : y mod 100 = (4 * c + e + 1) mod 100).
  { unfold y. replace (400 * a + 100 * b + 4 * c + e + 1)
      with (4 * c + e + 1 + (4 * a + b) * 100) by lia.
    apply Z.mod_add. lia. }
  assert (H400 : y mod 400 = (100 * b + 4 * c + e + 1) mod 400).
  { unfold y. replace (400 * a + 100 * b + 4 * c + e + 1)
      with (100 * b + 4 * c + e + 1 + a * 400) by lia.
    apply Z.mod_add. lia. }
  rewrite H4, H100, H400. clearbody y.
  Z.div_mod_to_equations. lia.
Qed.

Lemma div_mod_unique (n d q r : Z) :
  0 <= r < d -> n = d * q + r -> n / d = q /\ n mod d = r.
Proof.
  intros Hr ->. split.
  - symmetry. apply Z.div_unique with (r := r); lia.
  - symmetry. apply Z.mod_unique with (q := q); lia.
Qed.

(** The year part of [ord2ymd], and the day of the year it leaves. *)
Lemma year_split (y k : Z) :
  1 <= y -> 0 <= k < 365 + leap_day y ->
  let n := days_before_year y + k in
  let n400 := n / 146097 in
  let r400 := n mod 146097 in
  let n100 := r400 / 36524 in
  let r100 := r400 mod 36524 in
  let n4 := r100 / 1461 in
  let r4 := r100 mod 1461 in
  let n1 := r4 / 365 in
  let r1 := r4 mod 365 in
  let year := n400 * 400 + 1 + n100 * 100 + n4 * 4 + n1 in
  (k = 365 /\ (n1 = 4 \/ n100 = 4) /\ year - 1 = y)
  \/ (k < 365 /\ n1 <> 4 /\ n100 <> 4 /\ year = y /\ r1 = k).
Proof.
  intros Hy Hk. cbv zeta.
  destruct (year_cycles y Hy) as [a [b [c [e [Ha [Hb [Hc [He ->]]]]]]]].
  rewrite days_before_year_cycles by assumption.
  pose proof (is_leap_cycles a b c e Ha Hb Hc He) as Hleap.
  unfold leap_day in Hk.
  destruct (is_leap _).
  - destruct Hleap as [Hleap _]. specialize (Hleap eq_refl).
    destruct Hleap as [-> Hcb].
    destruct (Z.eq_dec k 365) as [->|Hk365].
    + left. split; [reflexivity|].
      destruct (Z.eq_dec c 24) as [->|Hc24].
      * assert (b = 3) by lia. subst b.
        destruct (div_mod_unique
                    (146097 * a + 36524 * 3 + 1461 * 24 + 365 * 3 + 365)
                    146097 a 146096) as [-> ->]; [lia | lia |].
        change (146096 / 36524) with 4. change (146096 mod 36524) with 0.
        change (0 / 1461) with 0. change (0 mod 1461) with 0.
        change (0 / 365) with 0. lia.
      * destruct (div_mod_unique
                    (146097 * a + 36524 * b + 1461 * c + 365 * 3 + 365)
                    146097 a (36524 * b + 1461 * c + 1460)) as [-> ->];
          [lia | lia |].
        destruct (div_mod_unique (36524 * b + 1461 * c + 1460)
                    36524 b (1461 * c + 1460)) as [-> ->]; [lia | lia |].
        destruct (div_mod_unique (1461 * c + 1460) 1461 c 1460)
          as [-> ->]; [lia | lia |].
        change (1460 / 365) with 4. lia.
    + right.
      destruct (div_mod_unique
                  (146097 * a + 36524 * b + 1461 * c + 365 * 3 + k)
                  146097 a (36524 * b + 1461 * c + 1095 + k)) as [-> ->];
        [lia | lia |].
      destruct (div_mod_unique (36524 * b + 1461 * c + 1095 + k)
                  36524 b (1461 * c + 1095 + k)) as [-> ->]; [lia | lia |].
      destruct (div_mod_unique (1461 * c + 1095 + k) 1461 c (1095 + k))
        as [-> ->]; [lia | lia |].
      destruct (div_mod_unique (1095 + k) 365 3 k) as [-> ->];
        [lia | lia |].
      lia.
  - assert (Hn : ~ (e = 3 /\ (c <> 24 \/ b = 3)))
      by (intros H; apply Hleap in H; discriminate).
    right.
    destruct (div_mod_unique
                (146097 * a + 36524 * b + 1461 * c + 365 * e + k)
                146097 a (36524 * b + 1461 * c + 365 * e + k)) as [-> ->];
      [lia | lia |].
    destruct (div_mod_unique (36524 * b + 1461 * c + 365 * e + k)
                36524 b (1461 * c + 365 * e + k)) as [-> ->]; [lia | lia |].
    destruct (div_mod_unique (1461 * c + 365 * e + k) 1461 c (365 * e + k))
      as [-> ->]; [lia | lia |].
    destruct (div_mod_unique (365 * e + k) 365 e k) as [-> ->];
      [lia | lia |].
    lia.
Qed.

(** The month part of [ord2ymd] on the day of the year. *)
Lemma month_split (y m d : Z) :
  1 <= m <= 12 -> 1 <= d <= days_in_month y m ->
  let k := days_before_month y m + d - 1 in
  let month := Z.shiftr (k + 50) 5 in
  let preceding := days_before_month y month in
  (if k <? preceding
   then (y, month - 1, k - days_before_month y (month - 1) + 1)
   else (y, month, k - preceding + 1)) = (y, m, d).
Proof.
  intros Hm Hd. cbv zeta.
  rewrite days_in_month_table in Hd by lia.
  rewrite (days_before_month_table y m) by lia.
  rewrite Z.shiftr_div_pow2 by lia. change (2 ^ 5) with 32.
  set (k := month_offset m + (if 3 <=? m then leap_day y else 0) + d - 1).
  assert (Hmonth : (k + 50) / 32 = m \/ (k + 50) / 32 = m + 1).
  { assert (H : 1 <= m <= 13) by lia. subst k. unfold leap_day in *.
    destruct (month_cases m H) as
      [->|[->|[->|[->|[->|[->|[->|[->|[->|[->|[->|[->| ->]]]]]]]]]]]];
      try lia; month_tables; destruct (is_leap y);
      Z.div_mod_to_equations; lia. }
  destruct Hmonth as [-> | ->].
  - rewrite (days_before_month_table y m) by lia. fold k.
    destruct (Z.ltb_spec k (month_offset m
                            + (if 3 <=? m then leap_day y else 0)));
      [subst k; lia|].
    f_equal. subst k. lia.
  - replace (m + 1 - 1) with m by lia.
    rewrite (days_before_month_table y m) by lia.
    rewrite (days_before_month_table y (m + 1)) by lia.
    destruct (Z.ltb_spec k (month_offset (m + 1)
                            + (if 3 <=? m + 1 then leap_day y else 0))).
    + f_equal. subst k. lia.
    + exfalso. subst k. unfold leap_day in *.
      assert (Hc : 1 <= m <= 13) by lia.
      destruct (month_cases m Hc) as
        [->|[->|[->|[->|[->|[->|[->|[->|[->|[->|[->|[->| ->]]]]]]]]]]]];
        try lia; change (1 + 1) with 2 in *; change (2 + 1) with 3 in *;
        change (3 + 1) with 4 in *; change (4 + 1) with 5 in *;
        change (5 + 1) with 6 in *; change (6 + 1) with 7 in *;
        change (7 + 1) with 8 in *; change (8 + 1) with 9 in *;
        change (9 + 1) with 10 in *; change (10 + 1) with 11 in *;
        change (11 + 1) with 12 in *; change (12 + 1) with 13 in *;
        month_tables; destruct (is_leap y); lia.
Qed.

(** The calendar round trip: the ordinal of a date gives the date back. *)
Lemma ord2ymd_ymd2ord (y m d : Z) :
  1 <= y -> 1 <= m <= 12 -> 1 <= d <= days_in_month y m ->
  ord2ymd (ymd2ord y m d) = (y, m, d).
Proof.
  intros Hy Hm Hd.
  pose proof (year_day_range y m d Hm Hd) as Hk.
  pose proof (year_split y _ Hy Hk) as Hsplit. cbv zeta in Hsplit.
  unfold ord2ymd, ymd2ord. cbv zeta.
  replace (days_before_year y + days_before_month y m + d - 1)
    with (days_before_year y + (days_before_month y m + d - 1)) by lia.
  destruct Hsplit as [[Hlast [Hn Hyear]] | [Hlt [Hn1 [Hn100 [Hyear Hr]]]]].
  - replace (_ || _) with true
      by (symmetry; apply orb_true_iff; rewrite !Z.eqb_eq; exact Hn).
    rewrite Hyear.
    assert (m = 12 /\ d = 31); [|f_equal; [f_equal|]; lia].
    rewrite days_in_month_table in Hd by lia.
    rewrite (days_before_month_table y m) in Hlast by lia.
    assert (Hc : 1 <= m <= 13) by lia. unfold leap_day in *.
    destruct (month_cases m Hc) as
      [->|[->|[->|[->|[->|[->|[->|[->|[->|[->|[->|[->| ->]]]]]]]]]]]];
      try lia; month_tables; destruct (is_leap y); lia.
  - replace (_ || _) with false
      by (symmetry; apply orb_false_iff; rewrite !Z.eqb_neq; tauto).
    rewrite Hyear, Hr. apply month_split; assumption.
Qed.

Lemma next_day_ord (y m d : Z) :
  valid_date (y, m, d) ->
  valid_date (next_day (y, m, d))
  /\ (let '(y', m', d') := next_day (y, m, d) in ymd2ord y' m' d')
     = ymd2ord y m d + 1.
Proof.
  unfold valid_date, next_day. intros [Hy [Hm Hd]].
  destruct (Z.ltb_spec d (days_in_month y m)) as [Hlt|Hge].
  - split; [lia|]. unfold ymd2ord. lia.
  - assert (d = days_in_month y m) by lia. subst d.
    destruct (Z.ltb_spec m 12) as [Hm12|Hm12].
    + split.
      * split; [lia|]. split; [lia|].
        rewrite days_in_month_table by lia. unfold leap_day.
        assert (Hc : 1 <= m + 1 <= 13) by lia.
        destruct (month_cases (m + 1) Hc) as
          [->|[->|[->|[->|[->|[->|[->|[->|[->|[->|[->|[->| ->]]]]]]]]]]]];
          try lia; month_tables; destruct (is_leap y); lia.
      * unfold ymd2ord.
        rewrite (days_before_month_table y (m + 1)) by lia.
        rewrite (days_before_month_table y m) by lia.
        rewrite days_in_month_table by lia. unfold leap_day.
        assert (Hc : 1 <= m <= 13) by lia.
        destruct (month_cases m Hc) as
          [->|[->|[->|[->|[->|[->|[->|[->|[->|[->|[->|[->| ->]]]]]]]]]]]];
          try lia; change (1 + 1) with 2; change (2 + 1) with 3;
          change (3 + 1) with 4; change (4 + 1) with 5;
          change (5 + 1) with 6; change (6 + 1) with 7;
          change (7 + 1) with 8; change (8 + 1) with 9;
          change (9 + 1) with 10; change (10 + 1) with 11;
          change (11 + 1) with 12;
          month_tables; destruct (is_leap y); lia.
    + assert (m = 12) by lia. subst m. split.
      * split; [lia|]. split; [lia|]. unfold days_in_month. simpl. lia.
      * unfold ymd2ord. rewrite days_before_year_succ.
        rewrite (days_before_month_table (y + 1) 1) by lia.
        rewrite (days_before_month_table y 12) by lia.
        rewrite (days_in_month_table y 12) by lia. unfold leap_day.
        month_tables. destruct (is_leap y); lia.
Qed.

Lemma iter_next_day (date : Z * Z * Z) (n : nat) :
  valid_date date ->
  valid_date (Nat.iter n next_day date)
  /\ (let '(y', m', d') := Nat.iter n next_day date in ymd2ord y' m' d')
     = (let '(y, m, d) := date in ymd2ord y m d) + Z.of_nat n.
Proof.
  intros Hv. induction n as [|n [IHv IHo]].
  - simpl. split; [exact Hv|]. destruct date as [[y m] d]. lia.
  - simpl Nat.iter. destruct (Nat.iter n next_day date) as [[y' m'] d'].
    destruct (next_day_ord y' m' d' IHv) as [Hv' Ho'].
    split; [exact Hv'|]. rewrite Ho', IHo. lia.
Qed.

(** Counting [n] days on from a date's ordinal reaches the date [n] calendar
    days later. *)
Lemma ord2ymd_plus (y m d : Z) (n : nat) :
  valid_date (y, m, d) ->
  ord2ymd (ymd2ord y m d + Z.of_nat n) = Nat.iter n next_day (y, m, d).
Proof.
  intros Hv. destruct (iter_next_day (y, m, d) n Hv) as [Hv' Ho].
  destruct (Nat.iter n next_day (y, m, d)) as [[y' m'] d'].
  rewrite <- Ho. destruct Hv' as [Hy [Hm Hd]].
  now apply ord2ymd_ymd2ord.
Qed.

Lemma strftime_ymd_text (d : datetime) :
  strftime_ymd d = date_text (ord2ymd (dt_days d)).
Proof. reflexivity. Qed.

(** What [strptime] with '%Y-%m-%d' accepts, by the fields of the text. *)
Lemma strptime_ymd_fields (s : string) (dt : datetime) :
  strptime_ymd s = Ok dt ->
  exists (fy fm fd : string) (y m d : Z),
    split_on "-" s = [fy; fm; fd]
    /\ field4 fy = Some y /\ field12 fm = Some m /\ field_day fd = Some d
    /\ valid_date (y, m, d)
    /\ dt = mkdt (ymd2ord y m d) 0.
Proof.
  unfold strptime_ymd. intros H.
  destruct (split_on "-" s) as [|fy [|fm [|fd [|? ?]]]]; try discriminate.
  destruct (field4 fy) as [y|] eqn:Ey; [|discriminate].
  destruct (field12 fm) as [m|] eqn:Em; [|discriminate].
  destruct (field_day fd) as [d|] eqn:Ed; [|discriminate].
  destruct (_ && _) eqn:E; [|discriminate].
  repeat (apply andb_true_iff in E; destruct E as [E ?]).
  repeat match goal with
         | H : (_ <=? _) = true |- _ => apply Z.leb_le in H
         end.
  exists fy, fm, fd, y, m, d. inversion H.
  repeat split; try reflexivity; try assumption; lia.
Qed.

Lemma fetch_resources_urls (srv : Server) (user_id date_str : string) :
  healthy srv ->
  forall (resources : list string) (data : Bundle) (st : Retriever),
    (forall r, r ∈ resources ->
       is_Some (successful_requests st !! r)
       /\ is_Some (per_resource data !! r)) ->
    requested (snd (fetch_resources srv user_id date_str resources data st))
    = requested st
      ++ ((fun r => url_of (endpoint_text
                              (construct_endpoint user_id r date_str)))
            <$> resources).
Proof.
  intros Hsrv. induction resources as [|r rest IH]; intros data st Hpre.
  - simpl. now rewrite app_nil_r.
  - destruct (Hpre r ltac:(left)) as [[n Hn] [l Hl]].
    destruct (Hsrv (length (requested st))) as [H200 [v [Hbody Htruthy]]].
    simpl fetch_resources. unfold mbind at 1, M_bind at 1.
    rewrite (get_data_first_ok srv _ r st v n H200 Hbody Hn).
    rewrite Htruthy. unfold mbind at 1, M_bind at 1.
    unfold lift, bundle_append. rewrite Hl. cbn [of_option mbind result_bind].
    rewrite IH.
    + simpl. now rewrite <- app_assoc.
    + intros r' Hr'. destruct (Hpre r' ltac:(right; exact Hr')) as [Hs' Hp'].
      simpl. split.
      * destruct (decide (r = r')) as [->|Hne];
          [rewrite lookup_insert_eq; eauto
          |rewrite lookup_insert_ne by exact Hne; exact Hs'].
      * destruct (decide (r = r')) as [->|Hne];
          [rewrite lookup_insert_eq; eauto
          |rewrite lookup_insert_ne by exact Hne; exact Hp'].
Qed.

Lemma fetch_days_urls (srv : Server) (user_id : string)
    (start : datetime) (resources : list string) :
  healthy srv ->
  forall (offsets : list Z) (data : Bundle) (st : Retriever),
    (forall n, n ∈ offsets -> 1 <= dt_days start + n <= max_ordinal) ->
    (forall r, r ∈ resources ->
       is_Some (successful_requests st !! r)
       /\ is_Some (per_resource data !! r)) ->
    requested (snd (fetch_days srv user_id start offsets resources data st))
    = requested st
      ++ concat ((fun n => day_urls user_id resources
                             (ord2ymd (dt_days start + n))) <$> offsets).
Proof.
  intros Hsrv. induction offsets as [|n rest IH]; intros data st Hoff Hpre.
  - simpl. now rewrite app_nil_r.
  - simpl fetch_days. unfold mbind at 1, M_bind at 1. unfold lift at 1.
    unfold dt_plus_days.
    pose proof (Hoff n ltac:(left)) as Hn.
    replace ((1 <=? dt_days start + n) && (dt_days start + n <=? max_ordinal))
      with true by (symmetry; apply andb_true_iff; split; apply Z.leb_le; lia).
    unfold mbind at 1, M_bind at 1.
    pose proof (fetch_resources_urls srv user_id
                  (strftime_ymd (mkdt (dt_days start + n) (dt_secs start)))
                  Hsrv resources data st Hpre) as Hurls.
    destruct (fetch_resources_healthy srv user_id
                (strftime_ymd (mkdt (dt_days start + n) (dt_secs start)))
                Hsrv resources data st Hpre)
      as [data' [st' [Hrun [_ [_ [_ [_ [Hs [Hp _]]]]]]]]].
    rewrite Hrun in Hurls |- *. simpl snd in Hurls.
    rewrite IH.
    + rewrite Hurls. rewrite fmap_cons. simpl concat.
      rewrite <- app_assoc. reflexivity.
    + intros n' Hn'. apply Hoff. now right.
    + intros r Hr. destruct (Hpre r Hr) as [H1 H2]. split.
      * now apply Hs.
      * now apply Hp.
Qed.



(** ** The accepted date range *)

Lemma ymd2ord_year_2000 (y m d : Z) :
  valid_date (y, m, d) -> (2000 <= y <-> ymd2ord 2000 1 1 <= ymd2ord y m d).
Proof.
  intros [Hy [Hm Hd]].
  pose proof (month_day_in_year y m d Hm Hd) as Hmd.
  change (ymd2ord 2000 1 1) with (days_before_year 2000 + 1).
  unfold ymd2ord. split.
  - intros H.
    pose proof (days_before_year_le (Z.to_nat (y - 2000)) 2000) as Hle.
    replace (2000 + Z.of_nat (Z.to_nat (y - 2000))) with y in Hle by lia.
    lia.
  - intros H. destruct (Z.le_gt_cases 2000 y) as [|Hlt]; [assumption|].
    exfalso.
    pose proof (days_before_year_le (Z.to_nat (1999 - y)) (y + 1)) as Hle.
    replace (y + 1 + Z.of_nat (Z.to_nat (1999 - y))) with 2000 in Hle by lia.
    pose proof (days_before_year_succ y). lia.
Qed.

(** The year, month and day of a parsed date. *)
Lemma parsed_date_parts (s : string) (dt : datetime) :
  strptime_ymd s = Ok dt ->
  (2000 <= dt_year dt <-> ymd2ord 2000 1 1 <= dt_days dt)
  /\ 1 <= dt_month dt <= 12 /\ 1 <= dt_day dt <= 31.
Proof.
  intros H. destruct (strptime_ymd_fields s dt H)
    as [fy [fm [fd [y [m [d [_ [_ [_ [_ [Hv ->]]]]]]]]]]].
  pose proof (ymd2ord_year_2000 y m d Hv) as H2000.
  destruct Hv as [Hy [Hm Hd]].
  unfold dt_year, dt_month, dt_day. cbn [dt_days].
  rewrite (ord2ymd_ymd2ord y m d Hy Hm Hd). simpl.
  split; [exact H2000|]. split; [exact Hm|].
  rewrite days_in_month_table in Hd by lia. unfold leap_day in Hd.
  assert (Hc : 1 <= m <= 13) by lia.
  destruct (month_cases m Hc) as
    [->|[->|[->|[->|[->|[->|[->|[->|[->|[->|[->|[->| ->]]]]]]]]]]]];
    try lia; month_tables; destruct (is_leap y); lia.
Qed.

Lemma strptime_ymd_raises (s : string) (x : exn) :
  strptime_ymd s = Raise x -> x = ValueError.
Proof.
  unfold strptime_ymd. intros H.
  destruct (split_on "-" s) as [|fy [|fm [|fd [|? ?]]]];
    try (now inversion H).
  destruct (field4 fy); [|now inversion H].
  destruct (field12 fm); [|now inversion H].
  destruct (field_day fd); [|now inversion H].
  destruct (_ && _); [discriminate | now inversion H].
Qed.

(** The check on two texts that parse, by the day numbers of the dates. *)
Lemma validate_parsed (now : datetime) (now_us : Z)
    (start_date end_date : string) (s e : datetime) :
  clock_reading now now_us ->
  strptime_ymd start_date = Ok s -> strptime_ymd end_date = Ok e ->
  validate_and_parse_dates now now_us start_date end_date
  = Ok (if acceptable now s e then Some (s, e) else None).
Proof.
  intros [Hday [Hsecs Hus]] Hs He.
  unfold validate_and_parse_dates, acceptable. rewrite Hs, He.
  cbn [mbind result_bind].
  destruct (parsed_date_parts _ _ Hs) as [Hys [Hms Hds]].
  destruct (parsed_date_parts _ _ He) as [Hye [Hme Hde]].
  pose proof (strptime_ymd_midnight _ _ Hs) as Hs0.
  pose proof (strptime_ymd_midnight _ _ He) as He0.
  rewrite (dt_diff_days_dates e s He0 Hs0).
  replace ((dt_month s <? 1) || (12 <? dt_month s)
           || (dt_month e <? 1) || (12 <? dt_month e)) with false
    by (symmetry; rewrite !orb_false_iff, !Z.ltb_ge; lia).
  replace ((dt_day s <? 1) || (31 <? dt_day s)
           || (dt_day e <? 1) || (31 <? dt_day e)) with false
    by (symmetry; rewrite !orb_false_iff, !Z.ltb_ge; lia).
  unfold dt_plus_days.
  replace ((1 <=? dt_days now + -1) && (dt_days now + -1 <=? max_ordinal))
    with true
    by (symmetry; apply andb_true_iff; split; apply Z.leb_le; lia).
  cbn [mbind result_bind]. unfold dt_gt_clock, dt_lt. cbn [dt_days dt_secs].
  rewrite He0, Hs0.
  destruct (Z.ltb_spec (dt_year s) 2000); try (exfalso; lia);
    destruct (Z.ltb_spec (dt_year e) 2000); try (exfalso; lia);
    destruct (Z.leb_spec (ymd2ord 2000 1 1) (dt_days s));
    try (exfalso; lia);
    destruct (Z.leb_spec (dt_days s) (dt_days e)); try (exfalso; lia);
    destruct (Z.ltb_spec (dt_days e) (dt_days now)); try (exfalso; lia);
    destruct (Z.leb_spec (dt_days e - dt_days s) max_days);
    try (exfalso; lia);
    destruct (Z.ltb_spec (dt_days now + -1) (dt_days e));
    try (exfalso; lia);
    destruct (Z.eqb_spec (dt_days now + -1) (dt_days e));
    try (exfalso; lia);
    destruct (Z.ltb_spec (dt_secs now) 0); try (exfalso; lia);
    destruct (Z.eqb_spec (dt_secs now) 0); try (exfalso; lia);
    destruct (Z.ltb_spec now_us 0); try (exfalso; lia);
    destruct (Z.ltb_spec (dt_days e) (dt_days s)); try (exfalso; lia);
    destruct (Z.ltb_spec max_days (dt_days e - dt_days s));
    try (exfalso; lia);
    change (0 <? 0) with false; rewrite ?andb_false_r;
    cbn [orb andb]; reflexivity.
Qed.

(** X17: read at a clock time, the range check never raises, and it accepts
    a pair of texts exactly when both parse as dates, the start is not
    before 2000-01-01, the end is not before the start, lies before today
    and is at most 30 days after the start; it then returns the two parsed
    dates.  Its tests of the month and of the day reject nothing: every
    parsed date passes them. *)
Theorem validate_and_parse_dates_accepts (now : datetime) (now_us : Z)
    (start_date end_date : string) :
  clock_reading now now_us ->
  (exists r, validate_and_parse_dates now now_us start_date end_date = Ok r)
  /\ forall s e : datetime,
       validate_and_parse_dates now now_us start_date end_date
       = Ok (Some (s, e))
       <-> strptime_ymd start_date = Ok s /\ strptime_ymd end_date = Ok e
           /\ ymd2ord 2000 1 1 <= dt_days s <= dt_days e
           /\ dt_days e < dt_days now
           /\ dt_days e - dt_days s <= 30.
Proof.
  intros Hclock.
  destruct (strptime_ymd start_date) as [s0|x] eqn:Hs.
  - destruct (strptime_ymd end_date) as [e0|x] eqn:He.
    + rewrite (validate_parsed now now_us _ _ s0 e0 Hclock Hs He).
      split; [eauto|]. intros s e. unfold acceptable, max_days.
      destruct (Z.leb_spec (ymd2ord 2000 1 1) (dt_days s0));
        destruct (Z.leb_spec (dt_days s0) (dt_days e0));
        destruct (Z.ltb_spec (dt_days e0) (dt_days now));
        destruct (Z.leb_spec (dt_days e0 - dt_days s0) 30);
        cbn [andb];
        try (split; [discriminate
                    | intros [E1 [E2 Hacc]]; inversion E1; inversion E2;
                      subst; lia]).
      split.
      * intros Hret. inversion Hret; subst. repeat split; lia.
      * intros [E1 [E2 _]]. inversion E1; inversion E2. reflexivity.
    + unfold validate_and_parse_dates. rewrite Hs, He.
      apply strptime_ymd_raises in He. subst x. cbn [mbind result_bind].
      split; [eauto|]. intros s e.
      split; [discriminate | intros [_ [? _]]; discriminate].
  - unfold validate_and_parse_dates. rewrite Hs.
    apply strptime_ymd_raises in Hs. subst x. cbn [mbind result_bind].
    split; [eauto|]. intros s e.
    split; [discriminate | intros [? _]; discriminate].
Qed.

Lemma validate_and_parse_dates_accepts_witness :
  validate_and_parse_dates (mkdt 739000 3600) 250 "2024-02-28" "2024-03-01"
  = Ok (Some (mkdt 738944 0, mkdt 738946 0))
  /\ exists r,
       validate_and_parse_dates (mkdt 739000 3600) 250 "2024-02-30"
         "2024-03-01" = Ok r.
Proof.
  assert (Hclock : clock_reading (mkdt 739000 3600) 250)
    by (unfold clock_reading, max_ordinal; simpl; lia).
  split.
  - apply (validate_and_parse_dates_accepts _ _ "2024-02-28" "2024-03-01"
             Hclock).
    split; [reflexivity|]. split; [reflexivity|]. simpl.
    change (ymd2ord 2000 1 1) with 730120. lia.
  - apply (validate_and_parse_dates_accepts _ _ "2024-02-30" "2024-03-01"
             Hclock).
Defined.

(** X18: a range the check accepts spans between 1 and 31 days, but the
    retrieval that follows budgets six requests a day: with a remaining
    quota of at most 150, the size of Fitbit's hourly allowance and the
    initial value, every accepted range of more than 25 days makes the
    retrieval exit with status 1 before any request is sent. *)
Theorem accepted_range_over_quota (srv : Server) (now : datetime)
    (now_us : Z) (user_id device_id start_date end_date : string)
    (s e : datetime) (st : Retriever) (remaining : Z) :
  clock_reading now now_us ->
  validate_and_parse_dates now now_us start_date end_date
  = Ok (Some (s, e)) ->
  py_int (rl_remaining (rate_limit st)) = Ok remaining ->
  remaining <= 150 ->
  let days := dt_days e - dt_days s + 1 in
  1 <= days <= 31
  /\ (25 < days ->
      get_data_for_dates srv user_id device_id start_date end_date st
      = (Raise (SystemExit 1), st)).
Proof.
  intros Hclock Hret Hrem Hquota days. subst days.
  destruct (strptime_ymd start_date) as [s0|x] eqn:Hs.
  2: { unfold validate_and_parse_dates in Hret. rewrite Hs in Hret.
       destruct x; discriminate. }
  destruct (strptime_ymd end_date) as [e0|x] eqn:He.
  2: { unfold validate_and_parse_dates in Hret. rewrite Hs, He in Hret.
       destruct x; discriminate. }
  rewrite (validate_parsed now now_us _ _ s0 e0 Hclock Hs He) in Hret.
  destruct (acceptable now s0 e0) eqn:Hacc; [|discriminate].
  inversion Hret; subst s0 e0. unfold acceptable, max_days in Hacc.
  repeat (apply andb_true_iff in Hacc; destruct Hacc as [Hacc ?]).
  repeat match goal with
         | H : (_ <=? _) = true |- _ => apply Z.leb_le in H
         | H : (_ <? _) = true |- _ => apply Z.ltb_lt in H
         end.
  split; [lia|]. intros Hdays. unfold get_data_for_dates.
  rewrite (get_all_data_unfold _ _ _ _ _ _ s e remaining Hs He Hrem).
  replace (remaining <? _) with true
    by (symmetry; apply Z.ltb_lt; simpl; lia).
  reflexivity.
Qed.

Lemma accepted_range_over_quota_witness :
  get_data_for_dates ok_server "u" "dev" "2024-02-01" "2024-02-28"
    retriever_init
  = (Raise (SystemExit 1), retriever_init).
Proof.
  apply (accepted_range_over_quota ok_server (mkdt 739000 3600) 250 "u" "dev"
           "2024-02-01" "2024-02-28" (mkdt 738917 0) (mkdt 738944 0)
           retriever_init 150).
  - unfold clock_reading, max_ordinal. simpl. lia.
  - reflexivity.
  - reflexivity.
  - lia.
  - simpl. lia.
Defined.

(** ** Error documents *)

Lemma mapM_error_message_raises (items : list json) (x : exn) :
  mapM_result error_message_of items = Raise x ->
  x = TypeError \/ x = KeyError.
Proof.
  induction items as [|item items IH]; [discriminate|].
  simpl. intros H.
  destruct (error_message_of item) as [v|y] eqn:Hitem.
  - cbn [mbind result_bind] in H.
    destruct (mapM_result error_message_of items) as [vs|y];
      [discriminate|].
    cbn [mbind result_bind] in H. inversion H; subst. now apply IH.
  - cbn [mbind result_bind] in H. inversion H; subst.
    destruct item as [| | | |?|l]; simpl in Hitem;
      try (inversion Hitem; now left).
    destruct (assoc "message" l); simpl in Hitem;
      [discriminate | inversion Hitem; now right].
Qed.

Lemma join_messages_raises (parts : list json) (x : exn) :
  join_messages parts = Raise x -> x = TypeError.
Proof.
  induction parts as [|p parts IH]; [discriminate|].
  simpl. intros H.
  destruct p as [| | |s| |]; try (now inversion H).
  destruct parts as [|p' parts']; [discriminate|].
  destruct (join_messages (p' :: parts')) as [t|y];
    cbn [mbind result_bind] in H; [discriminate|].
  inversion H; subst. now apply IH.
Qed.

Lemma log_error_details_raises (response : Response) (attempt : Z)
    (resource_type : string) (x : exn) :
  log_error_details response attempt resource_type = Raise x ->
  x = TypeError \/ x = KeyError.
Proof.
  unfold log_error_details, response_json. intros H.
  destruct (body response) as [error_details|]; simpl in H;
    [|discriminate].
  destruct (errors_of error_details) as [[es|]|y] eqn:Herr;
    cbn [mbind result_bind] in H; try discriminate.
  - destruct (iterate es) as [items|y] eqn:Hit;
      cbn [mbind result_bind] in H.
    + destruct (mapM_result error_message_of items) as [parts|y] eqn:Hmap;
        cbn [mbind result_bind] in H.
      * left. now apply join_messages_raises in H.
      * inversion H; subst. now apply mapM_error_message_raises in Hmap.
    + inversion H; subst. left.
      destruct es; simpl in Hit; now inversion Hit.
  - inversion H; subst. left.
    destruct error_details as [| | |s|l|l]; simpl in Herr;
      try (now inversion Herr).
    + destruct (contains "errors" s); now inversion Herr.
    + destruct (existsb (is_jstr "errors") l); now inversion Herr.
Qed.

(** X19: when the server answers with a status other than 200 and 429 and
    the document's errors cannot be read as messages (a message is missing
    or is not text), the fetch does not go on to retry: the exception, a
    TypeError or a KeyError, leaves [get_data] on that attempt, after the
    request and the quota update but before any wait, with neither the
    total nor the failure counter advanced. *)
Theorem unreadable_errors_abort_fetch (srv : Server)
    (endpoint resource_type : string) (retries : Z) (backoff_factor : Q)
    (st : Retriever) (x : exn) :
  let response := srv (length (requested st)) in
  0 < retries ->
  status_code response <> 200 ->
  status_code response <> 429 ->
  log_error_details response 0 resource_type = Raise x ->
  (x = TypeError \/ x = KeyError)
  /\ get_data srv endpoint resource_type retries backoff_factor st
     = (Raise x,
        mkRetriever (update_rate_limit (rate_limit st) (headers response))
          (total_requests st) (successful_requests st) (failed_requests st)
          (requested st ++ [url_of endpoint]) (slept st)).
Proof.
  intros response Hretries H200 H429 Hlog.
  split; [exact (log_error_details_raises _ _ _ _ Hlog)|].
  unfold get_data.
  destruct (Z.to_nat retries) as [|todo] eqn:Hn; [lia|].
  simpl get_data_loop.
  unfold get_data_attempt, mbind, M_bind, requests_get, do_update_rate_limit.
  fold response. simpl.
  apply Z.eqb_neq in H200, H429. rewrite H200, H429.
  unfold lift. rewrite Hlog. reflexivity.
Qed.

Lemma unreadable_errors_abort_fetch_witness :
  get_data messageless_server "devices.json" "devices" default_retries
    default_backoff_factor retriever_init
  = (Raise KeyError,
     mkRetriever rate_limit_init 0 counters_init counters_init
       [url_of "devices.json"] []).
Proof.
  destruct (unreadable_errors_abort_fetch messageless_server "devices.json"
              "devices" default_retries default_backoff_factor
              retriever_init KeyError) as [_ H].
  - reflexivity.
  - discriminate.
  - discriminate.
  - reflexivity.
  - rewrite H. reflexivity.
Defined.

(** ** Sleep records *)

(** Of two main sleeps filed under one date the later one is recorded; a
    nap is not. *)
Example sleep_records_last_main :
  let night (id : Z) (d : string) (main : bool) :=
    Sleep.mkEntry (Some d) (Some main) (Some "stages"%string) (Some id)
      None None None None None None None None in
  Sleep.rec_logId
    <$> Sleep.sleep_records "dev"
          (Some [Sleep.mkPayload
                   (Some [night 1 "2024-03-01" true;
                          night 2 "2024-03-01" false;
                          night 3 "2024-03-01" true]);
                 Sleep.mkPayload
                   (Some [night 4 "2024-03-01" true;
                          night 5 "2024-03-02" true])])
  = [PInt 3; PInt 5].
Proof. vm_compute. reflexivity. Qed.

Lemma main_sleeps_snoc (l : list Sleep.Entry) (x : Sleep.Entry) :
  Sleep.main_sleeps (l ++ [x])
  = if is_main_sleep x
    then <[sleep_date x := x]> (Sleep.main_sleeps l)
    else Sleep.main_sleeps l.
Proof. unfold Sleep.main_sleeps. now rewrite foldl_snoc. Qed.

Lemma main_sleeps_lookup (l : list Sleep.Entry) (d : string)
    (e : Sleep.Entry) :
  Sleep.main_sleeps l !! d = Some e ->
  e ∈ l /\ is_main_sleep e = true /\ sleep_date e = d.
Proof.
  induction l as [|x l IH] using rev_ind.
  - unfold Sleep.main_sleeps. simpl. now rewrite lookup_empty.
  - rewrite main_sleeps_snoc. destruct (is_main_sleep x) eqn:Hx.
    + destruct (decide (sleep_date x = d)) as [<-|Hne].
      * rewrite lookup_insert_eq. intros H. inversion H; subst.
        split; [apply elem_of_app; right; now left|]. now split.
      * rewrite lookup_insert_ne by exact Hne. intros H.
        destruct (IH H) as [Hin Hrest].
        split; [apply elem_of_app; now left | exact Hrest].
    + intros H. destruct (IH H) as [Hin Hrest].
      split; [apply elem_of_app; now left | exact Hrest].
Qed.

Lemma main_sleeps_covers (l : list Sleep.Entry) (e : Sleep.Entry) :
  e ∈ l -> is_main_sleep e = true ->
  is_Some (Sleep.main_sleeps l !! sleep_date e).
Proof.
  induction l as [|x l IH] using rev_ind; [intros H; inversion H|].
  intros Hin Hmain. rewrite main_sleeps_snoc.
  apply elem_of_app in Hin. destruct Hin as [Hin|Hin].
  - destruct (is_main_sleep x); [|now apply IH].
    destruct (decide (sleep_date x = sleep_date e)) as [->|Hne].
    + rewrite lookup_insert_eq. eauto.
    + rewrite lookup_insert_ne by exact Hne. now apply IH.
  - apply list_elem_of_singleton in Hin. subst x. rewrite Hmain.
    rewrite lookup_insert_eq. eauto.
Qed.

(** One pass of the inner loop. *)
Lemma visit_spec (device_id : string) (m : gmap string Sleep.Entry)
    (acc : list Sleep.Extracted * gset string) (x : Sleep.Entry) :
  sleep_coherent acc ->
  let acc' := Sleep.visit device_id m acc x in
  sleep_coherent acc'
  /\ acc.2 ⊆ acc'.2
  /\ (acc'.1 = acc.1
      \/ (acc'.1 = acc.1 ++ [Sleep.extracted_data device_id x]
          /\ x = default Sleep.empty_entry (m !! sleep_date x)))
  /\ (x = default Sleep.empty_entry (m !! sleep_date x) ->
      sleep_date x ∈ acc'.2).
Proof.
  destruct acc as [recs days]. intros [Hnd Hdays] acc'. subst acc'.
  cbn [fst snd] in *. unfold Sleep.visit, sleep_coherent.
  fold (sleep_date x).
  destruct (bool_decide (sleep_date x ∉ days)) eqn:Hnew.
  - apply bool_decide_eq_true in Hnew.
    destruct (bool_decide (x = default Sleep.empty_entry
                                 (m !! sleep_date x))) eqn:Heq.
    + apply bool_decide_eq_true in Heq. cbn [andb fst snd].
      split; [split|split; [|split]].
      * rewrite fmap_app. apply NoDup_app. split; [exact Hnd|]. split.
        -- intros d Hd Hd'. apply list_elem_of_singleton in Hd'. subst d.
           apply Hnew. now apply Hdays.
        -- apply NoDup_singleton.
      * intros d. rewrite fmap_app, elem_of_app, elem_of_union, Hdays.
        rewrite list_fmap_singleton, list_elem_of_singleton,
          elem_of_singleton.
        reflexivity.
      * apply union_subseteq_l.
      * right. now split.
      * intros _. apply elem_of_union. right. now apply elem_of_singleton.
    + apply bool_decide_eq_false in Heq. cbn [andb fst snd].
      split; [now split|]. split; [reflexivity|]. split; [now left|].
      intros H. contradiction.
  - apply bool_decide_eq_false in Hnew. cbn [andb fst snd].
    split; [now split|]. split; [reflexivity|]. split; [now left|].
    intros _. destruct (decide (sleep_date x ∈ days)); [assumption|].
    contradiction.
Qed.

(** The inner loop over the entries of one payload. *)
Lemma visit_loop_spec (device_id : string) (m : gmap string Sleep.Entry)
    (acc : list Sleep.Extracted * gset string) (l : list Sleep.Entry) :
  sleep_coherent acc ->
  let acc' := foldl (Sleep.visit device_id m) acc l in
  sleep_coherent acc'
  /\ acc.2 ⊆ acc'.2
  /\ (exists new,
        acc'.1 = acc.1 ++ new
        /\ forall r, r ∈ new ->
             exists x, x ∈ l /\ r = Sleep.extracted_data device_id x
                       /\ x = default Sleep.empty_entry (m !! sleep_date x))
  /\ (forall x, x ∈ l ->
        x = default Sleep.empty_entry (m !! sleep_date x) ->
        sleep_date x ∈ acc'.2).
Proof.
  intros Hacc. induction l as [|x l IH] using rev_ind.
  - simpl. split; [exact Hacc|]. split; [reflexivity|].
    split; [exists []; rewrite app_nil_r; split;
            [reflexivity | intros r Hr; inversion Hr]|].
    intros x Hx. inversion Hx.
  - cbv zeta in *. rewrite foldl_snoc.
    destruct IH as [Hco [Hsub [[new [Hnew Hsrc]] Hdone]]].
    destruct (visit_spec device_id m (foldl (Sleep.visit device_id m) acc l)
                x Hco) as [Hco' [Hsub' [Hstep Hx]]].
    cbv zeta in *.
    split; [exact Hco'|].
    split; [etransitivity; [exact Hsub | exact Hsub']|]. split.
    + destruct Hstep as [Hsame | [Hadd Heq]].
      * exists new. split; [now rewrite Hsame|].
        intros r Hr. destruct (Hsrc r Hr) as [y [Hy Hrest]].
        exists y. split; [apply elem_of_app; now left | exact Hrest].
      * exists (new ++ [Sleep.extracted_data device_id x]).
        split; [rewrite Hadd, Hnew; now rewrite app_assoc|].
        intros r Hr. apply elem_of_app in Hr. destruct Hr as [Hr|Hr].
        -- destruct (Hsrc r Hr) as [y [Hy Hrest]].
           exists y. split; [apply elem_of_app; now left | exact Hrest].
        -- apply list_elem_of_singleton in Hr. subst r.
           exists x. split; [apply elem_of_app; right; now left|].
           now split.
    + intros y Hy Heq. apply elem_of_app in Hy. destruct Hy as [Hy|Hy].
      * apply Hsub'. now apply Hdone.
      * apply list_elem_of_singleton in Hy. subst y. now apply Hx.
Qed.

(** One payload. *)
Lemma visit_payload_spec (device_id : string)
    (acc : list Sleep.Extracted * gset string) (record : Sleep.Payload) :
  sleep_coherent acc ->
  let l := default [] (Sleep.sleep record) in
  let acc' := Sleep.visit_payload device_id acc record in
  sleep_coherent acc'
  /\ acc.2 ⊆ acc'.2
  /\ (exists new, acc'.1 = acc.1 ++ new /\ sleep_sourced device_id l new)
  /\ (forall x, x ∈ l -> is_main_sleep x = true -> sleep_date x ∈ acc'.2).
Proof.
  intros Hacc l acc'. subst acc'. unfold Sleep.visit_payload. fold l.
  destruct (visit_loop_spec device_id (Sleep.main_sleeps l) acc l Hacc)
    as [Hco [Hsub [[new [Hnew Hsrc]] Hdone]]].
  cbv zeta in *.
  split; [exact Hco|]. split; [exact Hsub|]. split.
  - exists new. split; [exact Hnew|]. intros r Hr.
    destruct (Hsrc r Hr) as [x [Hx [-> Heq]]].
    exists x. split; [exact Hx|]. split; [reflexivity|].
    destruct (Sleep.main_sleeps l !! sleep_date x) as [e|] eqn:Hm.
    + simpl in Heq. subst e. left.
      now destruct (main_sleeps_lookup l _ _ Hm) as [_ [H _]].
    + right. exact Heq.
  - intros x Hx Hmain.
    destruct (main_sleeps_covers l x Hx Hmain) as [e He].
    destruct (main_sleeps_lookup l _ _ He) as [Hin [_ Hdate]].
    rewrite <- Hdate. apply Hdone; [exact Hin|].
    rewrite Hdate, He. reflexivity.
Qed.

(** All the payloads. *)
Lemma sleep_loop_spec (device_id : string) (l : list Sleep.Payload) :
  let acc := foldl (Sleep.visit_payload device_id) ([], ∅) l in
  let entries :=
    concat ((fun record => default [] (Sleep.sleep record)) <$> l) in
  sleep_coherent acc
  /\ (forall x, x ∈ entries -> is_main_sleep x = true -> sleep_date x ∈ acc.2)
  /\ sleep_sourced device_id entries acc.1.
Proof.
  induction l as [|record l IH] using rev_ind.
  - simpl. split; [|split].
    + split; [constructor|]. intros d. simpl. set_solver.
    + intros x H. inversion H.
    + intros r H. inversion H.
  - cbv zeta in *. rewrite foldl_snoc, fmap_app, concat_app. simpl.
    rewrite app_nil_r.
    destruct IH as [Hco [Hdone Hsrc]].
    destruct (visit_payload_spec device_id
                (foldl (Sleep.visit_payload device_id) ([], ∅) l) record Hco)
      as [Hco' [Hsub [[new [Hnew Hsrc']] Hdone']]].
    cbv zeta in *.
    split; [exact Hco'|]. split.
    + intros x Hx Hmain. apply elem_of_app in Hx. destruct Hx as [Hx|Hx].
      * apply Hsub. now apply Hdone.
      * now apply Hdone'.
    + intros r Hr. rewrite Hnew in Hr. apply elem_of_app in Hr.
      destruct Hr as [Hr|Hr].
      * destruct (Hsrc r Hr) as [x [Hx Hrest]].
        exists x. split; [apply elem_of_app; now left | exact Hrest].
      * destruct (Hsrc' r Hr) as [x [Hx Hrest]].
        exists x. split; [apply elem_of_app; now right | exact Hrest].
Qed.

(** X20: the sleep normalizer makes at most one record per date of sleep,
    makes a record for every date on which some payload has a main sleep,
    and makes each record from an entry of the payloads that is a main
    sleep or else the entry without any key. *)
Theorem one_sleep_record_per_date (device_id : string)
    (data_sleep : option (list Sleep.Payload)) :
  let records := Sleep.sleep_records device_id data_sleep in
  NoDup (Sleep.DateTime <$> records)
  /\ (forall entry, entry ∈ sleep_entries data_sleep ->
        is_main_sleep entry = true ->
        sleep_date entry ∈ Sleep.DateTime <$> records)
  /\ sleep_sourced device_id (sleep_entries data_sleep) records.
Proof.
  unfold Sleep.sleep_records, sleep_entries.
  destruct (sleep_loop_spec device_id (default [] data_sleep))
    as [[Hnd Hdays] [Hdone Hsrc]].
  cbv zeta in *. split; [exact Hnd|]. split; [|exact Hsrc].
  intros entry Hin Hmain. apply Hdays. now apply Hdone.
Qed.

(** ** Dates written and read back *)

Lemma split_on_dash_free (a : string) :
  dash_free a = true -> split_on "-" a = [a].
Proof.
  induction a as [|c a IH]; [reflexivity|].
  simpl. intros H. apply andb_true_iff in H. destruct H as [Hc Ha].
  apply negb_true_iff in Hc. rewrite Hc, (IH Ha). reflexivity.
Qed.

Lemma split_on_field (a rest : string) :
  dash_free a = true ->
  split_on "-" (a +:+ String "-" rest) = a :: split_on "-" rest.
Proof.
  induction a as [|c a IH]; [reflexivity|].
  simpl. intros H. apply andb_true_iff in H. destruct H as [Hc Ha].
  apply negb_true_iff in Hc. rewrite Hc.
  change (a +:+ String "-" rest) with (a +:+ String "-" rest) in *.
  rewrite (IH Ha). reflexivity.
Qed.

Lemma year_texts : forallb year_text_ok (seqZ 0 10000) = true.
Proof. vm_compute. reflexivity. Qed.

Lemma month_texts : forallb month_text_ok (seqZ 0 100) = true.
Proof. vm_compute. reflexivity. Qed.

Lemma day_texts : forallb day_text_ok (seqZ 0 100) = true.
Proof. vm_compute. reflexivity. Qed.

Lemma checked_below (P : Z -> bool) (n x : Z) :
  forallb P (seqZ 0 n) = true -> 0 <= x < n -> P x = true.
Proof.
  intros H Hx. rewrite forallb_forall in H. apply H.
  apply list_elem_of_In, elem_of_seqZ. lia.
Qed.

(** Every day number is the ordinal of a calendar date. *)
Lemma ordinal_date (n : Z) :
  1 <= n ->
  exists y m d : Z,
    valid_date (y, m, d) /\ ord2ymd n = (y, m, d) /\ ymd2ord y m d = n.
Proof.
  intros Hn.
  assert (Hv : valid_date (1, 1, 1)) by (vm_compute; intuition discriminate).
  destruct (iter_next_day (1, 1, 1) (Z.to_nat (n - 1)) Hv) as [Hv' Ho].
  pose proof (ord2ymd_plus 1 1 1 (Z.to_nat (n - 1)) Hv) as Hinv.
  destruct (Nat.iter (Z.to_nat (n - 1)) next_day (1, 1, 1))
    as [[y m] d].
  change (ymd2ord 1 1 1) with 1 in *.
  replace (1 + Z.of_nat (Z.to_nat (n - 1))) with n in * by lia.
  exists y, m, d. repeat split; try assumption; apply Hv'.
Qed.

Lemma ordinal_year (y m d : Z) :
  valid_date (y, m, d) -> ymd2ord y m d <= max_ordinal -> y <= 9999.
Proof.
  intros [Hy [Hm Hd]] Hmax.
  destruct (Z.le_gt_cases y 9999) as [|Hgt]; [assumption|]. exfalso.
  pose proof (month_day_in_year y m d Hm Hd) as Hmd.
  pose proof (days_before_year_le (Z.to_nat (y - 10000)) 10000) as Hle.
  replace (10000 + Z.of_nat (Z.to_nat (y - 10000))) with y in Hle by lia.
  change (days_before_year 10000) with max_ordinal in Hle.
  unfold ymd2ord in Hmax. lia.
Qed.

(** The round trip of a date through its text. *)
Lemma strptime_strftime (d : datetime) :
  1 <= dt_days d <= max_ordinal ->
  strptime_ymd (strftime_ymd d) = Ok (mkdt (dt_days d) 0).
Proof.
  intros [Hlo Hhi].
  destruct (ordinal_date (dt_days d) Hlo) as [y [m [dd [Hv [Hinv Hord]]]]].
  rewrite <- Hord in Hhi. pose proof (ordinal_year y m dd Hv Hhi) as Hy.
  destruct Hv as [Hy1 [Hm Hd]].
  assert (Hd31 : dd <= 31).
  { rewrite days_in_month_table in Hd by lia. unfold leap_day in Hd.
    assert (Hc : 1 <= m <= 13) by lia.
    destruct (month_cases m Hc) as
      [->|[->|[->|[->|[->|[->|[->|[->|[->|[->|[->|[->| ->]]]]]]]]]]]];
      try lia; month_tables; destruct (is_leap y); lia. }
  pose proof (checked_below _ _ y year_texts ltac:(lia)) as Hyt.
  pose proof (checked_below _ _ m month_texts ltac:(lia)) as Hmt.
  pose proof (checked_below _ _ dd day_texts ltac:(lia)) as Hdt.
  unfold year_text_ok, month_text_ok, day_text_ok in *.
  apply andb_true_iff in Hyt, Hmt, Hdt.
  destruct Hyt as [Hy_free Hy_field]. destruct Hmt as [Hm_free Hm_field].
  destruct Hdt as [Hd_free Hd_field].
  apply bool_decide_eq_true in Hy_field, Hm_field, Hd_field.
  unfold strftime_ymd, strptime_ymd. rewrite Hinv.
  change (zero_pad 4 y +:+ "-" +:+ zero_pad 2 m +:+ "-" +:+ zero_pad 2 dd)
    with (zero_pad 4 y
          +:+ String "-" (zero_pad 2 m +:+ String "-" (zero_pad 2 dd))).
  rewrite (split_on_field _ _ Hy_free), (split_on_field _ _ Hm_free),
    (split_on_dash_free _ Hd_free).
  rewrite Hy_field, Hm_field, Hd_field.
  replace ((1 <=? y) && (1 <=? m) && (m <=? 12) && (1 <=? dd)
           && (dd <=? days_in_month y m)) with true
    by (symmetry; rewrite !andb_true_iff, !Z.leb_le; lia).
  now rewrite Hord.
Qed.

(** The pass once the number is read and the two dates are written and
    read back. *)
Lemma retrieve_last_days_unfold (srv : Server) (now : datetime)
    (user_id device_id choice : string) (st : Retriever)
    (days remaining : Z) :
  int_of_str choice = Ok days ->
  four_digit_year (dt_days now) ->
  four_digit_year (dt_days now - (days - 1)) ->
  py_int (rl_remaining (rate_limit st)) = Ok remaining ->
  retrieve_last_days srv now user_id device_id choice st
  = if remaining <? 6 * days then (Raise (SystemExit 1), st)
    else after_try
           (fetch_days srv user_id (mkdt (dt_days now - (days - 1)) 0)
              (py_range days) all_resources (bundle_init device_id) st).
Proof.
  intros Hint [Hn1 Hn2] [Hs1 Hs2] Hrem.
  change (ymd2ord 1000 1 1) with 364878 in *.
  unfold retrieve_last_days.
  unfold mbind at 1, M_bind at 1. unfold lift at 1. rewrite Hint.
  unfold mbind at 1, M_bind at 1. unfold lift at 1. unfold dt_plus_days.
  replace (dt_days now + - (days - 1)) with (dt_days now - (days - 1))
    by lia.
  replace ((1 <=? dt_days now - (days - 1))
           && (dt_days now - (days - 1) <=? max_ordinal)) with true
    by (symmetry; apply andb_true_iff; split; apply Z.leb_le; lia).
  unfold get_data_for_dates.
  rewrite (get_all_data_unfold srv user_id device_id _ _ st
             (mkdt (dt_days now - (days - 1)) 0) (mkdt (dt_days now) 0)
             remaining).
  - cbn [dt_days].
    replace (dt_days now - (dt_days now - (days - 1)) + 1) with days by lia.
    change (Z.of_nat (length all_resources)) with 6.
    destruct (remaining <? 6 * days); reflexivity.
  - apply (strptime_strftime (mkdt (dt_days now - (days - 1)) (dt_secs now))).
    cbn [dt_days]. lia.
  - apply strptime_strftime. lia.
  - exact Hrem.
Qed.

(** X21: asked for a number of days, the retrieval covers that many days
    ending with the clock's date, today included, at six requests a day:
    for a number below 1 it returns the empty bundle without a request, for
    a number whose six-fold exceeds the remaining quota it exits with
    status 1 before any request, and otherwise, against a server that
    answers every request with 200 and a truthy document, it requests the
    calendar days from today minus the number plus 1 up to today. *)
Theorem last_days_request (srv : Server) (now : datetime)
    (user_id device_id choice : string) (st : Retriever)
    (days remaining : Z) :
  int_of_str choice = Ok days ->
  four_digit_year (dt_days now) ->
  four_digit_year (dt_days now - (days - 1)) ->
  py_int (rl_remaining (rate_limit st)) = Ok remaining ->
  let run := retrieve_last_days srv now user_id device_id choice st in
  let first_day := ord2ymd (dt_days now - (days - 1)) in
  (days < 1 -> 0 <= remaining ->
   run = (Ok (Some (bundle_init device_id)), st))
  /\ (remaining < 6 * days -> run = (Raise (SystemExit 1), st))
  /\ (1 <= days -> 6 * days <= remaining -> healthy srv ->
      (forall r, r ∈ all_resources ->
                 is_Some (successful_requests st !! r)) ->
      Nat.iter (Z.to_nat (days - 1)) next_day first_day
      = ord2ymd (dt_days now)
      /\ requested (snd run)
         = requested st
           ++ concat (day_urls user_id all_resources
                        <$> days_from first_day (Z.to_nat days))).
Proof.
  intros Hint Hnow Hstart Hrem run first_day. subst run.
  rewrite (retrieve_last_days_unfold srv now user_id device_id choice st
             days remaining Hint Hnow Hstart Hrem).
  split; [|split].
  - intros Hdays Hpos.
    replace (remaining <? 6 * days) with false
      by (symmetry; apply Z.ltb_ge; lia).
    unfold py_range. replace (Z.to_nat days) with 0%nat by lia.
    reflexivity.
  - intros Hover.
    replace (remaining <? 6 * days) with true
      by (symmetry; apply Z.ltb_lt; lia).
    reflexivity.
  - intros Hdays Hquota Hsrv Hcnt.
    replace (remaining <? 6 * days) with false
      by (symmetry; apply Z.ltb_ge; lia).
    destruct Hnow as [Hn1 Hn2]. destruct Hstart as [Hs1 Hs2].
    change (ymd2ord 1000 1 1) with 364878 in *.
    destruct (ordinal_date (dt_days now - (days - 1)) ltac:(lia))
      as [y [m [d [Hv [Hinv Hord]]]]].
    subst first_day. rewrite Hinv.
    assert (Hpre : forall r, r ∈ all_resources ->
              is_Some (successful_requests st !! r)
              /\ is_Some (per_resource (bundle_init device_id) !! r)).
    { intros r Hr. split; [now apply Hcnt|].
      unfold all_resources in Hr.
      repeat (apply elem_of_cons in Hr; destruct Hr as [-> | Hr];
              [vm_compute; eauto|]).
      inversion Hr. }
    assert (Hoff : forall n, n ∈ py_range days ->
              1 <= dt_days (mkdt (dt_days now - (days - 1)) 0) + n
                <= max_ordinal).
    { intros n Hn. unfold py_range in Hn.
      apply list_elem_of_fmap in Hn. destruct Hn as [i [-> Hi]].
      apply elem_of_seq in Hi. cbn [dt_days]. lia. }
    split.
    + rewrite <- (ord2ymd_plus y m d _ Hv), Hord. f_equal. lia.
    + destruct (fetch_days_healthy srv user_id
                  (mkdt (dt_days now - (days - 1)) 0) all_resources Hsrv
                  (py_range days) (bundle_init device_id) st Hoff Hpre)
        as [data [st' [Hrun _]]].
      pose proof (fetch_days_urls srv user_id
                    (mkdt (dt_days now - (days - 1)) 0) all_resources Hsrv
                    (py_range days) (bundle_init device_id) st Hoff Hpre)
        as Hurls.
      rewrite Hrun in Hurls |- *. cbn [after_try snd] in *. rewrite Hurls.
      f_equal. f_equal. unfold py_range, days_from.
      rewrite <- !list_fmap_compose. apply list_fmap_ext.
      intros i n _. unfold compose. cbn [dt_days].
      rewrite <- Hord. now rewrite ord2ymd_plus by exact Hv.
Qed.

Lemma last_days_request_witness :
  retrieve_last_days ok_server (mkdt 738946 3600) "u" "dev" "0"
    retriever_init
  = (Ok (Some (bundle_init "dev")), retriever_init)
  /\ retrieve_last_days ok_server (mkdt 738946 3600) "u" "dev" "26"
       retriever_init
     = (Raise (SystemExit 1), retriever_init)
  /\ requested (snd (retrieve_last_days ok_server (mkdt 738946 3600) "u"
                       "dev" " 2 " retriever_init))
     = concat (day_urls "u" all_resources <$> [(2024, 2, 29); (2024, 3, 1)]).
Proof.
  assert (Hyear : forall n, 364878 <= n <= 3652059 -> four_digit_year n)
    by (intros n Hn; unfold four_digit_year, max_ordinal;
        change (ymd2ord 1000 1 1) with 364878; lia).
  split; [|split].
  - apply (last_days_request ok_server (mkdt 738946 3600) "u" "dev" "0"
             retriever_init 0 150);
      first [reflexivity | lia | apply Hyear; simpl; lia].
  - apply (last_days_request ok_server (mkdt 738946 3600) "u" "dev" "26"
             retriever_init 26 150);
      first [reflexivity | lia | apply Hyear; simpl; lia].
  - pose proof (last_days_request ok_server (mkdt 738946 3600) "u" "dev"
                  " 2 " retriever_init 2 150 eq_refl
                  (Hyear 738946 ltac:(lia)) (Hyear (738946 - (2 - 1)) ltac:(lia))
                  eq_refl) as H.
    cbv zeta in H. destruct H as [_ [_ H]].
    destruct H as [_ H].
    + lia.
    + lia.
    + intros n. split; [reflexivity|]. eexists. split; reflexivity.
    + intros r Hr. unfold all_resources in Hr.
      repeat (apply elem_of_cons in Hr; destruct Hr as [-> | Hr];
              [vm_compute; eauto|]).
      inversion Hr.
    + rewrite H. reflexivity.
Defined.

(** ** The device menu *)

Lemma device_lines_listable (devices : list json) :
  device_lines devices = inr tt <-> Forall listable devices.
Proof.
  induction devices as [|device rest IH]; simpl.
  - split; [constructor | reflexivity].
  - destruct device as [| | | | |d]; simpl;
      try (split; [discriminate
                  | intros H; inversion H as [|? ? [d' [Hd _]]];
                    discriminate]).
    destruct (assoc "id" d) eqn:Hid.
    + rewrite IH. split.
      * intros H. constructor; [|exact H]. exists d. rewrite Hid. eauto.
      * intros H. now inversion H.
    + split; [discriminate|]. intros H.
      inversion H as [|? ? [d' [Hd [v Hv]]]]. inversion Hd; subst d'.
      rewrite Hid in Hv. discriminate.
Qed.

Lemma device_lines_unit (devices : list json) (u : unit) :
  device_lines devices = inr u -> device_lines devices = inr tt.
Proof. now destruct u. Qed.

(** X22: the device menu returns a device id exactly when the fetched
    document is a non-empty list of dictionaries that each carry an 'id',
    the typed text reads as an integer between 1 and the number of devices,
    and the id is that of the device at this position of the list; a number
    below 1 never selects from the end of the list. *)
Theorem select_device_chooses (devices_data : json) (typed : string)
    (id : json) :
  select_device devices_data typed = inr (Some id)
  <-> exists (devices : list json) (number : Z) (d : list (string * json)),
        devices_data = JArr devices
        /\ Forall listable devices
        /\ int_of_str typed = Ok number
        /\ 1 <= number <= Z.of_nat (length devices)
        /\ devices !! Z.to_nat (number - 1) = Some (JObj d)
        /\ assoc "id" d = Some id.
Proof.
  split.
  - intros H. unfold select_device in H.
    destruct devices_data as [| | |s|devices|o]; simpl in H;
      try discriminate.
    + (* a string: its characters have no [get] *)
      destruct (0 <? Z.of_nat (String.length s)) eqn:Hn; [|discriminate].
      destruct s as [|c s']; [discriminate|]. simpl in H. discriminate.
    + destruct (0 <? Z.of_nat (length devices)) eqn:Hn; [|discriminate].
      destruct (device_lines devices) as [e|u] eqn:Hlines; [discriminate|].
      apply device_lines_unit, device_lines_listable in Hlines.
      destruct (int_of_str typed) as [number|e] eqn:Hint; [|discriminate].
      destruct ((0 <=? number - 1)
                && (number - 1 <? Z.of_nat (length devices))) eqn:Hrange;
        [|discriminate].
      apply andb_true_iff in Hrange. destruct Hrange as [Hlo Hhi].
      apply Z.leb_le in Hlo. apply Z.ltb_lt in Hhi.
      unfold py_index in H.
      replace (number - 1 <? 0) with false in H
        by (symmetry; apply Z.ltb_ge; lia).
      replace ((number - 1 <? 0)
               || (Z.of_nat (length devices) <=? number - 1))
        with false in H
        by (symmetry; apply orb_false_iff; split;
            [apply Z.ltb_ge | apply Z.leb_gt]; lia).
      destruct (devices !! Z.to_nat (number - 1)) as [device|] eqn:Hdev;
        simpl in H; [|discriminate].
      destruct device as [| | | | |d]; try discriminate.
      destruct (assoc "id" d) as [v|] eqn:Hid; simpl in H; [|discriminate].
      inversion H; subst v.
      exists devices, number, d. repeat split; try assumption; lia.
    + (* a dictionary: its keys have no [get] *)
      destruct (0 <? Z.of_nat (length o)) eqn:Hn; [|discriminate].
      destruct o as [|[k v] o']; [discriminate|]. simpl in H. discriminate.
  - intros [devices [number [d [-> [Hlist [Hint [Hrange [Hdev Hid]]]]]]]].
    unfold select_device. simpl.
    replace (0 <? Z.of_nat (length devices)) with true
      by (symmetry; apply Z.ltb_lt; lia).
    apply device_lines_listable in Hlist. rewrite Hlist, Hint.
    replace ((0 <=? number - 1) && (number - 1 <? Z.of_nat (length devices)))
      with true
      by (symmetry; apply andb_true_iff; split;
          [apply Z.leb_le | apply Z.ltb_lt]; lia).
    unfold py_index.
    replace (number - 1 <? 0) with false by (symmetry; apply Z.ltb_ge; lia).
    replace ((number - 1 <? 0)
             || (Z.of_nat (length devices) <=? number - 1)) with false
      by (symmetry; apply orb_false_iff; split;
          [apply Z.ltb_ge | apply Z.leb_gt]; lia).
    rewrite Hdev. simpl. rewrite Hid. reflexivity.
Qed.

(** X23: the device query exits with status 1 before any request when no
    request is left in the quota; when a request is left and the server
    answers 200 with a document, it is sent once, is counted as a success,
    and the menu is run on that document. *)
Theorem get_device_id_fetches (srv : Server) (user_id typed : string)
    (st : Retriever) (remaining : Z) :
  py_int (rl_remaining (rate_limit st)) = Ok remaining ->
  (remaining < 1 ->
   get_device_id srv user_id typed st = (inl (Exn (SystemExit 1)), st))
  /\ (forall (v : json) (n : Z),
        1 <= remaining ->
        status_code (srv (length (requested st))) = 200 ->
        body (srv (length (requested st))) = Some v ->
        successful_requests st !! "devices" = Some n ->
        exists st',
          get_device_id srv user_id typed st = (select_device v typed, st')
          /\ requested st' = requested st ++ [url_of (devices_endpoint user_id)]
          /\ total_requests st' = total_requests st + 1
          /\ successful_requests st'
             = <["devices" := n + 1]> (successful_requests st)
          /\ slept st' = slept st).
Proof.
  intros Hrem. split.
  - intros Hlt. unfold get_device_id, check_not_exceeded.
    unfold mbind, M_bind, get_state, lift. rewrite Hrem. simpl.
    change (Z.of_nat 1 * 1) with 1.
    replace (remaining <? 1) with true by (symmetry; apply Z.ltb_lt; lia).
    reflexivity.
  - intros v n Hge H200 Hbody Hn. unfold get_device_id, check_not_exceeded.
    unfold mbind at 1, M_bind at 1.
    unfold mbind, M_bind, get_state, lift. rewrite Hrem. simpl.
    change (Z.of_nat 1 * 1) with 1.
    replace (remaining <? 1) with false by (symmetry; apply Z.ltb_ge; lia).
    unfold mret, M_ret.
    rewrite (get_data_first_ok srv _ "devices" st v n H200 Hbody Hn).
    eexists. split; [reflexivity|]. simpl. repeat split.
Qed.

Lemma get_device_id_fetches_witness :
  fst (get_device_id two_device_server "u" "2" retriever_init)
  = select_device
      (JArr [JObj [("deviceVersion", JStr "Charge 5"); ("id", JStr "111")];
             JObj [("id", JStr "222")]]) "2".
Proof.
  destruct (get_device_id_fetches two_device_server "u" "2" retriever_init
              150 eq_refl) as [_ H].
  destruct (H (JArr [JObj [("deviceVersion", JStr "Charge 5");
                           ("id", JStr "111")];
                     JObj [("id", JStr "222")]]) 0
              ltac:(lia) eq_refl eq_refl eq_refl) as [st' [Hrun _]].
  rewrite Hrun. reflexivity.
Defined.
